(** * SplitWithMe: the ledger model and the settlement operations

    A shallow embedding of [models.py] (the entities [Amigo] and [Gasto],
    the conversion functions and the group model [Main]) and of the two
    background operations of [controllers.py] that decide whether friends
    are deleted.

    Conventions of the embedding.
    - Python floats are rationals ([Q]), the numbers the doubles stand for,
      and arithmetic on them is exact.  Where a statement depends on the
      rounding of the machine, the operation is given a second time with
      every arithmetic result, and every number read from a body, rounded to
      the nearest double ([redondea]): the payment, [distribuir64] and
      [pagar_saldo64].  Division is partial, as in Python: a zero divisor
      raises [ZeroDivisionError].
    - An identifier is [option Z]: [None] is Python's [None] (what
      [dict.get] gives for a missing key).
    - A JSON object is an association list from keys to scalar values, a
      response body is an object, a scalar or a list of those.  Values of a
      type other than the annotated one are reported as [TypeError] where
      they are decoded; [TypeError] also stands for the [AttributeError] of
      a method call on a value of the wrong type.
    - The REST server is not part of the program.  It is an oracle that
      answers each request from the history of the exchanges so far; every
      exchange is appended to a log, so that theorems can speak about what
      the program sent and what it was answered.
    - Python exceptions are values of [Exn]; the state (the in-memory group
      and the log) survives a raised exception, as mutations do in Python.
    - [print] output is not modelled. *)

From Stdlib Require Import ZArith QArith Qabs Qminmax List String Bool Lia Lqa.
From Stdlib Require Import DecimalString Ascii.
From Stdlib Require SpecFloat PrimFloat FloatOps.
Import ListNotations.

Local Open Scope string_scope.
Local Open Scope Q_scope.

(** ** Python values *)

Definition PyId := option Z.

Definition id_eqb (a b : PyId) : bool :=
  match a, b with
  | Some x, Some y => Z.eqb x y
  | None, None => true
  | _, _ => false
  end.

(** Truth value of an identifier: [None] and [0] are false. *)
Definition id_truthy (a : PyId) : bool :=
  match a with
  | Some z => negb (Z.eqb z 0)
  | None => false
  end.

(** [x in l] on a list of identifiers. *)
Definition id_in (x : PyId) (l : list PyId) : bool := existsb (id_eqb x) l.

(** [set(l1) != set(l2)] is [negb (set_eqb l1 l2)]. *)
Definition set_eqb (l1 l2 : list PyId) : bool :=
  forallb (fun x => id_in x l2) l1 && forallb (fun x => id_in x l1) l2.

(** [str(i)] for an integer, [str(None)] for [None]. *)
Definition str_of_Z (z : Z) : string := NilZero.string_of_int (Z.to_int z).

Definition str_of_id (a : PyId) : string :=
  match a with
  | Some z => str_of_Z z
  | None => "None"
  end.

Definition Qltb (x y : Q) : bool := negb (Qle_bool y x).

(** Python's two-argument [min]: the second argument only when it is
    strictly smaller. *)
Definition py_min (a b : Q) : Q := if Qltb b a then b else a.

Definition len {A : Type} (l : list A) : Q := inject_Z (Z.of_nat (List.length l)).

(** ** Binary64

    A Python float is an IEEE 754 double.  A finite double is a rational
    number, and the comparisons and the [min] of doubles are those of the
    numbers they stand for.  What the machine adds is that the result of an
    arithmetic operation, like a number read from a JSON text, is the
    nearest double, ties going to the even mantissa.

    [binary64 q] is the double nearest to [q]: the correctly rounded
    quotient of the numerator by the denominator, by the division of
    [SpecFloat], the specification of IEEE 754 arithmetic that Rocq's
    primitive floats obey. *)
Definition binary64 (q : Q) : SpecFloat.spec_float :=
  match Qnum q with
  | Z0 => SpecFloat.S754_zero false
  | Zpos n =>
      SpecFloat.SFdiv FloatOps.prec FloatOps.emax
        (SpecFloat.S754_finite false n 0) (SpecFloat.S754_finite false (Qden q) 0)
  | Zneg n =>
      SpecFloat.SFdiv FloatOps.prec FloatOps.emax
        (SpecFloat.S754_finite true n 0) (SpecFloat.S754_finite false (Qden q) 0)
  end.

(** [2 ^ e] *)
Definition Qpow2 (e : Z) : Q :=
  match e with
  | Z0 => 1
  | Zpos p => inject_Z (Z.pow_pos 2 p)
  | Zneg p => 1 # Pos.pow 2 p
  end.

(** The number a finite double stands for. *)
Definition valor (f : SpecFloat.spec_float) : option Q :=
  match f with
  | SpecFloat.S754_zero _ => Some 0
  | SpecFloat.S754_finite s m e =>
      Some (Qred (inject_Z (if s then Zneg m else Zpos m) * Qpow2 e))
  | _ => None
  end.

(** [redondea q]: [q] rounded to binary64, as a number.  A number of
    magnitude [2 ^ 1024] or more, which binary64 turns into an infinity, is
    left as it is: the model has no infinities. *)
Definition redondea (q : Q) : Q :=
  match valor (binary64 q) with
  | Some x => x
  | None => q
  end.

Inductive PyVal : Type :=
| VNone
| VInt (z : Z)
| VFloat (q : Q)
| VStr (s : string).

Definition Dict := list (string * PyVal).

Fixpoint dict_get (d : Dict) (k : string) : option PyVal :=
  match d with
  | [] => None
  | (k', v) :: d' => if String.eqb k k' then Some v else dict_get d' k
  end.

(** ** Exceptions *)

Inductive Exn : Type :=
| ConnectionError (msg : string)
| Timeout (msg : string)
| HTTPError (status : Z) (msg : string)
| RequestException (msg : string)
| PyException (msg : string)
| ValueError (msg : string)
| ZeroDivisionError
| UnboundLocalError (var : string)
| KeyError (key : string)
| TypeError.

(** [str(e)] *)
Definition exn_str (e : Exn) : string :=
  match e with
  | ConnectionError m | Timeout m | HTTPError _ m | RequestException m => m
  | PyException m | ValueError m => m
  | ZeroDivisionError => "division by zero"
  | UnboundLocalError v => v
  | KeyError k => k
  | TypeError => "TypeError"
  end.

(** [e.response.status_code] when [e] has a response. *)
Definition exn_status (e : Exn) : option Z :=
  match e with
  | HTTPError s _ => Some s
  | _ => None
  end.

Definition Res (A : Type) : Type := (Exn + A)%type.

Definition py_div (a b : Q) : Res Q :=
  if Qeq_bool b 0 then inl ZeroDivisionError else inr (a / b).

(** Typed views of a dictionary entry.  [None] is a value of another
    type. *)
Definition as_id (v : option PyVal) : option PyId :=
  match v with
  | None | Some VNone => Some None
  | Some (VInt z) => Some (Some z)
  | _ => None
  end.

Definition as_str (v : option PyVal) : option (option string) :=
  match v with
  | None | Some VNone => Some None
  | Some (VStr s) => Some (Some s)
  | _ => None
  end.

Definition as_float (default : Q) (v : option PyVal) : option Q :=
  match v with
  | None => Some default
  | Some (VInt z) => Some (inject_Z z)
  | Some (VFloat q) => Some q
  | _ => None
  end.

Definition as_int (default : Z) (v : option PyVal) : option Z :=
  match v with
  | None => Some default
  | Some (VInt z) => Some z
  | _ => None
  end.

(** ** Entities *)

Module Amigo.

Record t : Type := mk {
  id : PyId;
  nombre : option string;
  credit_balance : Q;
  debit_balance : Q
}.

Definition saldo (self : t) : Q := credit_balance self - debit_balance self.

Definition actualizar_saldo (self : t) (importe : Q) : t :=
  mk (id self) (nombre self) (credit_balance self + importe) (debit_balance self).

Definition of_id (i : PyId) : PyVal :=
  match i with Some z => VInt z | None => VNone end.

Definition of_str (s : option string) : PyVal :=
  match s with Some x => VStr x | None => VNone end.

Definition to_dict (self : t) : Dict :=
  [ ("id", of_id (id self));
    ("name", of_str (nombre self)) ].

End Amigo.

Module Gasto.

Record t : Type := mk {
  id : PyId;
  descripcion : option string;
  monto : Q;
  fecha : option string;
  pagador_id : PyId;
  deudores_ids : list PyId;
  credit_balance : Q;
  num_friends : Z
}.

Definition split (self : t) : Res Q :=
  if (0 <? num_friends self)%Z
  then py_div (monto self) (inject_Z (num_friends self))
  else inr 0.

Definition to_dict (self : t) : Dict :=
  [ ("id", Amigo.of_id (id self));
    ("description", Amigo.of_str (descripcion self));
    ("amount", VFloat (monto self));
    ("date", Amigo.of_str (fecha self)) ].

End Gasto.

(** ** Conversions from the wire form *)

Definition amigo_from_dict (data : Dict) : option Amigo.t :=
  match as_id (dict_get data "id"),
        as_str (dict_get data "name"),
        as_float 0 (dict_get data "credit_balance"),
        as_float 0 (dict_get data "debit_balance") with
  | Some i, Some n, Some c, Some d => Some (Amigo.mk i n c d)
  | _, _, _, _ => None
  end.

(** [monto] has no default: a missing amount is [None] in Python and is
    outside the typed record. *)
Definition gasto_from_dict (data : Dict) : option Gasto.t :=
  match as_id (dict_get data "id"),
        as_str (dict_get data "description"),
        dict_get data "amount",
        as_str (dict_get data "date"),
        as_id (dict_get data "pagador_id"),
        as_float 0 (dict_get data "credit_balance"),
        as_int 1 (dict_get data "num_friends") with
  | Some i, Some d, Some am, Some f, Some p, Some c, Some n =>
      match as_float 0 (Some am) with
      | Some m => Some (Gasto.mk i d m f p [] c n)
      | None => None
      end
  | _, _, _, _, _, _, _ => None
  end.

(** ** The REST server as seen from the program *)

(** One constructor per endpoint the model calls. *)
Inductive Request : Type :=
| GET_friends
| GET_friend (friend_id : PyId)
| DELETE_friend (friend_id : PyId)
| GET_friend_expenses (friend_id : PyId)
| POST_expenses (description : string) (amount : Q) (date : string)
| PUT_expense (expense_id : PyId) (description : option string) (amount : Q)
              (date : option string)
| DELETE_expense (expense_id : PyId)
| GET_expense_friends (expense_id : PyId)
| POST_expense_friends (expense_id : PyId) (friend_id : PyId)
| DELETE_expense_friend (expense_id : PyId) (friend_id : PyId)
| GET_expense_friend (expense_id : PyId) (friend_id : PyId)
| PUT_expense_friend (expense_id : PyId) (friend_id : PyId) (amount : Q).

Inductive Item : Type :=
| IVal (v : PyVal)
| IDict (d : Dict).

Inductive Body : Type :=
| BItem (i : Item)
| BList (l : list Item).

(** What [requests] raises when no response arrives. *)
Inductive NetError : Type :=
| NetConnection (msg : string)
| NetTimeout (msg : string)
| NetOther (msg : string).

Definition net_exn (e : NetError) : Exn :=
  match e with
  | NetConnection m => ConnectionError m
  | NetTimeout m => Timeout m
  | NetOther m => RequestException m
  end.

(** A response: its status, the text of the error [raise_for_status]
    would raise, and its body ([None]: not JSON). *)
Record Response : Type := mkResponse {
  status_code : Z;
  reason : string;
  body : option Body
}.

Inductive Reply : Type :=
| NoResponse (e : NetError)
| Answer (r : Response).

Definition Exchange : Type := (Request * Reply)%type.

Definition Server : Type := list Exchange -> Request -> Reply.

Definition is_ok (r : Reply) : bool :=
  match r with
  | Answer resp => negb ((400 <=? status_code resp)%Z && (status_code resp <? 600)%Z)
  | NoResponse _ => false
  end.

(** ** Effects: exceptions over a state made of the memory and the log *)

Module Eff.
Section WithMem.

Context {Mem : Type}.

Record State : Type := mkState { mem : Mem; log : list Exchange }.

Definition M (A : Type) : Type := State -> Res A * State.

Definition ret {A} (a : A) : M A := fun s => (inr a, s).

Definition raise {A} (e : Exn) : M A := fun s => (inl e, s).

Definition bind {A B} (m : M A) (k : A -> M B) : M B :=
  fun s =>
    match m s with
    | (inr a, s') => k a s'
    | (inl e, s') => (inl e, s')
    end.

(** [try: m except Exception as e: h e]; a handler re-raises what its
    [except] clauses do not match. *)
Definition try_except {A} (m : M A) (h : Exn -> M A) : M A :=
  fun s =>
    match m s with
    | (inr a, s') => (inr a, s')
    | (inl e, s') => h e s'
    end.

Definition lift {A} (r : Res A) : M A := fun s => (r, s).

Definition get_mem : M Mem := fun s => (inr (mem s), s).

Definition set_mem (m : Mem) : M unit := fun s => (inr tt, mkState m (log s)).

(** Typed decoding of a wire value. *)
Definition typed {A} (o : option A) : M A :=
  match o with
  | Some a => ret a
  | None => raise TypeError
  end.

Variable server : Server.

(** [requests.get/post/put/delete]: the exchange is logged, a missing
    response raises. *)
Definition send (r : Request) : M Response :=
  fun s =>
    let rep := server (log s) r in
    let s' := mkState (mem s) (log s ++ [(r, rep)]) in
    match rep with
    | NoResponse e => (inl (net_exn e), s')
    | Answer resp => (inr resp, s')
    end.

Definition raise_for_status (resp : Response) : M unit :=
  if ((400 <=? status_code resp)%Z && (status_code resp <? 600)%Z)%bool
  then raise (HTTPError (status_code resp) (reason resp))
  else ret tt.

Definition json (resp : Response) : M Body :=
  match body resp with
  | Some b => ret b
  | None => raise (RequestException "Expecting value")
  end.

End WithMem.
End Eff.

Declare Scope eff_scope.
Delimit Scope eff_scope with eff.
Notation "x <- m ;; k" := (Eff.bind m (fun x => k))
  (at level 61, m at next level, right associativity) : eff_scope.
Notation "m ;;; k" := (Eff.bind m (fun _ => k))
  (at level 61, right associativity) : eff_scope.

(** The [except] clauses shared by the methods of [Main]. *)
Definition is_connection_error (e : Exn) : bool :=
  match e with ConnectionError _ => true | _ => false end.

Definition is_timeout (e : Exn) : bool :=
  match e with Timeout _ => true | _ => false end.

(** [ConnectionError], [Timeout] and [HTTPError] derive from
    [RequestException]. *)
Definition is_request_exception (e : Exn) : bool :=
  match e with
  | ConnectionError _ | Timeout _ | HTTPError _ _ | RequestException _ => true
  | _ => false
  end.

Fixpoint status_message (table : list (Z * string)) (status : Z) : option string :=
  match table with
  | [] => None
  | (c, m) :: t => if Z.eqb status c then Some m else status_message t status
  end.

(** The message of the [except RequestException as e] clause: the text of
    the first matching status, else the prefixed [str(e)]. *)
Definition http_message (table : list (Z * string)) (prefix : string) (e : Exn)
  : string :=
  match exn_status e with
  | Some s =>
      match status_message table s with
      | Some m => m
      | None => prefix ++ exn_str e
      end
  | None => prefix ++ exn_str e
  end.

(** The update payload of [update_gasto]: a dictionary in which each key
    may be absent ([None]). *)
Module NuevosDatos.
Record t : Type := mk {
  descripcion : option string;
  monto : option Q;
  fecha : option string;
  participantes_ids : option (list PyId);
  pagador_id : option PyId
}.
End NuevosDatos.

(** [d.get(key, default)] on an optional entry. *)
Definition get_or {A : Type} (o : option A) (default : A) : A :=
  match o with
  | Some a => a
  | None => default
  end.

(** ** The group model *)

Module Main.

Record t : Type := mk {
  id : Z;
  nombre : string;
  amigos : list Amigo.t;
  gastos : list Gasto.t
}.

Definition init : t := mk 1 "Grupo Principal" [] [].

Definition set_amigos (self : t) (l : list Amigo.t) : t :=
  mk (id self) (nombre self) l (gastos self).

Definition set_gastos (self : t) (l : list Gasto.t) : t :=
  mk (id self) (nombre self) (amigos self) l.

Definition M : Type -> Type := @Eff.M t.

Local Open Scope eff_scope.

(** Decoders of response bodies. *)
Definition as_dict (b : Body) : option Dict :=
  match b with
  | BItem (IDict d) => Some d
  | _ => None
  end.

Fixpoint all_some {A : Type} (l : list (option A)) : option (list A) :=
  match l with
  | [] => Some []
  | Some a :: t =>
      match all_some t with
      | Some r => Some (a :: r)
      | None => None
      end
  | None :: _ => None
  end.

(** [d[key]]: a missing key raises [KeyError]. *)
Definition index (d : Dict) (k : string) : Res PyVal :=
  match dict_get d k with
  | Some v => inr v
  | None => inl (KeyError k)
  end.

Definition number (v : PyVal) : Res Q :=
  match v with
  | VInt z => inr (inject_Z z)
  | VFloat q => inr q
  | _ => inl TypeError
  end.

Definition ident (v : PyVal) : Res PyId :=
  match v with
  | VInt z => inr (Some z)
  | VNone => inr None
  | _ => inl TypeError
  end.

(** [for x in body]: the elements of a list, the keys of a dictionary, the
    characters of a string; other scalars are not iterable. *)
Definition py_iter (b : Body) : Res (list Item) :=
  match b with
  | BList l => inr l
  | BItem (IDict d) => inr (map (fun kv => IVal (VStr (fst kv))) d)
  | BItem (IVal (VStr s)) =>
      inr (map (fun c => IVal (VStr (String c EmptyString))) (list_ascii_of_string s))
  | BItem (IVal _) => inl TypeError
  end.

(** [a.get] on an element that is not a dictionary fails. *)
Definition item_dict (i : Item) : option Dict :=
  match i with
  | IDict d => Some d
  | IVal _ => None
  end.

Section Methods.

Variable server : Server.

Local Abbreviation send := (Eff.send server).
Local Abbreviation ret := Eff.ret.
Local Abbreviation raise := Eff.raise.
Local Abbreviation try_except := Eff.try_except.

(** [except ConnectionError / Timeout / RequestException as e] with the
    three messages of a method; anything else propagates. *)
Definition handlers {A : Type} (conn tout : string)
    (table : list (Z * string)) (prefix : string) (e : Exn) : M A :=
  if is_connection_error e then raise (PyException conn)
  else if is_timeout e then raise (PyException tout)
  else if is_request_exception e
       then raise (PyException (http_message table prefix e))
       else raise e.

Definition cargar_amigos : M (list Amigo.t) :=
  try_except
    (response <- send GET_friends ;;
     Eff.raise_for_status response ;;;
     amigos_data <- Eff.json response ;;
     items <- Eff.lift (py_iter amigos_data) ;;
     ds <- Eff.typed (all_some (map item_dict items)) ;;
     l <- Eff.typed (all_some (map amigo_from_dict ds)) ;;
     self <- Eff.get_mem ;;
     Eff.set_mem (set_amigos self l) ;;;
     ret l)
    (handlers
       "No se puede conectar al servidor. Verifica que el servidor esté ejecutándose en http://localhost:8000"
       "El servidor tardó demasiado en responder. Inténtalo de nuevo más tarde"
       [(500%Z, "Error interno del servidor al cargar amigos");
        (503%Z, "Servicio no disponible. Intenta más tarde")]
       "Error al cargar amigos: ").

Definition eliminar_amigo (amigo_id : PyId) : M unit :=
  try_except
    (response <- send (DELETE_friend amigo_id) ;;
     Eff.raise_for_status response ;;;
     self <- Eff.get_mem ;;
     Eff.set_mem
       (set_amigos self
          (filter (fun a => negb (id_eqb (Amigo.id a) amigo_id)) (amigos self))))
    (handlers
       "No se puede conectar al servidor. Verifica que el servidor esté ejecutándose"
       "El servidor tardó demasiado en responder. Inténtalo de nuevo"
       [(409%Z, "No se puede eliminar el amigo porque tiene saldo pendiente");
        (404%Z, "El amigo no existe");
        (500%Z, "Error interno del servidor")]
       "Error al eliminar amigo: ").

Definition obtener_amigo (amigo_id : PyId) : M Amigo.t :=
  try_except
    (response <- send (GET_friend amigo_id) ;;
     Eff.raise_for_status response ;;;
     data <- Eff.json response ;;
     d <- Eff.typed (as_dict data) ;;
     Eff.typed (amigo_from_dict d))
    (handlers
       "No se puede conectar al servidor"
       "El servidor tardó demasiado en responder"
       []
       "Error al obtener amigo: ").

(** One element of the participants response: a dictionary with
    [friend_id] or [id], or a bare integer; anything else is skipped. *)
Definition participante_de (p : Item) : Res (list PyId) :=
  match p with
  | IDict d =>
      match dict_get d "friend_id" with
      | Some v => match ident v with inr i => inr [i] | inl e => inl e end
      | None =>
          match dict_get d "id" with
          | Some v => match ident v with inr i => inr [i] | inl e => inl e end
          | None => inr []
          end
      end
  | IVal (VInt z) => inr [Some z]
  | IVal _ => inr []
  end.

Fixpoint participantes_de (l : list Item) : Res (list PyId) :=
  match l with
  | [] => inr []
  | p :: t =>
      match participante_de p with
      | inl e => inl e
      | inr a =>
          match participantes_de t with
          | inl e => inl e
          | inr b => inr (a ++ b)%list
          end
      end
  end.

(** Iterating a body that is not a list: the keys of a dictionary and
    the characters of a string are skipped, other scalars are not
    iterable. *)
Definition participantes_body (b : Body) : Res (list PyId) :=
  match b with
  | BList l => participantes_de l
  | BItem (IDict _) => inr []
  | BItem (IVal (VStr _)) => inr []
  | BItem (IVal _) => inl TypeError
  end.

Definition obtener_participantes_gasto (gasto_id : PyId) : M (list PyId) :=
  try_except
    (response <- send (GET_expense_friends gasto_id) ;;
     Eff.raise_for_status response ;;;
     participantes_data <- Eff.json response ;;
     Eff.lift (participantes_body participantes_data))
    (handlers
       "No se puede conectar al servidor"
       "El servidor tardó demasiado en responder"
       []
       "Error al obtener participantes del gasto: ").


(** [for x in l: body x] *)
Fixpoint for_each {A : Type} (l : list A) (body : A -> M unit) : M unit :=
  match l with
  | [] => ret tt
  | x :: t => body x ;;; for_each t body
  end.

(** [try: m except RequestException as e: raise Exception(prefix + str(e))] *)
Definition wrap {A : Type} (prefix : string) (m : M A) : M A :=
  try_except m
    (fun e =>
       if is_request_exception e
       then raise (PyException (prefix ++ exn_str e))
       else raise e).

(** [try: m except RequestException: continue] inside a loop. *)
Definition skip_on_error (m : M unit) : M unit :=
  try_except m (fun e => if is_request_exception e then ret tt else raise e).

(** [requests.<verb>(...).raise_for_status()] *)
Definition send_checked (r : Request) : M unit :=
  response <- send r ;; Eff.raise_for_status response.

(** The compensation of [add_gasto]:
    [if gasto_id: try: requests.delete(...) except: pass]. *)
Definition rollback (gasto_id : PyId) : M unit :=
  if id_truthy gasto_id
  then try_except (send (DELETE_expense gasto_id) ;;; ret tt) (fun _ => ret tt)
  else ret tt.

(** The three [except] clauses of [add_gasto], for the value [gasto_id]
    has when the exception reaches them. *)
Definition add_gasto_handlers {A : Type} (gasto_id : PyId) (e : Exn) : M A :=
  if is_connection_error e then
    rollback gasto_id ;;;
    raise (PyException
      "No se puede conectar al servidor. Verifica que el servidor esté ejecutándose")
  else if is_timeout e then
    rollback gasto_id ;;;
    raise (PyException
      "El servidor tardó demasiado en responder. El gasto podría no haberse creado correctamente")
  else if is_request_exception e then
    rollback gasto_id ;;;
    raise (PyException
      (http_message
         [(404%Z, "Uno o más participantes no existen");
          (400%Z, "Datos inválidos para el gasto");
          (500%Z, "Error interno del servidor")]
         "Error al añadir gasto: " e))
  else raise e.

Definition set_pagador (g : Gasto.t) (p : PyId) : Gasto.t :=
  Gasto.mk (Gasto.id g) (Gasto.descripcion g) (Gasto.monto g) (Gasto.fecha g) p
           (Gasto.deudores_ids g) (Gasto.credit_balance g) (Gasto.num_friends g).

(** Steps 2 to 5 of [add_gasto] and the append to the local list: the part
    of the [try] block in which [gasto_id] is set. *)
Definition add_gasto_pasos (gasto : Gasto.t) (monto : Q) (pagador_id : PyId)
    (deudores_ids : list PyId) : M Gasto.t :=
  for_each deudores_ids
    (fun deudor_id =>
       wrap ("Error al añadir participante " ++ str_of_id deudor_id ++ ": ")
            (send_checked (POST_expense_friends (Gasto.id gasto) deudor_id))) ;;;
  credito_pagador <-
    (if id_in pagador_id deudores_ids
     then monto_por_persona <- Eff.lift (py_div monto (len deudores_ids)) ;;
          ret (monto - monto_por_persona)
     else ret monto) ;;
  wrap "Error al configurar pagador: "
    ((if negb (id_in pagador_id deudores_ids)
      then send_checked (POST_expense_friends (Gasto.id gasto) pagador_id)
      else ret tt) ;;;
     send_checked (PUT_expense_friend (Gasto.id gasto) pagador_id credito_pagador)) ;;;
  (if negb (id_in pagador_id deudores_ids)
   then
     monto_por_deudor <- Eff.lift (py_div (- monto) (len deudores_ids)) ;;
     for_each deudores_ids
       (fun deudor_id =>
          wrap ("Error al actualizar crédito de deudor " ++ str_of_id deudor_id ++ ": ")
               (send_checked
                  (PUT_expense_friend (Gasto.id gasto) deudor_id monto_por_deudor)))
   else
     monto_por_persona <- Eff.lift (py_div monto (len deudores_ids)) ;;
     for_each deudores_ids
       (fun deudor_id =>
          if negb (id_eqb deudor_id pagador_id)
          then
            wrap ("Error al actualizar crédito de deudor " ++ str_of_id deudor_id ++ ": ")
                 (send_checked
                    (PUT_expense_friend (Gasto.id gasto) deudor_id (- monto_por_persona)))
          else ret tt)) ;;;
  self <- Eff.get_mem ;;
  Eff.set_mem (set_gastos self (gastos self ++ [gasto])%list) ;;;
  ret gasto.

(** [fecha_actual] is [datetime.now().strftime("%Y-%m-%d")], an input of
    the model.  The single [try] of the source is cut where [gasto_id] is
    assigned: an exception of step 1 reaches the handlers with
    [gasto_id = None], a later one with the identifier of the new expense. *)
Definition add_gasto (fecha_actual : string) (descripcion : string) (monto : Q)
    (pagador_id : PyId) (deudores_ids : list PyId) : M Gasto.t :=
  gasto <- try_except
             (response <- send (POST_expenses descripcion monto fecha_actual) ;;
              Eff.raise_for_status response ;;;
              data <- Eff.json response ;;
              d <- Eff.typed (as_dict data) ;;
              Eff.typed (gasto_from_dict d))
             (add_gasto_handlers None) ;;
  let gasto_id := Gasto.id gasto in
  let gasto := set_pagador gasto pagador_id in
  try_except
    (add_gasto_pasos gasto monto pagador_id deudores_ids)
    (add_gasto_handlers gasto_id).

Definition eliminar_gasto (gasto_id : PyId) : M unit :=
  try_except
    (response <- send (DELETE_expense gasto_id) ;;
     Eff.raise_for_status response ;;;
     self <- Eff.get_mem ;;
     Eff.set_mem
       (set_gastos self
          (filter (fun g => negb (id_eqb (Gasto.id g) gasto_id)) (gastos self))))
    (handlers
       "No se puede conectar al servidor"
       "El servidor tardó demasiado en responder"
       [(404%Z, "El gasto no existe"); (500%Z, "Error interno del servidor")]
       "Error al eliminar gasto: ").

Fixpoint find_gasto (l : list Gasto.t) (gasto_id : PyId) : option Gasto.t :=
  match l with
  | [] => None
  | g :: t => if id_eqb (Gasto.id g) gasto_id then Some g else find_gasto t gasto_id
  end.

(** Assignments to the attributes of [gasto_actual], the object found by
    [find_gasto]: the list holds that same object, so its first entry with
    the identifier changes. *)
Fixpoint update_first (l : list Gasto.t) (gasto_id : PyId)
    (f : Gasto.t -> Gasto.t) : list Gasto.t :=
  match l with
  | [] => []
  | g :: t =>
      if id_eqb (Gasto.id g) gasto_id then f g :: t
      else g :: update_first t gasto_id f
  end.

Definition mutate_gasto (gasto_id : PyId) (f : Gasto.t -> Gasto.t) : M unit :=
  self <- Eff.get_mem ;;
  Eff.set_mem (set_gastos self (update_first (gastos self) gasto_id f)).

Definition set_basicos (descripcion : option string) (monto : Q)
    (fecha : option string) (g : Gasto.t) : Gasto.t :=
  Gasto.mk (Gasto.id g) descripcion monto fecha (Gasto.pagador_id g)
           (Gasto.deudores_ids g) (Gasto.credit_balance g) (Gasto.num_friends g).

Definition set_pagador_deudores (pagador_id : PyId) (deudores_ids : list PyId)
    (g : Gasto.t) : Gasto.t :=
  Gasto.mk (Gasto.id g) (Gasto.descripcion g) (Gasto.monto g) (Gasto.fecha g)
           pagador_id deudores_ids (Gasto.credit_balance g) (Gasto.num_friends g).

(** [participante_data.get("credit_balance", 0) > 0] on the share of one
    participant. *)
Definition tiene_credito (gasto_id participante_id : PyId) : M bool :=
  response <- send (GET_expense_friend gasto_id participante_id) ;;
  Eff.raise_for_status response ;;;
  participante_data <- Eff.json response ;;
  d <- Eff.typed (as_dict participante_data) ;;
  c <- Eff.typed (as_float 0 (dict_get d "credit_balance")) ;;
  ret (Qltb 0 c).

(** The search of the payer: the loop leaves [pagador_id] as it was when no
    participant answers with a positive credit. *)
Fixpoint buscar_pagador (gasto_id : PyId) (participantes : list PyId)
    (pagador_id : PyId) : M PyId :=
  match participantes with
  | [] => ret pagador_id
  | participante_id :: t =>
      found <- try_except (tiene_credito gasto_id participante_id)
                 (fun e => if is_request_exception e then ret false else raise e) ;;
      if found then ret participante_id
      else buscar_pagador gasto_id t pagador_id
  end.

Definition nuevo_credito (monto_nuevo : Q) (pagador_id : PyId)
    (nuevos_participantes : list PyId) (participante_id : PyId) : M Q :=
  if id_eqb participante_id pagador_id then
    if id_in pagador_id nuevos_participantes then
      monto_por_persona <- Eff.lift (py_div monto_nuevo (len nuevos_participantes)) ;;
      ret (monto_nuevo - monto_por_persona)
    else ret monto_nuevo
  else ret 0.

Definition recalcular (gasto_id : PyId) (monto_nuevo : Q) (pagador_id : PyId)
    (nuevos_participantes : list PyId) : M unit :=
  for_each nuevos_participantes
    (fun participante_id =>
       skip_on_error
         (credito <- nuevo_credito monto_nuevo pagador_id nuevos_participantes
                       participante_id ;;
          send_checked (PUT_expense_friend gasto_id participante_id credito))).

(** The local [pagador_id] is bound only inside the recomputation: [None]
    below is the unbound local, read by the last assignments. *)
Definition update_gasto (gasto_id : PyId) (nuevos_datos : NuevosDatos.t) : M unit :=
  try_except
    (self <- Eff.get_mem ;;
     match find_gasto (gastos self) gasto_id with
     | None => raise (PyException "Gasto no encontrado")
     | Some gasto_actual =>
         let monto_anterior := Gasto.monto gasto_actual in
         let monto_nuevo := get_or (NuevosDatos.monto nuevos_datos) monto_anterior in
         participantes_actuales <- obtener_participantes_gasto gasto_id ;;
         let nuevos_participantes :=
           get_or (NuevosDatos.participantes_ids nuevos_datos) participantes_actuales in
         let description :=
           match NuevosDatos.descripcion nuevos_datos with
           | Some s => Some s
           | None => Gasto.descripcion gasto_actual
           end in
         let date :=
           match NuevosDatos.fecha nuevos_datos with
           | Some s => Some s
           | None => Gasto.fecha gasto_actual
           end in
         send_checked (PUT_expense gasto_id description monto_nuevo date) ;;;
         (if negb (set_eqb participantes_actuales nuevos_participantes) then
            for_each participantes_actuales
              (fun participante_id =>
                 if negb (id_in participante_id nuevos_participantes)
                 then skip_on_error
                        (send_checked (DELETE_expense_friend gasto_id participante_id))
                 else ret tt) ;;;
            for_each nuevos_participantes
              (fun participante_id =>
                 if negb (id_in participante_id participantes_actuales)
                 then skip_on_error
                        (send_checked (POST_expense_friends gasto_id participante_id))
                 else ret tt)
          else ret tt) ;;;
         pagador_local <-
           (if negb (Qeq_bool monto_anterior monto_nuevo)
               || negb (set_eqb participantes_actuales nuevos_participantes)
            then
              let pagador_id :=
                get_or (NuevosDatos.pagador_id nuevos_datos)
                       (Gasto.pagador_id gasto_actual) in
              pagador_id <-
                (if negb (id_truthy pagador_id)
                 then buscar_pagador gasto_id nuevos_participantes pagador_id
                 else ret pagador_id) ;;
              recalcular gasto_id monto_nuevo pagador_id nuevos_participantes ;;;
              ret (Some pagador_id)
            else ret None) ;;
         mutate_gasto gasto_id (set_basicos description monto_nuevo date) ;;;
         match pagador_local with
         | None => raise (UnboundLocalError "pagador_id")
         | Some pagador_id =>
             mutate_gasto gasto_id (set_pagador_deudores pagador_id nuevos_participantes)
         end
     end)
    (handlers
       "No se puede conectar al servidor"
       "El servidor tardó demasiado en responder. Los cambios podrían no haberse guardado"
       [(404%Z, "El gasto o uno de los participantes no existe");
        (400%Z, "Datos inválidos para actualizar el gasto");
        (500%Z, "Error interno del servidor")]
       "Error al actualizar gasto: ").

(** The loop of [pagar_saldo]; it returns the amount left. *)
Fixpoint distribuir (amigo_id : PyId) (gastos_amigo : list Item)
    (importe_restante : Q) : M Q :=
  match gastos_amigo with
  | [] => ret importe_restante
  | gasto_data :: t =>
      if Qle_bool importe_restante 0 then ret importe_restante
      else
        d <- Eff.typed (item_dict gasto_data) ;;
        gasto_id <- Eff.lift (index d "id") ;;
        debit <- Eff.lift (index d "debit_balance") ;;
        credit <- Eff.lift (index d "credit_balance") ;;
        debit <- Eff.lift (number debit) ;;
        credit <- Eff.lift (number credit) ;;
        let deuda := debit - credit in
        if Qltb 0 deuda then
          let pago := py_min importe_restante deuda in
          gasto_id <- Eff.lift (ident gasto_id) ;;
          send (PUT_expense_friend gasto_id amigo_id pago) ;;;
          distribuir amigo_id t (importe_restante - pago)
        else distribuir amigo_id t importe_restante
  end.

Definition pagar_saldo (amigo_id : PyId) (importe : Q) : M unit :=
  try_except
    (response <- send (GET_friend_expenses amigo_id) ;;
     Eff.raise_for_status response ;;;
     gastos_amigo <- Eff.json response ;;
     filas <- Eff.lift (py_iter gastos_amigo) ;;
     distribuir amigo_id filas importe ;;;
     cargar_amigos ;;;
     ret tt)
    (handlers
       "No se puede conectar al servidor"
       "El servidor tardó demasiado en responder. El pago podría no haberse registrado correctamente"
       [(404%Z, "El amigo o sus gastos no existen");
        (400%Z, "Datos de pago inválidos");
        (500%Z, "Error interno del servidor")]
       "Error al registrar pago: ").

(** *** The payment on binary64

    [pagar_saldo] as the machine runs it.  [number64] is a number of the
    body as [response.json()] gives it, a double (an integer of the body is
    taken as the double it converts to); the outstanding debt and the
    amount left are differences of doubles, hence rounded; [min] and the
    comparisons are exact. *)
Definition number64 (v : PyVal) : Res Q :=
  match number v with
  | inr q => inr (redondea q)
  | inl e => inl e
  end.

Fixpoint distribuir64 (amigo_id : PyId) (gastos_amigo : list Item)
    (importe_restante : Q) : M Q :=
  match gastos_amigo with
  | [] => ret importe_restante
  | gasto_data :: t =>
      if Qle_bool importe_restante 0 then ret importe_restante
      else
        d <- Eff.typed (item_dict gasto_data) ;;
        gasto_id <- Eff.lift (index d "id") ;;
        debit <- Eff.lift (index d "debit_balance") ;;
        credit <- Eff.lift (index d "credit_balance") ;;
        debit <- Eff.lift (number64 debit) ;;
        credit <- Eff.lift (number64 credit) ;;
        let deuda := redondea (debit - credit) in
        if Qltb 0 deuda then
          let pago := py_min importe_restante deuda in
          gasto_id <- Eff.lift (ident gasto_id) ;;
          send (PUT_expense_friend gasto_id amigo_id pago) ;;;
          distribuir64 amigo_id t (redondea (importe_restante - pago))
        else distribuir64 amigo_id t importe_restante
  end.

Definition pagar_saldo64 (amigo_id : PyId) (importe : Q) : M unit :=
  try_except
    (response <- send (GET_friend_expenses amigo_id) ;;
     Eff.raise_for_status response ;;;
     gastos_amigo <- Eff.json response ;;
     filas <- Eff.lift (py_iter gastos_amigo) ;;
     distribuir64 amigo_id filas importe ;;;
     cargar_amigos ;;;
     ret tt)
    (handlers
       "No se puede conectar al servidor"
       "El servidor tardó demasiado en responder. El pago podría no haberse registrado correctamente"
       [(404%Z, "El amigo o sus gastos no existen");
        (400%Z, "Datos de pago inválidos");
        (500%Z, "Error interno del servidor")]
       "Error al registrar pago: ").

(** [saldos[k] = v] on a dictionary, which keeps its keys in the order of
    their first insertion. *)
Fixpoint saldos_put (saldos : list (PyId * Q)) (k : PyId) (v : Q)
  : list (PyId * Q) :=
  match saldos with
  | [] => [(k, v)]
  | (k', v') :: t =>
      if id_eqb k' k then (k', v) :: t else (k', v') :: saldos_put t k v
  end.

(** [saldos.get(k)] *)
Fixpoint saldos_get (saldos : list (PyId * Q)) (k : PyId) : option Q :=
  match saldos with
  | [] => None
  | (k', v) :: t => if id_eqb k' k then Some v else saldos_get t k
  end.

Definition calcular_saldos (self : t) : list (PyId * Q) :=
  fold_left
    (fun saldos amigo => saldos_put saldos (Amigo.id amigo) (Amigo.saldo amigo))
    (amigos self) [].

(** [self.amigos[i] = amigo_actualizado] at the first [i] whose friend has
    the identifier, then [break]. *)
Fixpoint replace_first (l : list Amigo.t) (amigo_id : PyId)
    (amigo_actualizado : Amigo.t) : list Amigo.t :=
  match l with
  | [] => []
  | amigo :: t =>
      if id_eqb (Amigo.id amigo) amigo_id then amigo_actualizado :: t
      else amigo :: replace_first t amigo_id amigo_actualizado
  end.

Definition actualizar_amigo_desde_api (amigo_id : PyId) : M Amigo.t :=
  try_except
    (amigo_actualizado <- obtener_amigo amigo_id ;;
     self <- Eff.get_mem ;;
     Eff.set_mem
       (set_amigos self (replace_first (amigos self) amigo_id amigo_actualizado)) ;;;
     ret amigo_actualizado)
    (fun e =>
       raise (PyException ("Error al actualizar amigo desde API: " ++ exn_str e))).

End Methods.

End Main.

(** ** The controller: the functions run by the background worker *)

Module MainController.

(** What [eliminar_amigo_async] returns. *)
Record Eliminado : Type := mkEliminado {
  success : bool;
  amigo_nombre : option string
}.

(** What [eliminar_todos_amigos] returns. *)
Record Resultado : Type := mkResultado {
  eliminados : Z;
  total : Z;
  errores : list string
}.

(** What the callbacks of the controller show to the user. *)
Inductive Aviso : Type :=
| mostrar_error (mensaje : string)
| mostrar_info (mensaje : string).

(** [sub in s] on strings. *)
Fixpoint contiene (sub s : string) : bool :=
  if String.prefix sub s then true
  else match s with
       | EmptyString => false
       | String _ r => contiene sub r
       end.

Section Controller.

(** The presentation collaborators: the translation function [_],
    [format_currency] and [str.format] with keyword arguments. *)
Variable gettext : string -> string.
Variable format_currency : Q -> string.
Variable format : string -> list (string * string) -> string.

Variable server : Server.

Local Open Scope eff_scope.

Definition str_of_nombre (n : option string) : string :=
  match n with
  | Some s => s
  | None => "None"
  end.

Fixpoint buscar_amigo (l : list Amigo.t) (amigo_id : PyId) : option Amigo.t :=
  match l with
  | [] => None
  | a :: t => if id_eqb (Amigo.id a) amigo_id then Some a else buscar_amigo t amigo_id
  end.

Definition eliminar_amigo_async (amigo_id : PyId) : Main.M Eliminado :=
  self <- Eff.get_mem ;;
  let amigo := buscar_amigo (Main.amigos self) amigo_id in
  amigo_api <- Main.obtener_amigo server amigo_id ;;
  let saldo := Amigo.saldo amigo_api in
  let saldo_es_cero := Qltb (Qabs saldo) (1 # 100) in
  if saldo_es_cero then
    Main.eliminar_amigo server amigo_id ;;;
    Eff.ret (mkEliminado true
               (match amigo with
                | Some a => Amigo.nombre a
                | None => Amigo.nombre amigo_api
                end))
  else
    Eff.raise
      (PyException
         (format
            (gettext "Cannot delete {name} because they have a pending balance of {amount}")
            [("name", str_of_nombre (Amigo.nombre amigo_api));
             ("amount", format_currency saldo)])).

(** The loop of [eliminar_todos_amigos], with its two accumulators. *)
Fixpoint eliminar_cada_uno (amigos_originales : list Amigo.t)
    (amigos_ids : list PyId) (eliminados : Z) (errores : list string)
  : Main.M (Z * list string) :=
  match amigos_ids with
  | [] => Eff.ret (eliminados, errores)
  | amigo_id :: t =>
      r <- Eff.try_except
             (Main.eliminar_amigo server amigo_id ;;;
              Eff.ret (eliminados + 1, errores)%Z)
             (fun e =>
                let amigo_nombre :=
                  match buscar_amigo amigos_originales amigo_id with
                  | Some a => str_of_nombre (Amigo.nombre a)
                  | None => gettext "Unknown"
                  end in
                Eff.ret (eliminados,
                         (errores ++ [(amigo_nombre ++ ": " ++ exn_str e)%string])%list)) ;;
      eliminar_cada_uno amigos_originales t (fst r) (snd r)
  end.

Definition eliminar_todos_amigos : Main.M Resultado :=
  self <- Eff.get_mem ;;
  let amigos_ids := map Amigo.id (Main.amigos self) in
  match amigos_ids with
  | [] => Eff.raise (ValueError (gettext "No friends to delete"))
  | _ :: _ =>
      let amigos_originales := Main.amigos self in
      r <- eliminar_cada_uno amigos_originales amigos_ids 0%Z [] ;;
      Eff.ret (mkResultado (fst r) (Z.of_nat (List.length amigos_ids)) (snd r))
  end.

Definition eliminar_gasto_async (gasto_id : PyId) : Main.M bool :=
  Main.eliminar_gasto server gasto_id ;;;
  Eff.ret true.

Definition eliminar_todos_gastos : Main.M Z :=
  self <- Eff.get_mem ;;
  let gastos_ids := map Gasto.id (Main.gastos self) in
  match gastos_ids with
  | [] => Eff.raise (ValueError (gettext "No expenses to delete"))
  | _ :: _ =>
      Main.for_each gastos_ids (Main.eliminar_gasto server) ;;;
      Eff.ret (Z.of_nat (List.length gastos_ids))
  end.

(** The [on_error] callback of [eliminar_gasto]: the message it shows for
    the exception of the worker. *)
Definition eliminar_gasto_on_error (error : Exn) : Aviso :=
  let error_msg := exn_str error in
  if contiene "ConnectionError" error_msg || contiene "No se pudo conectar" error_msg
  then mostrar_error
         (gettext "Cannot connect to server. Verify that the server is running.")
  else if contiene "Timeout" error_msg
  then mostrar_error (gettext "Server took too long to respond. Try again.")
  else mostrar_error
         (format (gettext "Error deleting expense: {error}") [("error", error_msg)]).

End Controller.

End MainController.

(** ** The translation manager of [translations.py]

    The object that [gettext] gives is a function from messages to
    messages; loading the catalogue of a language is an input of the
    model. *)

Module TranslationManager.

Definition Translator : Type := string -> string.

(** [gettext.NullTranslations()]: every message is its own translation. *)
Definition NullTranslations : Translator := fun message => message.

Record t : Type := mk {
  current_language : option string;
  current_locale : string;
  translator : Translator
}.

(** ['_' in s] *)
Fixpoint contains_underscore (s : string) : bool :=
  match s with
  | EmptyString => false
  | String c r => if Ascii.eqb c "_"%char then true else contains_underscore r
  end.

(** [s.split('_')[0]] *)
Fixpoint before_underscore (s : string) : string :=
  match s with
  | EmptyString => EmptyString
  | String c r =>
      if Ascii.eqb c "_"%char then EmptyString else String c (before_underscore r)
  end.

(** Truth value of an optional string: [None] and the empty string are
    false. *)
Definition str_truthy (o : option string) : bool :=
  match o with
  | Some (String _ _) => true
  | _ => false
  end.

(** [__init__], with [_setup_translations]. *)
Definition init : t := mk (Some "en") "en_US.UTF-8" NullTranslations.

Section Catalogues.

(** [gettext.translation('messages', localedir, languages=[code],
    fallback=True)]. *)
Variable gettext_translation : option string -> Res Translator.

Definition set_language (self : t) (language_code : option string)
    (encoding : option string) : t :=
  let locale_language :=
    match language_code with
    | Some code =>
        if str_truthy language_code && contains_underscore code
        then ((if str_truthy encoding
               then code ++ "." ++ get_or encoding ""
               else code ++ ".UTF-8")%string,
              Some (before_underscore code))
        else ((if String.eqb code "es" then "es_ES.UTF-8"
               else if String.eqb code "pt" then "pt_PT.UTF-8"
               else "en_US.UTF-8"),
              language_code)
    | None => ("en_US.UTF-8", None)
    end in
  mk (snd locale_language) (fst locale_language)
     (match gettext_translation (snd locale_language) with
      | inr tr => tr
      | inl _ => NullTranslations
      end).

End Catalogues.

Definition get_current_language (self : t) : option string := current_language self.

Definition get_locale (self : t) : string := current_locale self.

Definition translate (self : t) (message : string) : string :=
  translator self message.

Definition get_currency_symbol (self : t) : string :=
  match current_language self with
  | Some lang =>
      if String.eqb lang "es" || String.eqb lang "pt" then "€" else "$"
  | None => "$"
  end.

End TranslationManager.

(** ** Vocabulary of the statements *)

Abbreviation State := (@Eff.State Main.t).
Abbreviation mkState := (@Eff.mkState Main.t).

(** The state after one more exchange. *)
Definition push (s : State) (x : Exchange) : State :=
  mkState (Eff.mem s) (Eff.log s ++ [x]).

(** The exchanges that sending [reqs] one after the other adds to a log. *)
Fixpoint exchanges (server : Server) (l : list Exchange) (reqs : list Request)
  : list Exchange :=
  match reqs with
  | [] => []
  | r :: t => (r, server l r) :: exchanges server (l ++ [(r, server l r)]) t
  end.

Definition requests (l : list Exchange) : list Request := map fst l.

(** What [requests.<verb>(...).raise_for_status()] does on a reply. *)
Definition outcome (rep : Reply) : Res unit :=
  match rep with
  | NoResponse e => inl (net_exn e)
  | Answer resp =>
      if ((400 <=? status_code resp)%Z && (status_code resp <? 600)%Z)%bool
      then inl (HTTPError (status_code resp) (reason resp))
      else inr tt
  end.

Definition is_DELETE_expense (r : Request) : bool :=
  match r with
  | DELETE_expense _ => true
  | _ => false
  end.

(** A share of a person in an expense, as [GET /friends/{id}/expenses]
    lists it. *)
Record Share : Type := mkShare {
  expense_id : PyId;
  sh_credit : Q;
  sh_debit : Q
}.

Definition deuda (sh : Share) : Q := sh_debit sh - sh_credit sh.

(** The typed reading of one listed row. *)
Definition fila (i : Item) : option Share :=
  match i with
  | IDict d =>
      match dict_get d "id", dict_get d "debit_balance", dict_get d "credit_balance" with
      | Some vi, Some vd, Some vc =>
          match Main.ident vi, Main.number vd, Main.number vc with
          | inr i, inr de, inr cr => Some (mkShare i cr de)
          | _, _, _ => None
          end
      | _, _, _ => None
      end
  | IVal _ => None
  end.

(** The allocation of a payment in the words of the specification: walk
    the shares in order with the amount remaining; stop once nothing
    remains; skip a share without outstanding debt; otherwise pay the
    smaller of the remaining amount and the debt. *)
Fixpoint asignacion (remaining : Q) (shares : list Share) : list (PyId * Q) :=
  match shares with
  | [] => []
  | sh :: rest =>
      if Qle_bool remaining 0 then []
      else if Qltb 0 (deuda sh)
           then (expense_id sh, py_min remaining (deuda sh))
                  :: asignacion (remaining - py_min remaining (deuda sh)) rest
           else asignacion remaining rest
  end.

Definition pagos (amigo_id : PyId) (l : list (PyId * Q)) : list Request :=
  map (fun gp => PUT_expense_friend (fst gp) amigo_id (snd gp)) l.

Fixpoint Qsum (l : list Q) : Q :=
  match l with
  | [] => 0
  | x :: t => x + Qsum t
  end.

(** The outstanding debt over the listed shares: the debts that are
    positive. *)
Definition deuda_total (shares : list Share) : Q :=
  Qsum (map (fun sh => if Qltb 0 (deuda sh) then deuda sh else 0) shares).

(** The credit increments found in a list of exchanges. *)
Definition creditos (l : list Exchange) : list (PyId * Q) :=
  flat_map (fun x =>
              match fst x with
              | PUT_expense_friend g _ q => [(g, q)]
              | _ => []
              end) l.

(** The requests of a successful [add_gasto] in the words of the
    specification: the expense, one link per participant, the payer (linked
    first when not a participant) with the credit, then each remaining
    participant with the even split as a debt. *)
Definition add_gasto_requests (fecha descripcion : string) (monto : Q)
    (gasto_id pagador_id : PyId) (deudores_ids : list PyId) : list Request :=
  let n := len deudores_ids in
  POST_expenses descripcion monto fecha
  :: map (POST_expense_friends gasto_id) deudores_ids
  ++ (if id_in pagador_id deudores_ids
      then PUT_expense_friend gasto_id pagador_id (monto - monto / n)
           :: map (fun d => PUT_expense_friend gasto_id d (- (monto / n)))
                  (filter (fun d => negb (id_eqb d pagador_id)) deudores_ids)
      else POST_expense_friends gasto_id pagador_id
           :: PUT_expense_friend gasto_id pagador_id monto
           :: map (fun d => PUT_expense_friend gasto_id d (- (monto / n)))
                  deudores_ids).

(** The text [Main.eliminar_amigo] raises for a reply that is not a
    success. *)
Definition motivo (rep : Reply) : string :=
  match rep with
  | NoResponse (NetConnection _) =>
      "No se puede conectar al servidor. Verifica que el servidor esté ejecutándose"
  | NoResponse (NetTimeout _) =>
      "El servidor tardó demasiado en responder. Inténtalo de nuevo"
  | NoResponse (NetOther m) => "Error al eliminar amigo: " ++ m
  | Answer resp =>
      if (status_code resp =? 409)%Z
      then "No se puede eliminar el amigo porque tiene saldo pendiente"
      else if (status_code resp =? 404)%Z then "El amigo no existe"
      else if (status_code resp =? 500)%Z then "Error interno del servidor"
      else "Error al eliminar amigo: " ++ reason resp
  end.

(** The identifiers whose [DELETE /friends/{id}] succeeded. *)
Definition borrado (l : list Exchange) (i : PyId) : bool :=
  existsb (fun x =>
             match fst x with
             | DELETE_friend j => id_eqb i j && is_ok (snd x)
             | _ => false
             end) l.

(** The first participant, in order, that a reply with a positive credit
    was received for. *)
Definition credito_positivo (rep : Reply) : bool :=
  match outcome rep, rep with
  | inr _, Answer resp =>
      match body resp with
      | Some (BItem (IDict d)) =>
          match as_float 0 (dict_get d "credit_balance") with
          | Some c => Qltb 0 c
          | None => false
          end
      | _ => false
      end
  | _, _ => false
  end.

(** The line of the report of [eliminar_todos_amigos] for a deletion that
    failed: the name of the person and the reason. *)
Definition linea (gettext : string -> string) (amigos_originales : list Amigo.t)
    (x : Exchange) : string :=
  match fst x with
  | DELETE_friend i =>
      (match MainController.buscar_amigo amigos_originales i with
       | Some a => MainController.str_of_nombre (Amigo.nombre a)
       | None => gettext "Unknown"
       end) ++ ": " ++ motivo (snd x)
  | _ => ""
  end.

Definition exito (x : Exchange) : bool := is_ok (snd x).

Definition fracaso (x : Exchange) : bool := negb (is_ok (snd x)).

(** The amount [update_gasto] writes to the share of a participant when
    it recomputes. *)
Definition credito_recalculado (monto_nuevo : Q) (pagador_id : PyId)
    (nuevos_participantes : list PyId) (participante_id : PyId) : Q :=
  if id_eqb participante_id pagador_id then
    if id_in pagador_id nuevos_participantes
    then monto_nuevo - monto_nuevo / len nuevos_participantes
    else monto_nuevo
  else 0.

(** The requests by which [update_gasto] brings the participants of the
    store from [actuales] to [nuevos]. *)
Definition cambios (gasto_id : PyId) (actuales nuevos : list PyId) : list Request :=
  if negb (set_eqb actuales nuevos)
  then (map (DELETE_expense_friend gasto_id)
            (filter (fun x => negb (id_in x nuevos)) actuales)
        ++ map (POST_expense_friends gasto_id)
               (filter (fun x => negb (id_in x actuales)) nuevos))%list
  else [].

(** The amounts written to shares in a list of exchanges: expense, person
    and amount. *)
Definition escrituras (l : list Exchange) : list (PyId * PyId * Q) :=
  flat_map (fun x =>
              match fst x with
              | PUT_expense_friend g f q => [(g, f, q)]
              | _ => []
              end) l.

Definition is_GET_expense_friend (r : Request) : bool :=
  match r with
  | GET_expense_friend _ _ => true
  | _ => false
  end.

(** The shares read in a list of exchanges. *)
Definition lecturas (l : list Exchange) : list Exchange :=
  filter (fun x => is_GET_expense_friend (fst x)) l.

(** [kept m]: [m] leaves the in-memory group as it is. *)
Definition kept {A : Type} (m : Main.M A) : Prop :=
  forall s r s', m s = (r, s') -> Eff.mem s' = Eff.mem s.

(** [kept_on_error m]: when [m] raises, the in-memory group is as it
    was. *)
Definition kept_on_error {A : Type} (m : Main.M A) : Prop :=
  forall s e s', m s = (inl e, s') -> Eff.mem s' = Eff.mem s.

(** [returns m]: [m] does not raise. *)
Definition returns {A : Type} (m : Main.M A) : Prop :=
  forall s e s', m s <> (inl e, s').


(** One element of a participants response and the identifier read from
    it: a bare integer, the [friend_id] of a dictionary, or its [id] when
    it has no [friend_id]. *)
Definition lee_participante (p : Item) (i : PyId) : Prop :=
  match p with
  | IVal (VInt z) => i = Some z
  | IVal _ => False
  | IDict d =>
      match dict_get d "friend_id" with
      | Some v => Main.ident v = inr i
      | None =>
          match dict_get d "id" with
          | Some v => Main.ident v = inr i
          | None => False
          end
      end
  end.

(** The outstanding debt of a share as the program computes it: the
    difference of two doubles. *)
Definition deuda64 (sh : Share) : Q :=
  redondea (redondea (sh_debit sh) - redondea (sh_credit sh)).

(** The allocation of a payment with the arithmetic of the program. *)
Fixpoint asignacion64 (remaining : Q) (shares : list Share) : list (PyId * Q) :=
  match shares with
  | [] => []
  | sh :: rest =>
      if Qle_bool remaining 0 then []
      else if Qltb 0 (deuda64 sh)
           then (expense_id sh, py_min remaining (deuda64 sh))
                  :: asignacion64
                       (redondea (remaining - py_min remaining (deuda64 sh))) rest
           else asignacion64 remaining rest
  end.

(** The outstanding debt over the listed shares, the debts being those the
    program computes. *)
Definition deuda_total64 (shares : list Share) : Q :=
  Qsum (map (fun sh => if Qltb 0 (deuda64 sh) then deuda64 sh else 0) shares).

(** The requests that change who takes part in an expense. *)
Definition is_cambio_participante (r : Request) : bool :=
  match r with
  | DELETE_expense_friend _ _ | POST_expense_friends _ _ => true
  | _ => false
  end.

(** [sent server s s' reqs]: from [s] to [s'] the program sent exactly
    [reqs], in this order. *)
Definition sent (server : Server) (s s' : State) (reqs : list Request) : Prop :=
  Eff.log s' = (Eff.log s ++ exchanges server (Eff.log s) reqs)%list.

(** [accepted server s s' reqs]: moreover every one of them was answered
    with a success. *)
Definition accepted (server : Server) (s s' : State) (reqs : list Request) : Prop :=
  sent server s s' reqs
  /\ Forall (fun x => is_ok (snd x) = true) (exchanges server (Eff.log s) reqs).

(** [sat server P E m]: whatever the state, [m] sends only requests that
    satisfy [P] and raises only exceptions that satisfy [E]. *)
Definition sat {A : Type} (server : Server) (P : Request -> Prop)
    (E : Exn -> Prop) (m : Main.M A) : Prop :=
  forall s res s',
    m s = (res, s') ->
    (exists reqs, sent server s s' reqs /\ Forall P reqs)
    /\ (forall e, res = inl e -> E e).

Definition no_compensa (r : Request) : Prop := is_DELETE_expense r = false.

Definition de_requests (e : Exn) : Prop := is_request_exception e = true.

Definition no_de_requests (e : Exn) : Prop := is_request_exception e = false.

(** ** Concrete servers and states used by the examples *)

Definition ok (b : option Body) : Reply := Answer (mkResponse 200 "OK" b).

Definition ko (status : Z) (text : string) : Reply :=
  Answer (mkResponse status text None).

Definition ana : Amigo.t := Amigo.mk (Some 1%Z) (Some "Ana") 50 20.

Definition cena : Gasto.t :=
  Gasto.mk (Some 7%Z) (Some "Cena") 100 (Some "2024-01-15") (Some 1%Z) [] 0 2.

Definition expense_json (i : Z) (d : string) (a : Q) (f : string) : Body :=
  BItem (IDict [("id", VInt i); ("description", VStr d);
                ("amount", VFloat a); ("date", VStr f)]).

(** A server that accepts everything and numbers the new expense 7. *)
Definition acepta : Server :=
  fun _ r =>
    match r with
    | POST_expenses d a f => ok (Some (expense_json 7 d a f))
    | _ => ok None
    end.

(** The same server, except that friend 1 cannot be linked to an
    expense. *)
Definition rechaza_participante : Server :=
  fun l r =>
    match r with
    | POST_expense_friends _ (Some 1%Z) => ko 404 "404 Client Error: Not Found"
    | _ => acepta l r
    end.

Definition s_vacio : State := mkState Main.init [].

Definition fila_json (i : Z) (credit debit : Q) : Item :=
  IDict [("id", VInt i); ("credit_balance", VFloat credit);
         ("debit_balance", VFloat debit)].

(** A person who owes 10 on expense 1 and 20 on expense 2. *)
Definition deudas : list Item := [fila_json 1 0 10; fila_json 2 0 20].


Definition servidor_deudas : Server :=
  fun _ r =>
    match r with
    | GET_friend_expenses _ => ok (Some (BList deudas))
    | GET_friends => ok (Some (BList []))
    | _ => ok None
    end.

(** The expense 7 of 100 between friends 1 and 2, paid by 1, in memory;
    and the same expense when its payer is not known. *)
Definition s_cena : State := mkState (Main.mk 1 "Grupo Principal" [] [cena]) [].

Definition cena_sin_pagador : Gasto.t :=
  Gasto.mk (Some 7%Z) (Some "Cena") 100 (Some "2024-01-15") None [] 0 2.

Definition s_cena_sin_pagador : State :=
  mkState (Main.mk 1 "Grupo Principal" [] [cena_sin_pagador]) [].

Definition share_json (credit debit : Q) : Body :=
  BItem (IDict [("credit_balance", VFloat credit); ("debit_balance", VFloat debit)]).

(** The store of that expense: friend 1 holds a credit of 50, friend 2 a
    debt of 50. *)
Definition servidor_cena : Server :=
  fun _ r =>
    match r with
    | GET_expense_friends _ => ok (Some (BList [IVal (VInt 1); IVal (VInt 2)]))
    | GET_expense_friend _ (Some 1%Z) => ok (Some (share_json 50 0))
    | GET_expense_friend _ _ => ok (Some (share_json 0 50))
    | _ => ok None
    end.

(** A store in which both friends hold a positive credit on the
    expense. *)
Definition servidor_dos_creditos : Server :=
  fun _ r =>
    match r with
    | GET_expense_friends _ => ok (Some (BList [IVal (VInt 1); IVal (VInt 2)]))
    | GET_expense_friend _ _ => ok (Some (share_json 50 0))
    | _ => ok None
    end.

Definition solo_monto (m : Q) : NuevosDatos.t :=
  NuevosDatos.mk None (Some m) None None None.

Definition solo_descripcion (d : string) : NuevosDatos.t :=
  NuevosDatos.mk (Some d) None None None None.

(** Three friends: Berta is owed 5.00, Ana and Carlos are settled. *)
Definition ana_saldada : Amigo.t := Amigo.mk (Some 1%Z) (Some "Ana") 20 20.

Definition berta : Amigo.t := Amigo.mk (Some 2%Z) (Some "Berta") 25 20.

Definition carlos : Amigo.t := Amigo.mk (Some 3%Z) (Some "Carlos") 10 10.

Definition friend_json (i : Z) (n : string) (credit debit : Q) : Dict :=
  [("id", VInt i); ("name", VStr n);
   ("credit_balance", VFloat credit); ("debit_balance", VFloat debit)].

(** Their store: it refuses to delete Berta, who has a pending balance. *)
Definition servidor_amigos : Server :=
  fun _ r =>
    match r with
    | GET_friend (Some 2%Z) => ok (Some (BItem (IDict (friend_json 2 "Berta" 25 20))))
    | GET_friend (Some 3%Z) => ok (Some (BItem (IDict (friend_json 3 "Carlos" 10 10))))
    | GET_friend _ => ok (Some (BItem (IDict (friend_json 1 "Ana" 20 20))))
    | DELETE_friend (Some 2%Z) => ko 409 "409 Client Error: Conflict"
    | _ => ok None
    end.

Definition s_amigos : State :=
  mkState (Main.mk 1 "Grupo Principal" [ana_saldada; berta; carlos] []) [].

(** Presentation collaborators of the examples. *)
Definition sin_traducir (s : string) : string := s.

Definition euros (q : Q) : string := "5,00 €".

Definition sin_formato (template : string) (args : list (string * string)) : string :=
  template.


(** A store that is down. *)
Definition servidor_caido : Server :=
  fun _ _ => NoResponse (NetConnection "Connection refused").

(** A store that refuses to delete expense 8. *)
Definition rechaza_gasto_8 : Server :=
  fun _ r =>
    match r with
    | DELETE_expense (Some 8%Z) => ko 404 "404 Client Error: Not Found"
    | _ => ok None
    end.

Definition taxi : Gasto.t :=
  Gasto.mk (Some 8%Z) (Some "Taxi") 30 (Some "2024-01-16") (Some 2%Z) [] 0 3.

Definition hotel : Gasto.t :=
  Gasto.mk (Some 9%Z) (Some "Hotel") 200 (Some "2024-01-17") (Some 1%Z) [] 0 2.

Definition s_tres_gastos : State :=
  mkState (Main.mk 1 "Grupo Principal" [] [cena; taxi; hotel]) [].

(** A person who owes 20.74, 27.78, 17.48 and 22.32 on four expenses. *)
Definition cuatro_deudas : list Item :=
  [fila_json 1 0 (2074 # 100); fila_json 2 0 (2778 # 100);
   fila_json 3 0 (1748 # 100); fila_json 4 0 (2232 # 100)].

Definition cuatro_shares : list Share :=
  [mkShare (Some 1%Z) 0 (2074 # 100); mkShare (Some 2%Z) 0 (2778 # 100);
   mkShare (Some 3%Z) 0 (1748 # 100); mkShare (Some 4%Z) 0 (2232 # 100)].

Definition servidor_cuatro_deudas : Server :=
  fun _ r =>
    match r with
    | GET_friend_expenses _ => ok (Some (BList cuatro_deudas))
    | GET_friends => ok (Some (BList []))
    | _ => ok None
    end.

(** A catalogue loader that finds nothing. *)
Definition sin_catalogo (code : option string) : Res TranslationManager.Translator :=
  inl (PyException "No translation file found").

(** ** The ledger model *)

(** C7. [split] returns the amount divided by the number of participants
    when that number is positive and 0.0 when it is zero; it returns a
    value in every case, the division is never reached with a zero
    divisor. *)
Theorem split_guarded (g : Gasto.t) :
  ((0 < Gasto.num_friends g)%Z ->
   Gasto.split g = inr (Gasto.monto g / inject_Z (Gasto.num_friends g)))
  /\ (Gasto.num_friends g = 0%Z -> Gasto.split g = inr 0)
  /\ (exists q, Gasto.split g = inr q).
Proof.
  assert (Hpos : (0 < Gasto.num_friends g)%Z ->
                 Gasto.split g = inr (Gasto.monto g / inject_Z (Gasto.num_friends g))).
  { intros H. unfold Gasto.split, py_div.
    apply Z.ltb_lt in H as Hb. rewrite Hb.
    destruct (Qeq_bool (inject_Z (Gasto.num_friends g)) 0) eqn:E; [|reflexivity].
    apply Qeq_bool_eq in E. unfold Qeq in E. simpl in E. lia. }
  split; [exact Hpos|]. split.
  - intros H. unfold Gasto.split. rewrite H. reflexivity.
  - destruct (Z.ltb_spec 0 (Gasto.num_friends g)) as [H|H].
    + eexists. apply Hpos. exact H.
    + exists 0. unfold Gasto.split.
      destruct (Z.ltb_spec 0 (Gasto.num_friends g)); [lia|reflexivity].
Qed.

Lemma split_guarded_witness :
  Gasto.split cena = inr (100 / inject_Z 2)
  /\ Gasto.split (Gasto.mk None None 100 None None [] 0 0) = inr 0.
Proof.
  split.
  - apply (proj1 (split_guarded cena)). reflexivity.
  - apply (proj1 (proj2 (split_guarded (Gasto.mk None None 100 None None [] 0 0)))).
    reflexivity.
Defined.

(** C3, as the code has it.  The wire form of a person holds the
    identifier and the name only: reading it back gives a person with the
    same identifier and name and with both balances at their default
    0.0. *)
Theorem amigo_round_trip (a : Amigo.t) :
  amigo_from_dict (Amigo.to_dict a)
  = Some (Amigo.mk (Amigo.id a) (Amigo.nombre a) 0 0).
Proof.
  destruct a as [i n c d]. unfold amigo_from_dict, Amigo.to_dict. simpl.
  destruct i, n; reflexivity.
Qed.

(** C3 fails as stated: a person with balances 50 and 20 comes back with
    balances 0 and 0. *)
Lemma amigo_round_trip_loses_balances :
  exists a', amigo_from_dict (Amigo.to_dict ana) = Some a'
             /\ ~ Amigo.credit_balance a' == Amigo.credit_balance ana
             /\ ~ Amigo.debit_balance a' == Amigo.debit_balance ana.
Proof.
  eexists. split; [reflexivity|]. split; intros H; discriminate H.
Qed.

(** ** Running the effects *)

Local Open Scope list_scope.

Section Runs.

Variable server : Server.

Lemma bind_inr {A B : Type} (m : Main.M A) (k : A -> Main.M B) s b s' :
  Eff.bind m k s = (inr b, s') ->
  exists a s1, m s = (inr a, s1) /\ k a s1 = (inr b, s').
Proof.
  unfold Eff.bind. destruct (m s) as [[e|a] s1]; intros H.
  - discriminate H.
  - exists a, s1. split; [reflexivity|exact H].
Qed.

Lemma outcome_ok (rep : Reply) : outcome rep = inr tt <-> is_ok rep = true.
Proof.
  unfold outcome, is_ok. destruct rep as [e|resp].
  - split; discriminate.
  - destruct ((400 <=? status_code resp)%Z && (status_code resp <? 600)%Z)%bool;
      simpl; split; intros H; try discriminate H; reflexivity.
Qed.

Lemma outcome_request_exception (rep : Reply) (e : Exn) :
  outcome rep = inl e -> is_request_exception e = true.
Proof.
  unfold outcome. destruct rep as [[m|m|m]|resp]; simpl.
  - intros H. injection H as <-. reflexivity.
  - intros H. injection H as <-. reflexivity.
  - intros H. injection H as <-. reflexivity.
  - destruct ((400 <=? status_code resp)%Z && (status_code resp <? 600)%Z)%bool;
      intros H; [injection H as <-; reflexivity|discriminate H].
Qed.

Lemma send_run (r : Request) (s : State) :
  Eff.send server r s
  = (match server (Eff.log s) r with
     | NoResponse e => inl (net_exn e)
     | Answer resp => inr resp
     end, push s (r, server (Eff.log s) r)).
Proof.
  unfold Eff.send, push. destruct (server (Eff.log s) r); reflexivity.
Qed.

Lemma send_checked_run (r : Request) (s : State) :
  Main.send_checked server r s
  = (outcome (server (Eff.log s) r), push s (r, server (Eff.log s) r)).
Proof.
  unfold Main.send_checked, Eff.bind. rewrite send_run. unfold outcome.
  destruct (server (Eff.log s) r) as [e|resp]; [reflexivity|].
  unfold Eff.raise_for_status.
  destruct ((400 <=? status_code resp)%Z && (status_code resp <? 600)%Z)%bool;
    reflexivity.
Qed.

Lemma wrap_run (prefix : string) (r : Request) (s : State) :
  Main.wrap prefix (Main.send_checked server r) s
  = (match outcome (server (Eff.log s) r) with
     | inr u => inr u
     | inl e => inl (PyException (prefix ++ exn_str e)%string)
     end, push s (r, server (Eff.log s) r)).
Proof.
  unfold Main.wrap, Eff.try_except. rewrite send_checked_run.
  destruct (outcome (server (Eff.log s) r)) as [e|u] eqn:E; [|reflexivity].
  rewrite (outcome_request_exception _ _ E). reflexivity.
Qed.

Lemma skip_run (r : Request) (s : State) :
  Main.skip_on_error (Main.send_checked server r) s
  = (inr tt, push s (r, server (Eff.log s) r)).
Proof.
  unfold Main.skip_on_error, Eff.try_except. rewrite send_checked_run.
  destruct (outcome (server (Eff.log s) r)) as [e|[]] eqn:E; [|reflexivity].
  rewrite (outcome_request_exception _ _ E). reflexivity.
Qed.

Lemma exchanges_app (l : list Exchange) (r1 r2 : list Request) :
  exchanges server l (r1 ++ r2)
  = exchanges server l r1 ++ exchanges server (l ++ exchanges server l r1) r2.
Proof.
  revert l. induction r1 as [|r t IH]; intros l; simpl.
  - rewrite app_nil_r. reflexivity.
  - rewrite IH. rewrite <- app_assoc. reflexivity.
Qed.

Lemma requests_exchanges (l : list Exchange) (reqs : list Request) :
  requests (exchanges server l reqs) = reqs.
Proof.
  revert l. induction reqs as [|r t IH]; intros l; simpl; [reflexivity|].
  unfold requests in IH. rewrite IH. reflexivity.
Qed.

End Runs.

Section Loops.

Variable server : Server.

Lemma for_each_filter {A : Type} (c : A -> bool) (body : A -> Main.M unit)
    (l : list A) (s : State) :
  Main.for_each l (fun x => if c x then body x else Eff.ret tt) s
  = Main.for_each (filter c l) body s.
Proof.
  revert s. induction l as [|x t IH]; intros s; simpl; [reflexivity|].
  destruct (c x); simpl.
  - unfold Eff.bind. destruct (body x s) as [[e|u] s1]; [reflexivity|apply IH].
  - unfold Eff.bind, Eff.ret. apply IH.
Qed.

(** A loop of checked requests, each wrapped: when it completes, every
    request was sent and accepted. *)
Lemma for_each_wrap_ok {A : Type} (prefix : A -> string) (f : A -> Request)
    (l : list A) (s s' : State) :
  Main.for_each l (fun x => Main.wrap (prefix x) (Main.send_checked server (f x))) s
  = (inr tt, s') ->
  s' = mkState (Eff.mem s) (Eff.log s ++ exchanges server (Eff.log s) (map f l))
  /\ Forall (fun x => is_ok (snd x) = true) (exchanges server (Eff.log s) (map f l)).
Proof.
  revert s. induction l as [|x t IH]; intros s; simpl.
  - unfold Eff.ret. intros H. injection H as <-. rewrite app_nil_r.
    destruct s; split; [reflexivity|constructor].
  - unfold Eff.bind. rewrite wrap_run.
    destruct (outcome (server (Eff.log s) (f x))) as [e|[]] eqn:E; [discriminate|].
    intros H. apply IH in H. destruct H as [-> HF]. simpl in *. split.
    + rewrite <- app_assoc. reflexivity.
    + constructor; [apply outcome_ok; exact E|exact HF].
Qed.

End Loops.

Section Traces.

Variable server : Server.

Lemma sent_refl (s : State) : sent server s s [].
Proof. unfold sent. simpl. rewrite app_nil_r. reflexivity. Qed.

Lemma sent_trans (s s1 s2 : State) (r1 r2 : list Request) :
  sent server s s1 r1 -> sent server s1 s2 r2 -> sent server s s2 (r1 ++ r2).
Proof.
  unfold sent. intros H1 H2. rewrite H2, H1, exchanges_app, app_assoc. reflexivity.
Qed.

Lemma accepted_trans (s s1 s2 : State) (r1 r2 : list Request) :
  accepted server s s1 r1 -> accepted server s1 s2 r2 ->
  accepted server s s2 (r1 ++ r2).
Proof.
  intros [H1 F1] [H2 F2]. split; [eapply sent_trans; eassumption|].
  rewrite exchanges_app. apply Forall_app. split; [exact F1|].
  unfold sent in H1. rewrite <- H1. exact F2.
Qed.

Lemma sent_push (s : State) (r : Request) :
  sent server s (push s (r, server (Eff.log s) r)) [r].
Proof. unfold sent, push. reflexivity. Qed.

Lemma accepted_push (s : State) (r : Request) :
  is_ok (server (Eff.log s) r) = true ->
  accepted server s (push s (r, server (Eff.log s) r)) [r].
Proof.
  intros H. split; [apply sent_push|]. simpl. constructor; [exact H|constructor].
Qed.

Lemma send_checked_ok (r : Request) (s s' : State) :
  Main.send_checked server r s = (inr tt, s') ->
  Eff.mem s' = Eff.mem s /\ accepted server s s' [r].
Proof.
  rewrite send_checked_run. intros H. injection H as H <-.
  split; [reflexivity|]. apply accepted_push. apply outcome_ok. exact H.
Qed.

Lemma for_each_wrap_accepted {A : Type} (prefix : A -> string) (f : A -> Request)
    (l : list A) (s s' : State) :
  Main.for_each l (fun x => Main.wrap (prefix x) (Main.send_checked server (f x))) s
  = (inr tt, s') ->
  Eff.mem s' = Eff.mem s /\ accepted server s s' (map f l).
Proof.
  intros H. apply for_each_wrap_ok in H. destruct H as [-> HF].
  split; [reflexivity|]. split; [reflexivity|exact HF].
Qed.

(** A handler that always raises lets a value through only from the
    body. *)
Lemma try_except_inr {A : Type} (m : Main.M A) (h : Exn -> Main.M A) s a s' :
  (forall e s0, exists e' s1, h e s0 = (inl e', s1)) ->
  Eff.try_except m h s = (inr a, s') -> m s = (inr a, s').
Proof.
  intros Hh. unfold Eff.try_except. destruct (m s) as [[e|a0] s0]; intros H.
  - destruct (Hh e s0) as (e' & s1 & E). rewrite E in H. discriminate H.
  - exact H.
Qed.

Lemma rollback_returns (gasto_id : PyId) (s : State) :
  exists s1, Main.rollback server gasto_id s = (inr tt, s1).
Proof.
  unfold Main.rollback. destruct (id_truthy gasto_id).
  - unfold Eff.try_except, Eff.bind. rewrite send_run.
    destruct (server (Eff.log s) (DELETE_expense gasto_id)); eexists; reflexivity.
  - eexists. reflexivity.
Qed.

Lemma add_gasto_handlers_raise {A : Type} (gasto_id : PyId) (e : Exn) (s : State) :
  exists e' s1, @Main.add_gasto_handlers server A gasto_id e s = (inl e', s1).
Proof.
  unfold Main.add_gasto_handlers.
  destruct (rollback_returns gasto_id s) as [s1 R].
  destruct (is_connection_error e); [|destruct (is_timeout e);
    [|destruct (is_request_exception e)]].
  - unfold Eff.bind. rewrite R. eexists _, _. reflexivity.
  - unfold Eff.bind. rewrite R. eexists _, _. reflexivity.
  - unfold Eff.bind. rewrite R. eexists _, _. reflexivity.
  - eexists _, _. reflexivity.
Qed.

Lemma wrap_inr {A : Type} (prefix : string) (m : Main.M A) s a s' :
  Main.wrap prefix m s = (inr a, s') -> m s = (inr a, s').
Proof.
  unfold Main.wrap. apply try_except_inr. intros e s0.
  destruct (is_request_exception e); eexists _, _; reflexivity.
Qed.

Lemma handlers_raise {A : Type} conn tout table prefix (e : Exn) (s : State) :
  exists e', @Main.handlers A conn tout table prefix e s = (inl e', s).
Proof.
  unfold Main.handlers.
  destruct (is_connection_error e); [|destruct (is_timeout e);
    [|destruct (is_request_exception e)]]; eexists; reflexivity.
Qed.

End Traces.

Section AddGasto.

Variable server : Server.

Lemma len_nonzero {A : Type} (l : list A) :
  l <> [] -> Qeq_bool (len l) 0 = false.
Proof.
  intros H. destruct l as [|x t]; [congruence|].
  destruct (Qeq_bool (len (x :: t)) 0) eqn:E; [|reflexivity].
  apply Qeq_bool_eq in E. unfold len, Qeq in E. simpl in E. lia.
Qed.

Lemma py_div_len {A : Type} (a : Q) (l : list A) :
  l <> [] -> py_div a (len l) = inr (a / len l).
Proof. intros H. unfold py_div. rewrite (len_nonzero l H). reflexivity. Qed.

Lemma py_div_inr (a b q : Q) : py_div a b = inr q -> q = a / b.
Proof.
  unfold py_div. destruct (Qeq_bool b 0); intros H; [discriminate H|].
  injection H as <-. reflexivity.
Qed.

Lemma Qdiv_opp (a b : Q) : (- a) / b = - (a / b).
Proof.
  unfold Qdiv, Qmult, Qopp. simpl. f_equal. lia.
Qed.

Lemma id_in_nonempty (x : PyId) (l : list PyId) : id_in x l = true -> l <> [].
Proof. destruct l; [discriminate|congruence]. Qed.

(** The creation step: the expense of the answer. *)
Lemma crear_gasto_ok (r : Request) (s s1 : State) (g : Gasto.t) :
  Eff.bind (Eff.send server r)
    (fun response =>
       Eff.bind (Eff.raise_for_status response)
         (fun _ =>
            Eff.bind (Eff.json response)
              (fun data =>
                 Eff.bind (Eff.typed (Main.as_dict data))
                   (fun d => Eff.typed (gasto_from_dict d))))) s
  = (inr g, s1) ->
  s1 = push s (r, server (Eff.log s) r)
  /\ is_ok (server (Eff.log s) r) = true
  /\ exists resp d, server (Eff.log s) r = Answer resp
                    /\ body resp = Some (BItem (IDict d))
                    /\ gasto_from_dict d = Some g.
Proof.
  unfold Eff.bind at 1. rewrite send_run.
  destruct (server (Eff.log s) r) as [e|resp] eqn:E; [discriminate|].
  unfold Eff.bind, Eff.raise_for_status, Eff.json, Eff.typed, Eff.ret, Eff.raise, is_ok.
  destruct ((400 <=? status_code resp)%Z && (status_code resp <? 600)%Z)%bool;
    [discriminate|].
  destruct (body resp) as [b|] eqn:B; [|discriminate].
  destruct (Main.as_dict b) as [d|] eqn:D; [|discriminate].
  destruct (gasto_from_dict d) as [g0|] eqn:G; [|discriminate].
  intros H. injection H as <- <-.
  split; [reflexivity|]. split; [reflexivity|].
  destruct b as [[v|d0]|l]; try discriminate D. injection D as ->.
  exists resp, d. split; [reflexivity|]. split; [exact B|exact G].
Qed.

End AddGasto.

Section AddGastoLog.

Variable server : Server.

Lemma accepted_same_log (s s1 s2 : State) (reqs : list Request) :
  Eff.log s2 = Eff.log s1 -> accepted server s s1 reqs -> accepted server s s2 reqs.
Proof. unfold accepted, sent. intros ->. trivial. Qed.

Lemma add_gasto_pasos_ok (gasto : Gasto.t) (monto : Q) (pagador_id : PyId)
    (deudores_ids : list PyId) (s s' : State) (g : Gasto.t) :
  Main.add_gasto_pasos server gasto monto pagador_id deudores_ids s = (inr g, s') ->
  g = gasto
  /\ Eff.mem s' = Main.set_gastos (Eff.mem s) (Main.gastos (Eff.mem s) ++ [gasto])
  /\ accepted server s s'
       (tl (add_gasto_requests "" "" monto (Gasto.id gasto) pagador_id deudores_ids)).
Proof.
  unfold Main.add_gasto_pasos. intros H.
  apply bind_inr in H as ([] & s1 & H1 & H).
  apply for_each_wrap_accepted in H1 as [M1 A1].
  apply bind_inr in H as (credito & s2 & H2 & H).
  apply bind_inr in H as ([] & s3 & H3 & H).
  apply wrap_inr in H3.
  apply bind_inr in H as ([] & s4 & H4 & H).
  unfold Eff.bind, Eff.get_mem, Eff.set_mem, Eff.ret in H. injection H as <- <-.
  unfold add_gasto_requests. simpl tl.
  destruct (id_in pagador_id deudores_ids) eqn:IN; simpl negb in *.
  - pose proof (id_in_nonempty _ _ IN) as NE.
    rewrite (py_div_len monto deudores_ids NE) in H2, H4.
    unfold Eff.bind, Eff.lift, Eff.ret in H2. injection H2 as <- <-.
    apply bind_inr in H3 as ([] & s2' & H3a & H3).
    unfold Eff.ret in H3a. injection H3a as <-.
    apply send_checked_ok in H3 as [M3 A3].
    apply bind_inr in H4 as (mpp & s3' & H4a & H4).
    unfold Eff.lift in H4a. injection H4a as <- <-.
    rewrite (for_each_filter
               (fun d => negb (id_eqb d pagador_id))
               (fun d => Main.wrap
                           ("Error al actualizar crédito de deudor " ++ str_of_id d ++ ": ")%string
                           (Main.send_checked server
                              (PUT_expense_friend (Gasto.id gasto) d (- (monto / len deudores_ids))))))
      in H4.
    apply for_each_wrap_accepted in H4 as [M4 A4].
    split; [reflexivity|]. split.
    + simpl. rewrite M4, M3, M1. reflexivity.
    + apply (accepted_same_log _ s4); [reflexivity|].
      eapply accepted_trans; [exact A1|].
      change (?x :: ?t) with ([x] ++ t).
      eapply accepted_trans; [exact A3|exact A4].
  - unfold Eff.ret in H2. injection H2 as <- <-.
    apply bind_inr in H3 as ([] & s2' & H3a & H3).
    apply send_checked_ok in H3a as [M3a A3a].
    apply send_checked_ok in H3 as [M3 A3].
    apply bind_inr in H4 as (mpd & s3' & H4a & H4).
    unfold Eff.lift in H4a. injection H4a as H4a <-.
    apply py_div_inr in H4a. rewrite Qdiv_opp in H4a. subst mpd.
    apply for_each_wrap_accepted in H4 as [M4 A4].
    split; [reflexivity|]. split.
    + simpl. rewrite M4, M3, M3a, M1. reflexivity.
    + apply (accepted_same_log _ s4); [reflexivity|].
      eapply accepted_trans; [exact A1|].
      change (?x :: ?y :: ?t) with ([x] ++ [y] ++ t).
      eapply accepted_trans; [exact A3a|].
      eapply accepted_trans; [exact A3|exact A4].
Qed.

(** The exchanges of a successful [add_gasto]. *)
Lemma add_gasto_log (fecha descripcion : string) (monto : Q) (pagador_id : PyId)
    (deudores_ids : list PyId) (s s' : State) (g : Gasto.t) :
  Main.add_gasto server fecha descripcion monto pagador_id deudores_ids s = (inr g, s') ->
  accepted server s s'
    (add_gasto_requests fecha descripcion monto (Gasto.id g) pagador_id deudores_ids)
  /\ Eff.mem s' = Main.set_gastos (Eff.mem s) (Main.gastos (Eff.mem s) ++ [g])
  /\ Gasto.pagador_id g = pagador_id.
Proof.
  unfold Main.add_gasto. intros H.
  apply bind_inr in H as (gasto0 & s1 & H1 & H2).
  apply try_except_inr in H1; [|apply add_gasto_handlers_raise].
  apply try_except_inr in H2; [|apply add_gasto_handlers_raise].
  apply crear_gasto_ok in H1 as (-> & OK & _).
  apply add_gasto_pasos_ok in H2 as (-> & M2 & A2).
  split; [|split; [exact M2|reflexivity]].
  unfold add_gasto_requests in *. simpl tl in A2.
  change (?x :: ?t) with ([x] ++ t).
  eapply accepted_trans; [apply accepted_push; exact OK|exact A2].
Qed.

End AddGastoLog.

Lemma id_eqb_eq (a b : PyId) : id_eqb a b = true <-> a = b.
Proof.
  destruct a as [x|], b as [y|]; simpl; split; intros H;
    try discriminate H; try reflexivity.
  - apply Z.eqb_eq in H. subst. reflexivity.
  - injection H as ->. apply Z.eqb_refl.
Qed.

Lemma id_eqb_neq (a b : PyId) : id_eqb a b = false <-> a <> b.
Proof.
  split.
  - intros H E. apply id_eqb_eq in E. congruence.
  - intros H. destruct (id_eqb a b) eqn:E; [|reflexivity].
    apply id_eqb_eq in E. contradiction.
Qed.

Lemma id_in_In (x : PyId) (l : list PyId) : id_in x l = true <-> In x l.
Proof.
  unfold id_in. rewrite existsb_exists. split.
  - intros (y & Hy & E). apply id_eqb_eq in E. subst. exact Hy.
  - intros H. exists x. split; [exact H|apply id_eqb_eq; reflexivity].
Qed.

Lemma In_put_links (g f : PyId) (q : Q) (g' : PyId) (l : list PyId) :
  ~ In (PUT_expense_friend g f q) (map (POST_expense_friends g') l).
Proof.
  intros H. apply in_map_iff in H as (x & E & _). discriminate E.
Qed.

Lemma In_put_map (g f : PyId) (q c : Q) (l : list PyId) :
  In (PUT_expense_friend g f q) (map (fun d => PUT_expense_friend g d c) l)
  <-> In f l /\ q = c.
Proof.
  rewrite in_map_iff. split.
  - intros (x & E & Hx). injection E as -> ->. split; [exact Hx|reflexivity].
  - intros [Hf ->]. exists f. split; [reflexivity|exact Hf].
Qed.

(** C1. In every successful creation of an expense every request was
    accepted by the server and, with [n] the number of participants: when
    the payer is a participant, the only amount written to the payer's
    share is [monto - monto / n] and the only amount written to the share of
    each other participant is the debt [- (monto / n)]; when the payer is
    not a participant, the only amount written to the payer's share is
    [monto] and the only amount written to each participant's share is the
    debt [- (monto / n)]. *)
Theorem add_gasto_shares (server : Server) (fecha descripcion : string) (monto : Q)
    (pagador_id : PyId) (deudores_ids : list PyId) (s s' : State) (g : Gasto.t) :
  Main.add_gasto server fecha descripcion monto pagador_id deudores_ids s = (inr g, s') ->
  exists new : list Exchange,
    Eff.log s' = Eff.log s ++ new
    /\ Forall (fun x => is_ok (snd x) = true) new
    /\ let n := len deudores_ids in
       let escribe f q := In (PUT_expense_friend (Gasto.id g) f q) (requests new) in
       (id_in pagador_id deudores_ids = true ->
        (forall q, escribe pagador_id q <-> q = monto - monto / n)
        /\ (forall d q, In d deudores_ids -> d <> pagador_id ->
                        (escribe d q <-> q = - (monto / n))))
       /\ (id_in pagador_id deudores_ids = false ->
           (forall q, escribe pagador_id q <-> q = monto)
           /\ (forall d q, In d deudores_ids -> (escribe d q <-> q = - (monto / n)))).
Proof.
  intros H. apply add_gasto_log in H as ([L F] & _ & _).
  eexists. split; [exact L|]. split; [exact F|].
  rewrite requests_exchanges. unfold add_gasto_requests.
  cbv zeta. split; intros IN; rewrite IN.
  - split.
    + intros q. split.
      * intros [E|H]; [discriminate E|]. apply in_app_or in H as [H|H].
        -- apply In_put_links in H. contradiction.
        -- destruct H as [E|H]; [injection E as <-; reflexivity|].
           apply In_put_map in H as [H _]. apply filter_In in H as [_ H].
           rewrite (proj2 (id_eqb_eq pagador_id pagador_id) eq_refl) in H.
           discriminate H.
      * intros ->. right. apply in_or_app. right. left. reflexivity.
    + intros d q Hd Hne. split.
      * intros [E|H]; [discriminate E|]. apply in_app_or in H as [H|H].
        -- apply In_put_links in H. contradiction.
        -- destruct H as [E|H]; [injection E as E _; congruence|].
           apply In_put_map in H as [_ H]. exact H.
      * intros ->. right. apply in_or_app. right. right.
        apply In_put_map. split; [|reflexivity].
        apply filter_In. split; [exact Hd|].
        apply negb_true_iff. apply id_eqb_neq. exact Hne.
  - assert (NI : ~ In pagador_id deudores_ids).
    { intros C. apply id_in_In in C. congruence. }
    split.
    + intros q. split.
      * intros [E|H]; [discriminate E|]. apply in_app_or in H as [H|H].
        -- apply In_put_links in H. contradiction.
        -- destruct H as [E|[E|H]]; [discriminate E|injection E as <-; reflexivity|].
           apply In_put_map in H as [H _]. contradiction.
      * intros ->. right. apply in_or_app. right. right. left. reflexivity.
    + intros d q Hd. split.
      * intros [E|H]; [discriminate E|]. apply in_app_or in H as [H|H].
        -- apply In_put_links in H. contradiction.
        -- destruct H as [E|[E|H]]; [discriminate E| |].
           ++ injection E as E _. subst d. contradiction.
           ++ apply In_put_map in H as [_ H]. exact H.
      * intros ->. right. apply in_or_app. right. right. right.
        apply In_put_map. split; [exact Hd|reflexivity].
Qed.

(** ** What a computation may send and raise *)

Section Sat.

Variable server : Server.
Variable P : Request -> Prop.

Lemma sat_ret {A : Type} (E : Exn -> Prop) (a : A) : sat server P E (Eff.ret a).
Proof.
  intros s res s' H. unfold Eff.ret in H. injection H as <- <-. split.
  - exists []. split; [apply sent_refl|constructor].
  - intros e H. discriminate H.
Qed.

Lemma sat_raise {A : Type} (E : Exn -> Prop) (e : Exn) :
  E e -> sat server P E (@Eff.raise Main.t A e).
Proof.
  intros He s res s' H. unfold Eff.raise in H. injection H as <- <-. split.
  - exists []. split; [apply sent_refl|constructor].
  - intros e0 H. injection H as <-. exact He.
Qed.

Lemma sat_lift {A : Type} (E : Exn -> Prop) (r : Res A) :
  (forall e, r = inl e -> E e) -> sat server P E (Eff.lift r).
Proof.
  intros He s res s' H. unfold Eff.lift in H. injection H as <- <-. split.
  - exists []. split; [apply sent_refl|constructor].
  - exact He.
Qed.

Lemma sat_typed {A : Type} (E : Exn -> Prop) (o : option A) :
  E TypeError -> sat server P E (Eff.typed o).
Proof.
  intros He. destruct o; simpl; [apply sat_ret|apply sat_raise; exact He].
Qed.

Lemma sat_get_mem (E : Exn -> Prop) : sat server P E Eff.get_mem.
Proof.
  intros s res s' H. unfold Eff.get_mem in H. injection H as <- <-. split.
  - exists []. split; [apply sent_refl|constructor].
  - intros e H. discriminate H.
Qed.

Lemma sat_set_mem (E : Exn -> Prop) (m : Main.t) : sat server P E (Eff.set_mem m).
Proof.
  intros s res s' H. unfold Eff.set_mem in H. injection H as <- <-. split.
  - exists []. split; [|constructor]. unfold sent. simpl.
    rewrite app_nil_r. reflexivity.
  - intros e H. discriminate H.
Qed.

Lemma sat_bind {A B : Type} (E : Exn -> Prop) (m : Main.M A) (k : A -> Main.M B) :
  sat server P E m -> (forall a, sat server P E (k a)) -> sat server P E (Eff.bind m k).
Proof.
  intros Hm Hk s res s' H. unfold Eff.bind in H.
  destruct (m s) as [[e|a] s1] eqn:M.
  - injection H as <- <-. destruct (Hm _ _ _ M) as [S1 HE1].
    split; [exact S1|]. intros e0 H0. injection H0 as <-. apply HE1. reflexivity.
  - destruct (Hm _ _ _ M) as [(r1 & S1 & F1) _].
    destruct (Hk a _ _ _ H) as [(r2 & S2 & F2) HE]. split; [|exact HE].
    exists (r1 ++ r2). split; [eapply sent_trans; eassumption|].
    apply Forall_app. split; assumption.
Qed.

Lemma sat_try {A : Type} (E1 E : Exn -> Prop) (m : Main.M A) (h : Exn -> Main.M A) :
  sat server P E1 m -> (forall e, E1 e -> sat server P E (h e)) ->
  sat server P E (Eff.try_except m h).
Proof.
  intros Hm Hh s res s' H. unfold Eff.try_except in H.
  destruct (m s) as [[e|a] s1] eqn:M.
  - destruct (Hm _ _ _ M) as [(r1 & S1 & F1) HE1].
    destruct (Hh e (HE1 e eq_refl) _ _ _ H) as [(r2 & S2 & F2) HE]. split; [|exact HE].
    exists (r1 ++ r2). split; [eapply sent_trans; eassumption|].
    apply Forall_app. split; assumption.
  - injection H as <- <-. split; [exact (proj1 (Hm _ _ _ M))|].
    intros e H. discriminate H.
Qed.

Lemma sat_weaken {A : Type} (E1 E : Exn -> Prop) (m : Main.M A) :
  (forall e, E1 e -> E e) -> sat server P E1 m -> sat server P E m.
Proof.
  intros W Hm s res s' H. destruct (Hm _ _ _ H) as [S HE].
  split; [exact S|]. intros e He. apply W, HE, He.
Qed.

Lemma sat_send (r : Request) : P r -> sat server P de_requests (Eff.send server r).
Proof.
  intros Hr s res s' H. rewrite send_run in H. injection H as <- <-. split.
  - exists [r]. split; [apply sent_push|constructor; [exact Hr|constructor]].
  - intros e H. destruct (server (Eff.log s) r) as [[m|m|m]|resp];
      try discriminate H; injection H as <-; reflexivity.
Qed.

Lemma sat_raise_for_status (resp : Response) :
  sat server P de_requests (Eff.raise_for_status resp).
Proof.
  unfold Eff.raise_for_status.
  destruct ((400 <=? status_code resp)%Z && (status_code resp <? 600)%Z)%bool.
  - apply sat_raise. reflexivity.
  - apply sat_ret.
Qed.

Lemma sat_json (resp : Response) : sat server P de_requests (Eff.json resp).
Proof.
  unfold Eff.json. destruct (body resp); [apply sat_ret|apply sat_raise; reflexivity].
Qed.

Lemma sat_send_checked (r : Request) :
  P r -> sat server P de_requests (Main.send_checked server r).
Proof.
  intros Hr. unfold Main.send_checked. apply sat_bind.
  - apply sat_send. exact Hr.
  - intros resp. apply sat_raise_for_status.
Qed.

Lemma sat_for_each {A : Type} (E : Exn -> Prop) (l : list A) (body : A -> Main.M unit) :
  (forall x, sat server P E (body x)) -> sat server P E (Main.for_each l body).
Proof.
  intros Hb. induction l as [|x t IH]; simpl.
  - apply sat_ret.
  - apply sat_bind; [apply Hb|intros _; exact IH].
Qed.

(** Whatever the wrapped computation raises, [wrap] raises no exception of
    [requests]. *)
Lemma sat_wrap {A : Type} (E : Exn -> Prop) (prefix : string) (m : Main.M A) :
  sat server P E m -> sat server P no_de_requests (Main.wrap prefix m).
Proof.
  intros Hm. unfold Main.wrap. apply (sat_try E); [exact Hm|].
  intros e _. destruct (is_request_exception e) eqn:R.
  - apply sat_raise. reflexivity.
  - apply sat_raise. exact R.
Qed.

End Sat.

Section Compensation.

Variable server : Server.

Lemma no_de_requests_handlers (e : Exn) :
  no_de_requests e -> is_connection_error e = false /\ is_timeout e = false.
Proof. unfold no_de_requests. destruct e; simpl; intros H; try discriminate H; auto. Qed.

(** Steps 2 to 5 send no [DELETE /expenses/{id}] and raise no exception of
    [requests]: each store call is wrapped into a plain [Exception]. *)
Lemma add_gasto_pasos_sat (gasto : Gasto.t) (monto : Q) (pagador_id : PyId)
    (deudores_ids : list PyId) :
  sat server no_compensa no_de_requests
      (Main.add_gasto_pasos server gasto monto pagador_id deudores_ids).
Proof.
  unfold Main.add_gasto_pasos.
  apply sat_bind.
  { apply sat_for_each. intros x. apply (sat_wrap _ _ de_requests).
    apply sat_send_checked. reflexivity. }
  intros _. apply sat_bind.
  { destruct (id_in pagador_id deudores_ids).
    - apply sat_bind; [|intros q; apply sat_ret].
      apply sat_lift. unfold py_div. intros e.
      destruct (Qeq_bool (len deudores_ids) 0); intros H; [|discriminate H].
      injection H as <-. reflexivity.
    - apply sat_ret. }
  intros credito. apply sat_bind.
  { apply (sat_wrap _ _ de_requests). apply sat_bind.
    - destruct (negb (id_in pagador_id deudores_ids)).
      + apply sat_send_checked. reflexivity.
      + apply sat_ret.
    - intros _. apply sat_send_checked. reflexivity. }
  intros _. apply sat_bind.
  { destruct (negb (id_in pagador_id deudores_ids)).
    - apply sat_bind.
      + apply sat_lift. unfold py_div. intros e.
        destruct (Qeq_bool (len deudores_ids) 0); intros H; [|discriminate H].
        injection H as <-. reflexivity.
      + intros q. apply sat_for_each. intros x. apply (sat_wrap _ _ de_requests).
        apply sat_send_checked. reflexivity.
    - apply sat_bind.
      + apply sat_lift. unfold py_div. intros e.
        destruct (Qeq_bool (len deudores_ids) 0); intros H; [|discriminate H].
        injection H as <-. reflexivity.
      + intros q. apply sat_for_each. intros x.
        destruct (negb (id_eqb x pagador_id)).
        * apply (sat_wrap _ _ de_requests). apply sat_send_checked. reflexivity.
        * apply sat_ret. }
  intros _. apply sat_bind; [apply sat_get_mem|].
  intros self. apply sat_bind; [apply sat_set_mem|].
  intros _. apply sat_ret.
Qed.

(** Before [gasto_id] is assigned the handlers have nothing to delete. *)
Lemma add_gasto_handlers_None_sat {A : Type} (e : Exn) :
  sat server no_compensa (fun _ => True) (@Main.add_gasto_handlers server A None e).
Proof.
  unfold Main.add_gasto_handlers, Main.rollback. simpl id_truthy. cbv iota.
  destruct (is_connection_error e); [|destruct (is_timeout e);
    [|destruct (is_request_exception e)]];
    try (apply sat_bind; [apply sat_ret|intros _]); apply sat_raise; exact I.
Qed.

(** After it is assigned they are reached only by exceptions that none of
    their clauses matches. *)
Lemma add_gasto_handlers_sat {A : Type} (gasto_id : PyId) (e : Exn) :
  no_de_requests e ->
  sat server no_compensa (fun _ => True) (@Main.add_gasto_handlers server A gasto_id e).
Proof.
  intros He. unfold Main.add_gasto_handlers.
  destruct (no_de_requests_handlers e He) as [-> ->]. rewrite He.
  apply sat_raise. exact I.
Qed.

Lemma add_gasto_sat (fecha descripcion : string) (monto : Q) (pagador_id : PyId)
    (deudores_ids : list PyId) :
  sat server no_compensa (fun _ => True)
      (Main.add_gasto server fecha descripcion monto pagador_id deudores_ids).
Proof.
  unfold Main.add_gasto. apply sat_bind.
  - apply (sat_try _ _ (fun _ => True)).
    + apply sat_bind.
      { apply (sat_weaken _ _ de_requests); [trivial|]. apply sat_send. reflexivity. }
      intros resp. apply sat_bind.
      { apply (sat_weaken _ _ de_requests); [trivial|]. apply sat_raise_for_status. }
      intros _. apply sat_bind.
      { apply (sat_weaken _ _ de_requests); [trivial|]. apply sat_json. }
      intros data. apply sat_bind; [apply sat_typed; exact I|].
      intros d. apply sat_typed. exact I.
    + intros e _. apply add_gasto_handlers_None_sat.
  - intros gasto. apply (sat_try _ _ no_de_requests).
    + apply add_gasto_pasos_sat.
    + intros e He. apply add_gasto_handlers_sat. exact He.
Qed.

End Compensation.

(** C6, as the code has it.  Whatever the server answers, [add_gasto]
    never sends [DELETE /expenses/{id}]: a failure after the creation of the
    expense is not compensated. *)
Theorem add_gasto_never_compensates (server : Server) (fecha descripcion : string)
    (monto : Q) (pagador_id : PyId) (deudores_ids : list PyId)
    (s s' : State) (res : Res Gasto.t) :
  Main.add_gasto server fecha descripcion monto pagador_id deudores_ids s = (res, s') ->
  exists reqs, sent server s s' reqs
               /\ Forall (fun r => is_DELETE_expense r = false) reqs.
Proof.
  intros H. exact (proj1 (add_gasto_sat server _ _ _ _ _ _ _ _ H)).
Qed.

(** ** Deleting friends *)

Lemma Qltb_lt (x y : Q) : Qltb x y = true <-> x < y.
Proof.
  unfold Qltb. rewrite negb_true_iff. split.
  - intros H. apply Qnot_le_lt. intros C. apply Qle_bool_iff in C. congruence.
  - intros H. destruct (Qle_bool y x) eqn:E; [|reflexivity].
    apply Qle_bool_iff in E. exfalso. exact (Qlt_not_le _ _ H E).
Qed.

Lemma Qltb_nlt (x y : Q) : Qltb x y = false <-> ~ x < y.
Proof.
  rewrite <- Qltb_lt. destruct (Qltb x y); split; intros H; congruence.
Qed.

Section Deletion.

Variable server : Server.

(** [Main.eliminar_amigo] on the reply to its request. *)
Lemma eliminar_amigo_run (amigo_id : PyId) (s : State) :
  Main.eliminar_amigo server amigo_id s
  = let rep := server (Eff.log s) (DELETE_friend amigo_id) in
    if is_ok rep
    then (inr tt,
          mkState
            (Main.set_amigos (Eff.mem s)
               (filter (fun a => negb (id_eqb (Amigo.id a) amigo_id))
                       (Main.amigos (Eff.mem s))))
            (Eff.log s ++ [(DELETE_friend amigo_id, rep)]))
    else (inl (PyException (motivo rep)), push s (DELETE_friend amigo_id, rep)).
Proof.
  unfold Main.eliminar_amigo, Eff.try_except, Eff.bind. rewrite send_run.
  cbv zeta. destruct (server (Eff.log s) (DELETE_friend amigo_id)) as [[m|m|m]|resp];
    try reflexivity.
  unfold Eff.raise_for_status, is_ok.
  destruct ((400 <=? status_code resp)%Z && (status_code resp <? 600)%Z)%bool;
    [|reflexivity].
  simpl. unfold Main.handlers, http_message, motivo. simpl.
  destruct (status_code resp =? 409)%Z; [reflexivity|].
  destruct (status_code resp =? 404)%Z; [reflexivity|].
  destruct (status_code resp =? 500)%Z; reflexivity.
Qed.


End Deletion.


Section BulkDeletion.

Variable gettext : string -> string.
Variable server : Server.

Lemma filter_twice {A : Type} (p q : A -> bool) (l : list A) :
  filter p (filter q l) = filter (fun a => q a && p a) l.
Proof.
  induction l as [|x t IH]; simpl; [reflexivity|].
  destruct (q x); simpl; [destruct (p x)|]; rewrite IH; reflexivity.
Qed.

Lemma filter_all {A : Type} (l : list A) : filter (fun _ => true) l = l.
Proof. induction l as [|x t IH]; simpl; [|rewrite IH]; reflexivity. Qed.

Lemma filter_cons_true {A : Type} (p : A -> bool) (x : A) (l : list A) :
  p x = true -> filter p (x :: l) = x :: filter p l.
Proof. intros H. simpl. rewrite H. reflexivity. Qed.

Lemma filter_cons_false {A : Type} (p : A -> bool) (x : A) (l : list A) :
  p x = false -> filter p (x :: l) = filter p l.
Proof. intros H. simpl. rewrite H. reflexivity. Qed.

Lemma borrado_false (l : list Exchange) (i : PyId) :
  borrado l i = false
  <-> forall rep, In (DELETE_friend i, rep) l -> is_ok rep = false.
Proof.
  unfold borrado. split.
  - intros H rep Hin. destruct (is_ok rep) eqn:E; [|reflexivity].
    assert (C : existsb
                  (fun x => match fst x with
                            | DELETE_friend j => id_eqb i j && is_ok (snd x)
                            | _ => false
                            end) l = true).
    { apply existsb_exists. exists (DELETE_friend i, rep). split; [exact Hin|].
      simpl. rewrite E, (proj2 (id_eqb_eq i i) eq_refl). reflexivity. }
    congruence.
  - intros H.
    match goal with |- ?b = false => destruct b eqn:E; [|reflexivity] end.
    apply existsb_exists in E as ([r rep] & Hin & Hx). simpl in Hx.
    destruct r; try discriminate Hx.
    apply andb_true_iff in Hx as [Hi Hok]. apply id_eqb_eq in Hi. subst.
    rewrite (H rep Hin) in Hok. discriminate Hok.
Qed.

(** The loop: every identifier is tried, in order, whatever the earlier
    answers were. *)
Lemma eliminar_cada_uno_run (originales : list Amigo.t) (ids : list PyId)
    (n : Z) (errs : list string) (s : State) :
  let new := exchanges server (Eff.log s) (map DELETE_friend ids) in
  MainController.eliminar_cada_uno gettext server originales ids n errs s
  = (inr ((n + Z.of_nat (List.length (filter exito new)))%Z,
          errs ++ map (linea gettext originales) (filter fracaso new)),
     mkState
       (Main.set_amigos (Eff.mem s)
          (filter (fun a => negb (borrado new (Amigo.id a)))
                  (Main.amigos (Eff.mem s))))
       (Eff.log s ++ new)).
Proof.
  revert n errs s. induction ids as [|i t IH]; intros n errs s; cbv zeta.
  - simpl. unfold Eff.ret. rewrite Z.add_0_r, !app_nil_r.
    rewrite filter_all. destruct s as [[gi gn ga gg] l]. reflexivity.
  - simpl MainController.eliminar_cada_uno. unfold Eff.bind at 1.
    unfold Eff.try_except, Eff.bind at 1. rewrite eliminar_amigo_run. cbv zeta.
    simpl map. simpl exchanges.
    set (rep := server (Eff.log s) (DELETE_friend i)).
    destruct (is_ok rep) eqn:OK.
    + assert (Ex : exito (DELETE_friend i, rep) = true) by exact OK.
      assert (Fr : fracaso (DELETE_friend i, rep) = false)
        by (unfold fracaso; simpl; rewrite OK; reflexivity).
      unfold Eff.ret. cbn [fst snd]. rewrite IH. cbv zeta.
      cbn [filter Eff.log Eff.mem]. rewrite Ex, Fr. cbn [List.length]. f_equal.
      * do 2 f_equal. lia.
      * f_equal; [|rewrite <- app_assoc; reflexivity].
        unfold Main.set_amigos. cbn [Main.amigos Main.id Main.nombre Main.gastos].
        f_equal. rewrite filter_twice. apply filter_ext. intros a.
        cbn [borrado existsb fst snd]. rewrite OK, andb_true_r, negb_orb. reflexivity.
    + assert (Ex : exito (DELETE_friend i, rep) = false) by exact OK.
      assert (Fr : fracaso (DELETE_friend i, rep) = true)
        by (unfold fracaso; simpl; rewrite OK; reflexivity).
      unfold Eff.ret, push. cbn [fst snd]. rewrite IH. cbv zeta.
      cbn [filter Eff.log Eff.mem]. rewrite Ex, Fr. f_equal.
      * do 2 f_equal. cbn [map]. rewrite <- app_assoc. reflexivity.
      * f_equal; [|rewrite <- app_assoc; reflexivity].
        f_equal. apply filter_ext. intros a.
        cbn [borrado existsb fst snd]. rewrite OK, andb_false_r. reflexivity.
Qed.

End BulkDeletion.

Lemma length_exchanges (server : Server) (l : list Exchange) (reqs : list Request) :
  List.length (exchanges server l reqs) = List.length reqs.
Proof.
  revert l. induction reqs as [|r t IH]; intros l; simpl; [|rewrite IH]; reflexivity.
Qed.

Lemma eliminar_todos_nonempty (gettext : string -> string) (server : Server)
    (s : State) :
  Main.amigos (Eff.mem s) <> [] ->
  MainController.eliminar_todos_amigos gettext server s
  = Eff.bind
      (MainController.eliminar_cada_uno gettext server (Main.amigos (Eff.mem s))
         (map Amigo.id (Main.amigos (Eff.mem s))) 0%Z [])
      (fun r =>
         Eff.ret (MainController.mkResultado (fst r)
                    (Z.of_nat (List.length (map Amigo.id (Main.amigos (Eff.mem s)))))
                    (snd r))) s.
Proof.
  intros NE. unfold MainController.eliminar_todos_amigos, Eff.bind at 1, Eff.get_mem.
  destruct (Main.amigos (Eff.mem s)) as [|a t]; [congruence|reflexivity].
Qed.

(** C8. With no friend in memory the bulk deletion fails at once and
    sends nothing.  Otherwise it sends one deletion per friend, in order and
    whatever the earlier answers were, and it returns a report: the number
    of deletions the store accepted, the number of friends, and one line
    with the name and the reason for each deletion that failed.  A friend
    stays in the in-memory list exactly when every deletion sent for their
    identifier failed. *)
Theorem eliminar_todos_amigos_report (gettext : string -> string)
    (server : Server) (s : State) :
  let run := MainController.eliminar_todos_amigos gettext server s in
  let amigos := Main.amigos (Eff.mem s) in
  let new := exchanges server (Eff.log s) (map DELETE_friend (map Amigo.id amigos)) in
  (amigos = [] ->
   run = (inl (ValueError (gettext "No friends to delete")), s))
  /\ (amigos <> [] ->
      Eff.log (snd run) = Eff.log s ++ new
      /\ fst run
         = inr (MainController.mkResultado
                  (Z.of_nat (List.length (filter exito new)))
                  (Z.of_nat (List.length amigos))
                  (map (linea gettext amigos) (filter fracaso new)))
      /\ (List.length (filter exito new) + List.length (filter fracaso new)
          = List.length amigos)%nat
      /\ Main.amigos (Eff.mem (snd run))
         = filter (fun a => negb (borrado new (Amigo.id a))) amigos
      /\ forall a, In a (Main.amigos (Eff.mem (snd run)))
                   <-> In a amigos
                       /\ forall rep, In (DELETE_friend (Amigo.id a), rep) new ->
                                      is_ok rep = false).
Proof.
  intros run amigos new. split.
  - intros E. unfold run, MainController.eliminar_todos_amigos, Eff.bind, Eff.get_mem.
    fold amigos. rewrite E. reflexivity.
  - intros NE.
    assert (R : run
      = (inr (MainController.mkResultado
                (Z.of_nat (List.length (filter exito new)))
                (Z.of_nat (List.length amigos))
                (map (linea gettext amigos) (filter fracaso new))),
         mkState
           (Main.set_amigos (Eff.mem s)
              (filter (fun a => negb (borrado new (Amigo.id a))) amigos))
           (Eff.log s ++ new))).
    { unfold run. rewrite (eliminar_todos_nonempty gettext server s NE).
      unfold Eff.bind. rewrite eliminar_cada_uno_run. cbv zeta.
      unfold Eff.ret. cbn [fst snd]. rewrite length_map. reflexivity. }
    rewrite R. cbn [fst snd Eff.log Eff.mem]. split; [reflexivity|].
    split; [reflexivity|]. split; [|split; [reflexivity|]].
    + assert (L : List.length new = List.length amigos).
      { unfold new. rewrite length_exchanges, !length_map. reflexivity. }
      assert (G : forall l : list Exchange,
                 (List.length (filter exito l) + List.length (filter fracaso l)
                  = List.length l)%nat).
      { induction l as [|x t IH]; simpl; [reflexivity|].
        unfold exito at 1, fracaso at 1. destruct (is_ok (snd x)); simpl; lia. }
      rewrite G. exact L.
    + intros a. unfold Main.set_amigos. cbn [Main.amigos].
      rewrite filter_In, negb_true_iff, borrado_false. reflexivity.
Qed.

(** ** Paying a balance *)

Section Payment.

Variable server : Server.

Lemma fila_inv (i : Item) (sh : Share) :
  fila i = Some sh ->
  exists d vi vd vc,
    i = IDict d
    /\ Main.index d "id" = inr vi
    /\ Main.index d "debit_balance" = inr vd
    /\ Main.index d "credit_balance" = inr vc
    /\ Main.ident vi = inr (expense_id sh)
    /\ Main.number vd = inr (sh_debit sh)
    /\ Main.number vc = inr (sh_credit sh).
Proof.
  destruct i as [v|d]; simpl; [discriminate|].
  unfold Main.index.
  destruct (dict_get d "id") as [vi|] eqn:Gi; [|discriminate].
  destruct (dict_get d "debit_balance") as [vd|] eqn:Gd; [|discriminate].
  destruct (dict_get d "credit_balance") as [vc|] eqn:Gc; [|discriminate].
  destruct (Main.ident vi) as [e|i] eqn:I; [discriminate|].
  destruct (Main.number vd) as [e|de] eqn:D; [discriminate|].
  destruct (Main.number vc) as [e|cr] eqn:C; [discriminate|].
  intros H. injection H as <-. exists d, vi, vd, vc. rewrite Gi, Gd, Gc. simpl. repeat split; assumption.
Qed.

Lemma all_some_cons {A : Type} (o : option A) (l : list (option A)) (r : list A) :
  Main.all_some (o :: l) = Some r ->
  exists a t, o = Some a /\ Main.all_some l = Some t /\ r = a :: t.
Proof.
  simpl. destruct o as [a|]; [|discriminate].
  destruct (Main.all_some l) as [t|]; [|discriminate].
  intros H. injection H as <-. exists a, t. repeat split.
Qed.


Lemma handlers_escape {A : Type} conn tout table prefix :
  forall (e : Exn) (s0 : State),
    exists e' s1, @Main.handlers A conn tout table prefix e s0 = (inl e', s1).
Proof.
  intros e s0. destruct (@handlers_raise A conn tout table prefix e s0) as [e' He].
  exists e', s0. exact He.
Qed.

Lemma cargar_amigos_ok (s s' : State) (l : list Amigo.t) :
  Main.cargar_amigos server s = (inr l, s') -> sent server s s' [GET_friends].
Proof.
  unfold Main.cargar_amigos. intros H.
  apply try_except_inr in H;
    [|apply handlers_escape].
  unfold Eff.bind at 1 in H. rewrite send_run in H.
  destruct (server (Eff.log s) GET_friends) as [e|resp] eqn:E; [discriminate H|].
  unfold Eff.bind, Eff.raise_for_status, Eff.json, Eff.typed, Eff.lift, Eff.ret,
    Eff.raise, Eff.get_mem, Eff.set_mem in H.
  destruct ((400 <=? status_code resp)%Z && (status_code resp <? 600)%Z)%bool;
    [discriminate H|].
  destruct (body resp) as [b|]; [|discriminate H].
  destruct (Main.py_iter b) as [e|items]; [discriminate H|].
  destruct (Main.all_some (map Main.item_dict items)) as [ds|]; [|discriminate H].
  destruct (Main.all_some (map amigo_from_dict ds)) as [la|]; [|discriminate H].
  injection H as _ <-. unfold sent. simpl. rewrite E. reflexivity.
Qed.


End Payment.

Lemma Qle_bool_false (x y : Q) : Qle_bool x y = false -> y < x.
Proof.
  intros H. apply Qnot_le_lt. intros C. apply Qle_bool_iff in C. congruence.
Qed.

Lemma py_min_Qmin (a b : Q) : py_min a b == Qmin a b.
Proof.
  unfold py_min. destruct (Qltb b a) eqn:E.
  - apply Qltb_lt in E. symmetry. apply Q.min_r. apply Qlt_le_weak. exact E.
  - apply Qltb_nlt in E. symmetry. apply Q.min_l. apply Qnot_lt_le. exact E.
Qed.

Lemma deuda_total_nonneg (shares : list Share) : 0 <= deuda_total shares.
Proof.
  unfold deuda_total. induction shares as [|sh t IH]; simpl.
  - apply Qle_refl.
  - destruct (Qltb 0 (deuda sh)) eqn:E.
    + apply Qltb_lt in E. lra.
    + lra.
Qed.

Lemma deuda_total_cons (sh : Share) (t : list Share) :
  deuda_total (sh :: t)
  = (if Qltb 0 (deuda sh) then deuda sh else 0) + deuda_total t.
Proof. reflexivity. Qed.

(** In exact arithmetic the payments of an allocation add up to the
    smaller of the amount and the outstanding debt. *)
Lemma asignacion_sum (r : Q) (shares : list Share) :
  0 <= r ->
  Qsum (map snd (asignacion r shares)) == Qmin r (deuda_total shares).
Proof.
  revert r. induction shares as [|sh t IH]; intros r Hr.
  - simpl. unfold deuda_total. simpl. symmetry. apply Q.min_r. exact Hr.
  - rewrite deuda_total_cons. pose proof (deuda_total_nonneg t) as HT.
    cbn [asignacion]. destruct (Qle_bool r 0) eqn:R0.
    + apply Qle_bool_iff in R0. simpl.
      destruct (Q.min_spec r ((if Qltb 0 (deuda sh) then deuda sh else 0)
                              + deuda_total t)) as [[_ ->]|[H ->]].
      * lra.
      * destruct (Qltb 0 (deuda sh)) eqn:E;
          [apply Qltb_lt in E|]; lra.
    + apply Qle_bool_false in R0.
      destruct (Qltb 0 (deuda sh)) eqn:E.
      * apply Qltb_lt in E. cbn [map snd Qsum].
        pose proof (py_min_Qmin r (deuda sh)) as PM.
        assert (Hrem : 0 <= r - py_min r (deuda sh)).
        { rewrite PM. destruct (Q.min_spec r (deuda sh)) as [[? ->]|[? ->]]; lra. }
        rewrite (IH _ Hrem).
        destruct (Q.min_spec r (deuda sh)) as [[H1 E1]|[H1 E1]];
          destruct (Q.min_spec (r - py_min r (deuda sh)) (deuda_total t))
            as [[H2 E2]|[H2 E2]];
          destruct (Q.min_spec r (deuda sh + deuda_total t)) as [[H3 E3]|[H3 E3]];
          rewrite E2, E3; rewrite PM in *; rewrite E1 in *; lra.
      * rewrite (IH r Hr).
        apply Q.min_compat; [reflexivity|lra].
Qed.

(** Each payment of an allocation is positive and within the debt of a
    listed share of that expense. *)
Lemma asignacion_bound (r : Q) (shares : list Share) (g : PyId) (q : Q) :
  In (g, q) (asignacion r shares) ->
  exists sh, In sh shares /\ expense_id sh = g /\ 0 < q /\ q <= deuda sh.
Proof.
  revert r. induction shares as [|sh t IH]; intros r H; [contradiction|].
  cbn [asignacion] in H. destruct (Qle_bool r 0) eqn:R0; [contradiction|].
  apply Qle_bool_false in R0.
  destruct (Qltb 0 (deuda sh)) eqn:E.
  - apply Qltb_lt in E. destruct H as [H|H].
    + injection H as <- <-. exists sh. split; [left; reflexivity|].
      split; [reflexivity|]. rewrite (py_min_Qmin r (deuda sh)).
      destruct (Q.min_spec r (deuda sh)) as [[H1 ->]|[H1 ->]]; lra.
    + apply IH in H as (sh' & Hin & Hx). exists sh'. split; [right; exact Hin|exact Hx].
  - apply IH in H as (sh' & Hin & Hx). exists sh'. split; [right; exact Hin|exact Hx].
Qed.

Lemma creditos_app (l1 l2 : list Exchange) :
  creditos (l1 ++ l2) = creditos l1 ++ creditos l2.
Proof. unfold creditos. apply flat_map_app. Qed.

Lemma creditos_pagos (server : Server) (l : list Exchange) (amigo_id : PyId)
    (a : list (PyId * Q)) :
  creditos (exchanges server l (pagos amigo_id a)) = a.
Proof.
  revert l. induction a as [|[g q] t IH]; intros l; simpl; [reflexivity|].
  f_equal. apply IH.
Qed.



(** The two payments of the specification: 15 settles the first debt and
    half of the second; 50 settles both and the 20 left over appear in no
    request. *)
Example pago_de_15 :
  requests (Eff.log (snd (Main.pagar_saldo servidor_deudas (Some 3%Z) 15 s_vacio)))
  = [GET_friend_expenses (Some 3%Z);
     PUT_expense_friend (Some 1%Z) (Some 3%Z) 10;
     PUT_expense_friend (Some 2%Z) (Some 3%Z) 5;
     GET_friends].
Proof. reflexivity. Qed.

Example pago_de_50 :
  Main.pagar_saldo servidor_deudas (Some 3%Z) 50 s_vacio
  = (inr tt,
     mkState Main.init
       [(GET_friend_expenses (Some 3%Z), ok (Some (BList deudas)));
        (PUT_expense_friend (Some 1%Z) (Some 3%Z) 10, ok None);
        (PUT_expense_friend (Some 2%Z) (Some 3%Z) 20, ok None);
        (GET_friends, ok (Some (BList [])))]).
Proof. reflexivity. Qed.

(** ** The payment on binary64 *)

Section Payment64.

Variable server : Server.

(** A row that decodes to a share is read by [distribuir64] as the doubles
    of its numbers. *)
Lemma number64_run (v : PyVal) (q : Q) :
  Main.number v = inr q -> Main.number64 v = inr (redondea q).
Proof. unfold Main.number64. intros ->. reflexivity. Qed.

(** The loop on rows that decode to [shares]: when it completes, it has
    sent the payments of [asignacion64]. *)
Lemma distribuir64_ok (amigo_id : PyId) (rows : list Item) (shares : list Share)
    (r : Q) (s s' : State) (rest : Q) :
  Main.all_some (map fila rows) = Some shares ->
  Main.distribuir64 server amigo_id rows r s = (inr rest, s') ->
  Eff.mem s' = Eff.mem s
  /\ sent server s s' (pagos amigo_id (asignacion64 r shares)).
Proof.
  revert shares r s. induction rows as [|row rows IH]; intros shares r s HA H.
  - simpl in HA. injection HA as <-. simpl in H. unfold Eff.ret in H.
    injection H as _ <-. split; [reflexivity|]. simpl. apply sent_refl.
  - cbn [map] in HA. apply all_some_cons in HA as (sh & t & Hf & Ht & ->).
    apply fila_inv in Hf as (d & vi & vd & vc & -> & Hi & Hd & Hc & Ii & Nd & Nc).
    cbn [Main.distribuir64 asignacion64] in *.
    destruct (Qle_bool r 0).
    + unfold Eff.ret in H. injection H as _ <-. split; [reflexivity|apply sent_refl].
    + unfold Main.item_dict in H. unfold Eff.bind at 1, Eff.typed, Eff.ret in H.
      unfold Eff.bind at 1, Eff.lift in H. rewrite Hi in H.
      unfold Eff.bind at 1 in H. rewrite Hd in H.
      unfold Eff.bind at 1 in H. rewrite Hc in H.
      unfold Eff.bind at 1 in H. rewrite (number64_run _ _ Nd) in H.
      unfold Eff.bind at 1 in H. rewrite (number64_run _ _ Nc) in H.
      change (redondea (redondea (sh_debit sh) - redondea (sh_credit sh)))
        with (deuda64 sh) in H.
      destruct (Qltb 0 (deuda64 sh)).
      * unfold Eff.bind at 1 in H. rewrite Ii in H.
        unfold Eff.bind at 1 in H. rewrite send_run in H.
        destruct (server (Eff.log s)
                    (PUT_expense_friend (expense_id sh) amigo_id
                       (py_min r (deuda64 sh)))) as [e|resp] eqn:E;
          [discriminate H|].
        apply (IH t) in H; [|exact Ht]. destruct H as [M S].
        split; [exact M|]. cbn [pagos map fst snd].
        change (?x :: ?l) with ([x] ++ l).
        eapply sent_trans; [|exact S]. rewrite <- E. apply sent_push.
      * apply (IH t) in H; [exact H|exact Ht].
Qed.

(** The exchanges of a payment that completes. *)
Lemma pagar_saldo64_log (amigo_id : PyId) (importe : Q) (s s' : State)
    (resp : Response) (rows : list Item) (shares : list Share) :
  server (Eff.log s) (GET_friend_expenses amigo_id) = Answer resp ->
  body resp = Some (BList rows) ->
  Main.all_some (map fila rows) = Some shares ->
  Main.pagar_saldo64 server amigo_id importe s = (inr tt, s') ->
  sent server s s'
    (GET_friend_expenses amigo_id
     :: pagos amigo_id (asignacion64 importe shares) ++ [GET_friends]).
Proof.
  intros Hr Hb Hs H. unfold Main.pagar_saldo64 in H.
  apply try_except_inr in H;
    [|apply handlers_escape].
  unfold Eff.bind at 1 in H. rewrite send_run, Hr in H.
  apply bind_inr in H as ([] & s1 & H1 & H).
  unfold Eff.raise_for_status in H1.
  destruct ((400 <=? status_code resp)%Z && (status_code resp <? 600)%Z)%bool;
    [discriminate H1|].
  unfold Eff.ret in H1. injection H1 as <-.
  unfold Eff.bind at 1, Eff.json in H. rewrite Hb in H. unfold Eff.ret in H.
  unfold Eff.bind at 1, Eff.lift in H. cbn [Main.py_iter] in H.
  apply bind_inr in H as (rest & s2 & H2 & H).
  apply (distribuir64_ok _ _ shares) in H2; [|exact Hs]. destruct H2 as [_ S2].
  apply bind_inr in H as (l & s3 & H3 & H).
  apply cargar_amigos_ok in H3. unfold Eff.ret in H. injection H as <-.
  change (?x :: ?l) with ([x] ++ l).
  eapply sent_trans; [|eapply sent_trans; [exact S2|exact H3]].
  rewrite <- Hr. apply sent_push.
Qed.

(** Once nothing is left the loop ends without reading a row. *)
Lemma distribuir64_nothing (amigo_id : PyId) (rows : list Item) (r : Q) (s : State) :
  r <= 0 -> Main.distribuir64 server amigo_id rows r s = (inr r, s).
Proof.
  intros Hr. destruct rows as [|row t]; [reflexivity|]. cbn [Main.distribuir64].
  rewrite (proj2 (Qle_bool_iff r 0) Hr). reflexivity.
Qed.

End Payment64.

(** Each payment of the allocation is positive and at most the debt the
    program computes for its share. *)
Lemma asignacion64_bound (r : Q) (shares : list Share) (g : PyId) (q : Q) :
  In (g, q) (asignacion64 r shares) ->
  exists sh, In sh shares /\ expense_id sh = g /\ 0 < q /\ q <= deuda64 sh.
Proof.
  revert r. induction shares as [|sh t IH]; intros r H; [contradiction|].
  cbn [asignacion64] in H. destruct (Qle_bool r 0) eqn:R0; [contradiction|].
  apply Qle_bool_false in R0.
  destruct (Qltb 0 (deuda64 sh)) eqn:E.
  - apply Qltb_lt in E. destruct H as [H|H].
    + injection H as <- <-. exists sh. split; [left; reflexivity|].
      split; [reflexivity|]. rewrite (py_min_Qmin r (deuda64 sh)).
      destruct (Q.min_spec r (deuda64 sh)) as [[H1 ->]|[H1 ->]]; lra.
    + apply IH in H as (sh' & Hin & Hx). exists sh'. split; [right; exact Hin|exact Hx].
  - apply IH in H as (sh' & Hin & Hx). exists sh'. split; [right; exact Hin|exact Hx].
Qed.

(** Every listed share is paid at most once, in the order of the
    listing. *)
Lemma asignacion64_length (r : Q) (shares : list Share) :
  (List.length (asignacion64 r shares) <= List.length shares)%nat.
Proof.
  revert r. induction shares as [|sh t IH]; intros r; [apply Nat.le_refl|].
  cbn [asignacion64 List.length]. destruct (Qle_bool r 0); [apply Nat.le_0_l|].
  destruct (Qltb 0 (deuda64 sh)); cbn [List.length].
  - apply le_n_S, IH.
  - apply Nat.le_le_succ_r, IH.
Qed.

(** C10, as the code has it.  In a payment of a finite amount that
    completes, every credit increment sent is positive and at most the
    outstanding debt that the program computes, in binary64, for a listed
    share of that expense: no share is credited more than it owes.  The
    increments are those of the walk, computed with the rounding of the
    machine; nothing is said of their sum, which the rounding of the amount
    left moves away from the payment. *)
Theorem pagar_saldo64_bounds (server : Server) (amigo_id : PyId) (importe : Q)
    (s s' : State) (resp : Response) (rows : list Item) (shares : list Share) :
  server (Eff.log s) (GET_friend_expenses amigo_id) = Answer resp ->
  body resp = Some (BList rows) ->
  Main.all_some (map fila rows) = Some shares ->
  Main.pagar_saldo64 server amigo_id importe s = (inr tt, s') ->
  exists new : list Exchange,
    Eff.log s' = Eff.log s ++ new
    /\ creditos new = asignacion64 importe shares
    /\ (forall g q, In (g, q) (creditos new) ->
                    exists sh, In sh shares /\ expense_id sh = g
                               /\ 0 < q /\ q <= deuda64 sh).
Proof.
  intros Hr Hb Hs H.
  pose proof (pagar_saldo64_log server amigo_id importe s s' resp rows shares
                Hr Hb Hs H) as S.
  eexists. split; [exact S|].
  change (GET_friend_expenses amigo_id
          :: pagos amigo_id (asignacion64 importe shares) ++ [GET_friends])
    with ([GET_friend_expenses amigo_id]
          ++ pagos amigo_id (asignacion64 importe shares) ++ [GET_friends]).
  rewrite !exchanges_app, !creditos_app, creditos_pagos. simpl creditos at 1.
  simpl creditos at 2. rewrite app_nil_r. cbn [app]. split; [reflexivity|].
  intros g q Hin. apply asignacion64_bound in Hin. exact Hin.
Qed.

Lemma pagar_saldo64_bounds_witness :
  exists new : list Exchange,
    Eff.log (snd (Main.pagar_saldo64 servidor_cuatro_deudas (Some 3%Z)
                    (redondea (7229 # 100)) s_vacio))
    = [] ++ new
    /\ creditos new = asignacion64 (redondea (7229 # 100)) cuatro_shares
    /\ (forall g q, In (g, q) (creditos new) ->
                    exists sh, In sh cuatro_shares /\ expense_id sh = g
                               /\ 0 < q /\ q <= deuda64 sh).
Proof.
  apply (pagar_saldo64_bounds servidor_cuatro_deudas (Some 3%Z) (redondea (7229 # 100))
           s_vacio
           (snd (Main.pagar_saldo64 servidor_cuatro_deudas (Some 3%Z)
                   (redondea (7229 # 100)) s_vacio))
           (mkResponse 200 "OK" (Some (BList cuatro_deudas))) cuatro_deudas
           cuatro_shares).
  - reflexivity.
  - reflexivity.
  - reflexivity.
  - vm_compute. reflexivity.
Defined.

(** The second half of C10 does not hold of the program.  A payment of
    72.29 by a person who owes 20.74, 27.78, 17.48 and 22.32 completes; the
    debt is the larger of the two, so the increments should add up to the
    payment; the last one is the amount left after three rounded
    subtractions, and the four add up to [2 ^ -48] more than was paid. *)
Lemma pagar_saldo64_distributes_more :
  let importe := redondea (7229 # 100) in
  let run := Main.pagar_saldo64 servidor_cuatro_deudas (Some 3%Z) importe s_vacio in
  let incrementos := map snd (creditos (Eff.log (snd run))) in
  fst run = inr tt
  /\ incrementos
     = [redondea (2074 # 100); redondea (2778 # 100); redondea (1748 # 100);
        1770477603510029 # 281474976710656]
  /\ importe < deuda_total64 cuatro_shares
  /\ Qsum incrementos == importe + (1 # 281474976710656)
  /\ ~ Qsum incrementos == Qmin importe (deuda_total64 cuatro_shares).
Proof.
  cbv zeta.
  assert (R : Main.pagar_saldo64 servidor_cuatro_deudas (Some 3%Z)
                (redondea (7229 # 100)) s_vacio
              = (inr tt,
                 mkState Main.init
                   [(GET_friend_expenses (Some 3%Z), ok (Some (BList cuatro_deudas)));
                    (PUT_expense_friend (Some 1%Z) (Some 3%Z) (redondea (2074 # 100)),
                     ok None);
                    (PUT_expense_friend (Some 2%Z) (Some 3%Z) (redondea (2778 # 100)),
                     ok None);
                    (PUT_expense_friend (Some 3%Z) (Some 3%Z) (redondea (1748 # 100)),
                     ok None);
                    (PUT_expense_friend (Some 4%Z) (Some 3%Z)
                       (1770477603510029 # 281474976710656), ok None);
                    (GET_friends, ok (Some (BList [])))]))
    by (vm_compute; reflexivity).
  rewrite R. cbn [fst snd Eff.log creditos flat_map map app].
  split; [reflexivity|]. split; [reflexivity|].
  assert (T : redondea (7229 # 100) < deuda_total64 cuatro_shares)
    by (vm_compute; reflexivity).
  assert (S : Qsum [redondea (2074 # 100); redondea (2778 # 100);
                    redondea (1748 # 100); 1770477603510029 # 281474976710656]
              == redondea (7229 # 100) + (1 # 281474976710656))
    by (vm_compute; reflexivity).
  split; [exact T|]. split; [exact S|].
  rewrite S. rewrite (Q.min_l _ _ (Qlt_le_weak _ _ T)).
  intros C. vm_compute in C. discriminate C.
Qed.

(** ** Editing an expense *)

Section Edit.

Variable server : Server.

(** A loop whose body sends one request and goes on, whatever the
    answer. *)
Lemma for_each_steps {A : Type} (f : A -> Request) (body : A -> Main.M unit)
    (l : list A) (s : State) :
  (forall x s0, body x s0 = (inr tt, push s0 (f x, server (Eff.log s0) (f x)))) ->
  Main.for_each l body s
  = (inr tt, mkState (Eff.mem s) (Eff.log s ++ exchanges server (Eff.log s) (map f l))).
Proof.
  intros Hb. revert s. induction l as [|x t IH]; intros s; simpl.
  - unfold Eff.ret. rewrite app_nil_r. destruct s; reflexivity.
  - unfold Eff.bind. rewrite Hb, IH. unfold push. simpl.
    rewrite <- app_assoc. reflexivity.
Qed.

Lemma for_each_skip_run {A : Type} (f : A -> Request) (l : list A) (s : State) :
  Main.for_each l (fun x => Main.skip_on_error (Main.send_checked server (f x))) s
  = (inr tt, mkState (Eff.mem s) (Eff.log s ++ exchanges server (Eff.log s) (map f l))).
Proof. apply for_each_steps. intros x s0. apply skip_run. Qed.

Lemma nuevo_credito_run (monto_nuevo : Q) (pagador_id : PyId)
    (nuevos : list PyId) (x : PyId) (s : State) :
  Main.nuevo_credito monto_nuevo pagador_id nuevos x s
  = (inr (credito_recalculado monto_nuevo pagador_id nuevos x), s).
Proof.
  unfold Main.nuevo_credito, credito_recalculado.
  destruct (id_eqb x pagador_id); [|reflexivity].
  destruct (id_in pagador_id nuevos) eqn:IN; [|reflexivity].
  unfold Eff.bind, Eff.lift. rewrite (py_div_len _ _ (id_in_nonempty _ _ IN)).
  reflexivity.
Qed.

(** The recomputation writes one amount per new participant, in order,
    whatever the store answers. *)
Lemma recalcular_run (gasto_id : PyId) (monto_nuevo : Q) (pagador_id : PyId)
    (nuevos : list PyId) (s : State) :
  Main.recalcular server gasto_id monto_nuevo pagador_id nuevos s
  = (inr tt,
     mkState (Eff.mem s)
       (Eff.log s
        ++ exchanges server (Eff.log s)
             (map (fun x => PUT_expense_friend gasto_id x
                              (credito_recalculado monto_nuevo pagador_id nuevos x))
                  nuevos))).
Proof.
  unfold Main.recalcular. apply for_each_steps. intros x s0.
  unfold Main.skip_on_error, Eff.try_except, Eff.bind.
  rewrite nuevo_credito_run, send_checked_run.
  destruct (outcome (server (Eff.log s0) _)) as [e|[]] eqn:E; [|reflexivity].
  rewrite (outcome_request_exception _ _ E). reflexivity.
Qed.

Lemma obtener_participantes_inv (gasto_id : PyId) (s s1 : State) (l : list PyId) :
  Main.obtener_participantes_gasto server gasto_id s = (inr l, s1) ->
  s1 = push s (GET_expense_friends gasto_id,
               server (Eff.log s) (GET_expense_friends gasto_id))
  /\ exists resp b,
       server (Eff.log s) (GET_expense_friends gasto_id) = Answer resp
       /\ is_ok (Answer resp) = true
       /\ body resp = Some b
       /\ Main.participantes_body b = inr l.
Proof.
  unfold Main.obtener_participantes_gasto. intros H.
  apply try_except_inr in H; [|apply handlers_escape].
  unfold Eff.bind at 1 in H. rewrite send_run in H.
  destruct (server (Eff.log s) (GET_expense_friends gasto_id)) as [e|resp] eqn:E;
    [discriminate H|].
  unfold Eff.bind, Eff.raise_for_status, Eff.json, Eff.lift, Eff.ret, Eff.raise in H.
  destruct ((400 <=? status_code resp)%Z && (status_code resp <? 600)%Z)%bool eqn:St;
    [discriminate H|].
  destruct (body resp) as [b|] eqn:B; [|discriminate H].
  injection H as H <-. split; [reflexivity|].
  exists resp, b. split; [reflexivity|].
  split; [unfold is_ok; rewrite St; reflexivity|].
  split; [exact B|exact H].
Qed.

End Edit.

Section EditInversion.

Variable server : Server.

(** One step of the search of the payer: the participant is read, and a
    read that fails counts as no credit. *)
Lemma tiene_credito_caught (gasto_id x : PyId) (s s1 : State) (b : bool) :
  Eff.try_except (Main.tiene_credito server gasto_id x)
    (fun e => if is_request_exception e then Eff.ret false else Eff.raise e) s
  = (inr b, s1) ->
  s1 = push s (GET_expense_friend gasto_id x,
               server (Eff.log s) (GET_expense_friend gasto_id x))
  /\ b = credito_positivo (server (Eff.log s) (GET_expense_friend gasto_id x)).
Proof.
  unfold Main.tiene_credito, Eff.try_except. unfold Eff.bind at 1. rewrite send_run.
  unfold credito_positivo, outcome.
  destruct (server (Eff.log s) (GET_expense_friend gasto_id x)) as [[m|m|m]|resp];
    simpl; try (intros H; injection H as <- <-; split; reflexivity).
  unfold Eff.bind, Eff.raise_for_status, Eff.json, Eff.typed, Eff.ret, Eff.raise.
  destruct ((400 <=? status_code resp)%Z && (status_code resp <? 600)%Z)%bool;
    simpl; [intros H; injection H as <- <-; split; reflexivity|].
  destruct (body resp) as [[[v|d]|l]|]; simpl;
    try (intros H; discriminate H);
    try (intros H; injection H as <- <-; split; reflexivity).
  destruct (as_float 0 (dict_get d "credit_balance")) as [c|]; simpl;
    intros H; [injection H as <- <-; split; reflexivity|discriminate H].
Qed.

(** The search returns the first participant, in order, that was read
    with a positive credit, having read all the earlier ones without; or
    the payer it started with, having read them all without. *)
Lemma buscar_pagador_inv (gasto_id : PyId) (l : list PyId) (p0 p : PyId)
    (s s' : State) :
  Main.buscar_pagador server gasto_id l p0 s = (inr p, s') ->
  Eff.mem s' = Eff.mem s
  /\ ((exists pre post,
         l = pre ++ p :: post
         /\ let leidos :=
              exchanges server (Eff.log s) (map (GET_expense_friend gasto_id) pre) in
            Forall (fun x => credito_positivo (snd x) = false) leidos
            /\ credito_positivo
                 (server (Eff.log s ++ leidos) (GET_expense_friend gasto_id p)) = true
            /\ Eff.log s'
               = Eff.log s ++ leidos
                 ++ [(GET_expense_friend gasto_id p,
                      server (Eff.log s ++ leidos) (GET_expense_friend gasto_id p))])
      \/ (p = p0
          /\ let leidos :=
               exchanges server (Eff.log s) (map (GET_expense_friend gasto_id) l) in
             Forall (fun x => credito_positivo (snd x) = false) leidos
             /\ Eff.log s' = Eff.log s ++ leidos)).
Proof.
  revert s. induction l as [|x t IH]; intros s H.
  - simpl in H. unfold Eff.ret in H. injection H as <- <-.
    split; [reflexivity|]. right. split; [reflexivity|]. simpl.
    split; [constructor|]. rewrite app_nil_r. reflexivity.
  - cbn [Main.buscar_pagador] in H.
    apply bind_inr in H as (b & s1 & H1 & H).
    apply tiene_credito_caught in H1 as [-> ->].
    set (rep := server (Eff.log s) (GET_expense_friend gasto_id x)) in *.
    destruct (credito_positivo rep) eqn:CP.
    + unfold Eff.ret in H. injection H as <- <-. split; [reflexivity|].
      left. exists [], t. split; [reflexivity|]. simpl.
      split; [constructor|]. rewrite app_nil_r. split; [exact CP|reflexivity].
    + apply IH in H as [M [ (pre & post & -> & F & C & L) | (-> & F & L) ]];
        (split; [exact M|]).
      * left. exists (x :: pre), post. split; [reflexivity|].
        cbn [map exchanges]. fold rep. cbv zeta in *. simpl Eff.log in *.
        split; [constructor; [exact CP|exact F]|].
        cbn [app]. rewrite <- !app_assoc in *. cbn [app] in *.
        split; [exact C|exact L].
      * right. split; [reflexivity|].
        cbn [map exchanges]. fold rep. cbv zeta in *. simpl Eff.log in *.
        split; [constructor; [exact CP|exact F]|].
        rewrite <- app_assoc in L. exact L.
Qed.

End EditInversion.

Section EditRun.

Variable server : Server.

Lemma mutate_gasto_run (gasto_id : PyId) (f : Gasto.t -> Gasto.t) (s : State) :
  Main.mutate_gasto gasto_id f s
  = (inr tt,
     mkState (Main.set_gastos (Eff.mem s)
                (Main.update_first (Main.gastos (Eff.mem s)) gasto_id f))
             (Eff.log s)).
Proof. reflexivity. Qed.

(** The participant changes are sent whatever the store answers. *)
Lemma cambios_run (gasto_id : PyId) (actuales nuevos : list PyId) (s : State) :
  (if negb (set_eqb actuales nuevos)
   then
     Eff.bind
       (Main.for_each actuales
          (fun participante_id =>
             if negb (id_in participante_id nuevos)
             then Main.skip_on_error
                    (Main.send_checked server
                       (DELETE_expense_friend gasto_id participante_id))
             else Eff.ret tt))
       (fun _ =>
          Main.for_each nuevos
            (fun participante_id =>
               if negb (id_in participante_id actuales)
               then Main.skip_on_error
                      (Main.send_checked server
                         (POST_expense_friends gasto_id participante_id))
               else Eff.ret tt))
   else Eff.ret tt) s
  = (inr tt,
     mkState (Eff.mem s)
       (Eff.log s ++ exchanges server (Eff.log s) (cambios gasto_id actuales nuevos))).
Proof.
  unfold cambios. destruct (negb (set_eqb actuales nuevos)).
  - unfold Eff.bind.
    rewrite (for_each_filter (fun x => negb (id_in x nuevos))
               (fun x => Main.skip_on_error
                           (Main.send_checked server (DELETE_expense_friend gasto_id x)))).
    rewrite for_each_skip_run.
    rewrite (for_each_filter (fun x => negb (id_in x actuales))
               (fun x => Main.skip_on_error
                           (Main.send_checked server (POST_expense_friends gasto_id x)))).
    rewrite for_each_skip_run. simpl. rewrite exchanges_app, app_assoc. reflexivity.
  - unfold Eff.ret. simpl. rewrite app_nil_r. destruct s; reflexivity.
Qed.

(** What an edit that completes has done. *)
Lemma update_gasto_inv (gasto_id : PyId) (nuevos_datos : NuevosDatos.t)
    (s s' : State) (g0 : Gasto.t) :
  Main.find_gasto (Main.gastos (Eff.mem s)) gasto_id = Some g0 ->
  Main.update_gasto server gasto_id nuevos_datos s = (inr tt, s') ->
  exists (actuales : list PyId) (p : PyId) (s2 s3 : State),
    let monto_nuevo := get_or (NuevosDatos.monto nuevos_datos) (Gasto.monto g0) in
    let nuevos := get_or (NuevosDatos.participantes_ids nuevos_datos) actuales in
    let description :=
      match NuevosDatos.descripcion nuevos_datos with
      | Some d => Some d
      | None => Gasto.descripcion g0
      end in
    let date :=
      match NuevosDatos.fecha nuevos_datos with
      | Some f => Some f
      | None => Gasto.fecha g0
      end in
    let p0 := get_or (NuevosDatos.pagador_id nuevos_datos) (Gasto.pagador_id g0) in
    (exists resp b,
        server (Eff.log s) (GET_expense_friends gasto_id) = Answer resp
        /\ body resp = Some b
        /\ Main.participantes_body b = inr actuales)
    /\ Eff.mem s2 = Eff.mem s
    /\ sent server s s2
         (GET_expense_friends gasto_id
          :: PUT_expense gasto_id description monto_nuevo date
          :: cambios gasto_id actuales nuevos)
    /\ (negb (Qeq_bool (Gasto.monto g0) monto_nuevo)
        || negb (set_eqb actuales nuevos) = true)
    /\ (if id_truthy p0
        then p = p0 /\ s3 = s2
        else Main.buscar_pagador server gasto_id nuevos p0 s2 = (inr p, s3))
    /\ sent server s3 s'
         (map (fun x => PUT_expense_friend gasto_id x
                          (credito_recalculado monto_nuevo p nuevos x))
              nuevos)
    /\ Eff.mem s'
       = Main.set_gastos (Eff.mem s)
           (Main.update_first
              (Main.update_first (Main.gastos (Eff.mem s)) gasto_id
                 (Main.set_basicos description monto_nuevo date))
              gasto_id (Main.set_pagador_deudores p nuevos)).
Proof.
  intros F H. unfold Main.update_gasto in H.
  apply try_except_inr in H; [|apply handlers_escape].
  unfold Eff.bind at 1, Eff.get_mem in H. rewrite F in H.
  apply bind_inr in H as (actuales & s1 & H1 & H).
  apply obtener_participantes_inv in H1 as (-> & resp & b & Hr & _ & Hb & Hp).
  apply bind_inr in H as ([] & s1' & H2 & H).
  apply send_checked_ok in H2 as [M2 [S2 _]].
  unfold Eff.bind at 1 in H. rewrite cambios_run in H.
  apply bind_inr in H as (pl & s3' & H3 & H).
  unfold Eff.bind at 1 in H. rewrite mutate_gasto_run in H.
  destruct pl as [p|]; [|discriminate H].
  rewrite mutate_gasto_run in H. injection H as <-.
  exists actuales, p.
  destruct (negb (Qeq_bool (Gasto.monto g0)
                    (get_or (NuevosDatos.monto nuevos_datos) (Gasto.monto g0)))
            || negb (set_eqb actuales
                       (get_or (NuevosDatos.participantes_ids nuevos_datos) actuales)))
    eqn:C; [|discriminate H3].
  apply bind_inr in H3 as (p' & s3 & H3 & H4).
  apply bind_inr in H4 as ([] & s4 & H4 & H5).
  unfold Eff.ret in H5. injection H5 as -> <-.
  rewrite recalcular_run in H4. injection H4 as <-.
  assert (M3 : Eff.mem s3 = Eff.mem s
               /\ if id_truthy (get_or (NuevosDatos.pagador_id nuevos_datos)
                                       (Gasto.pagador_id g0))
                  then p = get_or (NuevosDatos.pagador_id nuevos_datos)
                                  (Gasto.pagador_id g0)
                       /\ s3 = mkState (Eff.mem s1')
                                 (Eff.log s1'
                                  ++ exchanges server (Eff.log s1')
                                       (cambios gasto_id actuales
                                          (get_or (NuevosDatos.participantes_ids
                                                     nuevos_datos) actuales)))
                  else Main.buscar_pagador server gasto_id
                         (get_or (NuevosDatos.participantes_ids nuevos_datos) actuales)
                         (get_or (NuevosDatos.pagador_id nuevos_datos)
                                 (Gasto.pagador_id g0))
                         (mkState (Eff.mem s1')
                            (Eff.log s1'
                             ++ exchanges server (Eff.log s1')
                                  (cambios gasto_id actuales
                                     (get_or (NuevosDatos.participantes_ids
                                                nuevos_datos) actuales))))
                       = (inr p, s3)).
  { destruct (id_truthy (get_or (NuevosDatos.pagador_id nuevos_datos)
                                (Gasto.pagador_id g0))); simpl negb in H3.
    - unfold Eff.ret in H3. injection H3 as <- <-.
      split; [exact M2|split; reflexivity].
    - split; [|exact H3]. apply buscar_pagador_inv in H3 as [M _].
      rewrite M. exact M2. }
  destruct M3 as [M3 D].
  exists (mkState (Eff.mem s1')
            (Eff.log s1'
             ++ exchanges server (Eff.log s1')
                  (cambios gasto_id actuales
                     (get_or (NuevosDatos.participantes_ids nuevos_datos) actuales)))),
    s3.
  cbv zeta.
  split; [exists resp, b; repeat split; assumption|].
  split; [exact M2|].
  split.
  { change (?x :: ?y :: ?t) with ([x] ++ [y] ++ t).
    eapply sent_trans; [apply sent_push|].
    eapply sent_trans; [exact S2|]. unfold sent. reflexivity. }
  split; [exact C|].
  split; [exact D|].
  split; [unfold sent; reflexivity|].
  simpl. rewrite M3. reflexivity.
Qed.

End EditRun.

Lemma escrituras_app (l1 l2 : list Exchange) :
  escrituras (l1 ++ l2) = escrituras l1 ++ escrituras l2.
Proof. unfold escrituras. apply flat_map_app. Qed.

Lemma escrituras_recalculo (server : Server) (l : list Exchange) (gasto_id : PyId)
    (c : PyId -> Q) (nuevos : list PyId) :
  escrituras (exchanges server l (map (fun x => PUT_expense_friend gasto_id x (c x)) nuevos))
  = map (fun x => (gasto_id, x, c x)) nuevos.
Proof.
  revert l. induction nuevos as [|x t IH]; intros l; simpl; [reflexivity|].
  f_equal. apply IH.
Qed.

Lemma escrituras_none (server : Server) (l : list Exchange) (reqs : list Request) :
  Forall (fun r => match r with PUT_expense_friend _ _ _ => False | _ => True end) reqs ->
  escrituras (exchanges server l reqs) = [].
Proof.
  revert l. induction reqs as [|r t IH]; intros l F; simpl; [reflexivity|].
  inversion F as [|? ? Hr Ht]; subst. rewrite (IH _ Ht).
  destruct r; try reflexivity. contradiction.
Qed.

Lemma cambios_no_escriben (gasto_id : PyId) (actuales nuevos : list PyId) :
  Forall (fun r => match r with PUT_expense_friend _ _ _ => False | _ => True end)
         (cambios gasto_id actuales nuevos).
Proof.
  unfold cambios. destruct (negb (set_eqb actuales nuevos)); [|constructor].
  apply Forall_app. split; apply Forall_forall; intros r Hr;
    apply in_map_iff in Hr as (x & <- & _); exact I.
Qed.

Lemma sixty_halved (m : Q) : m == 60 -> m - m / len [Some 1%Z; Some 2%Z] == 30.
Proof. intros ->. reflexivity. Qed.

(** C4, as the code has it.  When the amount of an expense goes from 100
    to 60, its two participants staying the same and the payer being one of
    them, the edit that completes writes two amounts, in the order of the
    participants: 30 (= 60 - 60/2) to the share of the payer and 0 to the
    share of the other participant. *)
Theorem update_gasto_two_participants (server : Server) (gasto_id : PyId)
    (nuevos_datos : NuevosDatos.t) (s s' : State) (g0 : Gasto.t)
    (resp : Response) (bd : Body) (actuales : list PyId)
    (a b pagador_id : PyId) (m : Q) :
  Main.find_gasto (Main.gastos (Eff.mem s)) gasto_id = Some g0 ->
  Gasto.monto g0 == 100 ->
  NuevosDatos.monto nuevos_datos = Some m ->
  m == 60 ->
  server (Eff.log s) (GET_expense_friends gasto_id) = Answer resp ->
  body resp = Some bd ->
  Main.participantes_body bd = inr actuales ->
  get_or (NuevosDatos.participantes_ids nuevos_datos) actuales = [a; b] ->
  set_eqb actuales [a; b] = true ->
  a <> b ->
  get_or (NuevosDatos.pagador_id nuevos_datos) (Gasto.pagador_id g0) = pagador_id ->
  id_truthy pagador_id = true ->
  pagador_id = a \/ pagador_id = b ->
  Main.update_gasto server gasto_id nuevos_datos s = (inr tt, s') ->
  exists (new : list Exchange) (credito : Q),
    Eff.log s' = Eff.log s ++ new
    /\ credito == 30
    /\ escrituras new
       = [(gasto_id, a, if id_eqb a pagador_id then credito else 0);
          (gasto_id, b, if id_eqb b pagador_id then credito else 0)].
Proof.
  intros F M100 Hm M60 Hr Hb Hp Hn Hset Hab Hpag Htruthy Hin H.
  destruct (update_gasto_inv server gasto_id nuevos_datos s s' g0 F H)
    as (act' & p & s2 & s3 & (resp' & b' & Hr' & Hb' & Hp') & M2 & S2 & _ & D & S3 & _).
  rewrite Hr in Hr'. injection Hr' as <-.
  rewrite Hb in Hb'. injection Hb' as <-.
  rewrite Hp in Hp'. injection Hp' as <-.
  rewrite Hn, Hm in *. simpl get_or in *. rewrite Hpag, Htruthy in D.
  destruct D as [-> ->].
  exists (exchanges server (Eff.log s)
            (GET_expense_friends gasto_id
             :: PUT_expense gasto_id
                  match NuevosDatos.descripcion nuevos_datos with
                  | Some d => Some d
                  | None => Gasto.descripcion g0
                  end m
                  match NuevosDatos.fecha nuevos_datos with
                  | Some f => Some f
                  | None => Gasto.fecha g0
                  end
             :: cambios gasto_id actuales [a; b])
          ++ exchanges server (Eff.log s2)
               (map (fun x => PUT_expense_friend gasto_id x
                                (credito_recalculado m pagador_id [a; b] x))
                    [a; b])),
    (m - m / len [a; b]).
  split; [unfold sent in S2, S3; rewrite S3, S2, app_assoc; reflexivity|].
  split; [exact (sixty_halved m M60)|].
  rewrite escrituras_app, escrituras_recalculo.
  rewrite escrituras_none; [|constructor; [exact I|constructor;
                              [exact I|apply cambios_no_escriben]]].
  simpl. unfold credito_recalculado.
  assert (IN : id_in pagador_id [a; b] = true).
  { apply id_in_In. destruct Hin as [->| ->]; [left|right; left]; reflexivity. }
  rewrite IN. reflexivity.
Qed.

Lemma update_gasto_two_participants_witness :
  exists (new : list Exchange) (credito : Q),
    Eff.log (snd (Main.update_gasto servidor_cena (Some 7%Z) (solo_monto 60) s_cena))
    = [] ++ new
    /\ credito == 30
    /\ escrituras new
       = [(Some 7%Z, Some 1%Z, credito); (Some 7%Z, Some 2%Z, 0)].
Proof.
  apply (update_gasto_two_participants servidor_cena (Some 7%Z) (solo_monto 60) s_cena
           (snd (Main.update_gasto servidor_cena (Some 7%Z) (solo_monto 60) s_cena))
           cena
           (mkResponse 200 "OK" (Some (BList [IVal (VInt 1); IVal (VInt 2)])))
           (BList [IVal (VInt 1); IVal (VInt 2)])
           [Some 1%Z; Some 2%Z] (Some 1%Z) (Some 2%Z) (Some 1%Z) 60).
  - reflexivity.
  - reflexivity.
  - reflexivity.
  - reflexivity.
  - reflexivity.
  - reflexivity.
  - reflexivity.
  - reflexivity.
  - reflexivity.
  - discriminate.
  - reflexivity.
  - reflexivity.
  - left. reflexivity.
  - reflexivity.
Defined.

(** C4 fails as stated: in the edit of the expense of 100 between friends
    1 and 2 to 60, the only amount written to the share of friend 2 is 0;
    no debt of 30 is written, under either sign. *)
Lemma update_gasto_writes_no_debt :
  let run := Main.update_gasto servidor_cena (Some 7%Z) (solo_monto 60) s_cena in
  fst run = inr tt
  /\ escrituras (Eff.log (snd run))
     = [(Some 7%Z, Some 1%Z, 60 # 2); (Some 7%Z, Some 2%Z, 0)]
  /\ ~ (exists q, In (Some 7%Z, Some 2%Z, q) (escrituras (Eff.log (snd run)))
                  /\ (q == 30 \/ q == - (30))).
Proof.
  cbv zeta. split; [reflexivity|]. split; [reflexivity|].
  intros (q & Hin & Hq).
  change (In (Some 7%Z, Some 2%Z, q)
             [(Some 7%Z, Some 1%Z, 60 # 2); (Some 7%Z, Some 2%Z, 0)]) in Hin.
  destruct Hin as [E|[E|[]]]; [discriminate E|].
  injection E as <-. destruct Hq as [Hq|Hq]; discriminate Hq.
Qed.

Lemma find_update_first (l : list Gasto.t) (gasto_id : PyId) (f : Gasto.t -> Gasto.t) :
  (forall g, Gasto.id (f g) = Gasto.id g) ->
  Main.find_gasto (Main.update_first l gasto_id f) gasto_id
  = option_map f (Main.find_gasto l gasto_id).
Proof.
  intros Hf. induction l as [|g t IH]; simpl; [reflexivity|].
  destruct (id_eqb (Gasto.id g) gasto_id) eqn:E; simpl.
  - rewrite Hf, E. reflexivity.
  - rewrite E. exact IH.
Qed.

Lemma lecturas_app (l1 l2 : list Exchange) :
  lecturas (l1 ++ l2) = lecturas l1 ++ lecturas l2.
Proof. unfold lecturas. apply filter_app. Qed.

Lemma lecturas_none (server : Server) (l : list Exchange) (reqs : list Request) :
  Forall (fun r => is_GET_expense_friend r = false) reqs ->
  lecturas (exchanges server l reqs) = [].
Proof.
  revert l. induction reqs as [|r t IH]; intros l F; simpl; [reflexivity|].
  inversion F as [|? ? Hr Ht]; subst. unfold lecturas in *. simpl.
  rewrite Hr. apply IH. exact Ht.
Qed.

Lemma lecturas_all (server : Server) (l : list Exchange) (gasto_id : PyId)
    (ps : list PyId) :
  lecturas (exchanges server l (map (GET_expense_friend gasto_id) ps))
  = exchanges server l (map (GET_expense_friend gasto_id) ps).
Proof.
  revert l. induction ps as [|x t IH]; intros l; simpl; [reflexivity|].
  unfold lecturas in *. simpl. f_equal. apply IH.
Qed.

Lemma cambios_no_leen (gasto_id : PyId) (actuales nuevos : list PyId) :
  Forall (fun r => is_GET_expense_friend r = false) (cambios gasto_id actuales nuevos).
Proof.
  unfold cambios. destruct (negb (set_eqb actuales nuevos)); [|constructor].
  apply Forall_app. split; apply Forall_forall; intros r Hr;
    apply in_map_iff in Hr as (x & <- & _); reflexivity.
Qed.

Lemma recalculo_no_lee (gasto_id : PyId) (c : PyId -> Q) (nuevos : list PyId) :
  Forall (fun r => is_GET_expense_friend r = false)
         (map (fun x => PUT_expense_friend gasto_id x (c x)) nuevos).
Proof.
  apply Forall_forall. intros r Hr. apply in_map_iff in Hr as (x & <- & _). reflexivity.
Qed.

Lemma escrituras_lecturas (server : Server) (l : list Exchange) (gasto_id : PyId)
    (ps : list PyId) :
  escrituras (exchanges server l (map (GET_expense_friend gasto_id) ps)) = [].
Proof.
  apply escrituras_none. apply Forall_forall. intros r Hr.
  apply in_map_iff in Hr as (x & <- & _). exact I.
Qed.

(** C9, as the code has it.  In an edit that completes, without a payer
    in the payload nor in the in-memory expense, the payer left in memory is
    the first participant, in the order of the new list, for which the
    store answered with a positive credit: every participant before it was
    read and answered without, and no participant after it was read.  When
    every participant was read without a positive credit the expense keeps
    the payer it had.  The credit of the recomputation goes to that
    payer. *)
Theorem update_gasto_first_match (server : Server) (gasto_id : PyId)
    (nuevos_datos : NuevosDatos.t) (s s' : State) (g0 : Gasto.t) :
  Main.find_gasto (Main.gastos (Eff.mem s)) gasto_id = Some g0 ->
  NuevosDatos.pagador_id nuevos_datos = None ->
  id_truthy (Gasto.pagador_id g0) = false ->
  Main.update_gasto server gasto_id nuevos_datos s = (inr tt, s') ->
  exists (g1 : Gasto.t) (actuales : list PyId) (new : list Exchange),
    Eff.log s' = Eff.log s ++ new
    /\ Main.find_gasto (Main.gastos (Eff.mem s')) gasto_id = Some g1
    /\ (exists resp b,
           server (Eff.log s) (GET_expense_friends gasto_id) = Answer resp
           /\ body resp = Some b
           /\ Main.participantes_body b = inr actuales)
    /\ Gasto.deudores_ids g1
       = get_or (NuevosDatos.participantes_ids nuevos_datos) actuales
    /\ (negb (Qeq_bool (Gasto.monto g0) (Gasto.monto g1))
        || negb (set_eqb actuales (Gasto.deudores_ids g1)) = true)
    /\ ((exists pre post antes rep,
            Gasto.deudores_ids g1 = pre ++ Gasto.pagador_id g1 :: post
            /\ lecturas new
               = antes ++ [(GET_expense_friend gasto_id (Gasto.pagador_id g1), rep)]
            /\ requests antes = map (GET_expense_friend gasto_id) pre
            /\ Forall (fun x => credito_positivo (snd x) = false) antes
            /\ credito_positivo rep = true)
        \/ (Gasto.pagador_id g1 = Gasto.pagador_id g0
            /\ requests (lecturas new)
               = map (GET_expense_friend gasto_id) (Gasto.deudores_ids g1)
            /\ Forall (fun x => credito_positivo (snd x) = false) (lecturas new)))
    /\ escrituras new
       = map (fun x => (gasto_id, x,
                        credito_recalculado (Gasto.monto g1) (Gasto.pagador_id g1)
                          (Gasto.deudores_ids g1) x))
             (Gasto.deudores_ids g1).
Proof.
  intros F Hnp Hnt H.
  destruct (update_gasto_inv server gasto_id nuevos_datos s s' g0 F H)
    as (actuales & p & s2 & s3 & L & M2 & S2 & C & D & S3 & M').
  rewrite Hnp in D. simpl get_or in D. rewrite Hnt in D.
  apply buscar_pagador_inv in D as [M3 D].
  set (nuevos := get_or (NuevosDatos.participantes_ids nuevos_datos) actuales) in *.
  set (monto_nuevo := get_or (NuevosDatos.monto nuevos_datos) (Gasto.monto g0)) in *.
  set (g1 := Main.set_pagador_deudores p nuevos
               (Main.set_basicos
                  match NuevosDatos.descripcion nuevos_datos with
                  | Some d => Some d
                  | None => Gasto.descripcion g0
                  end monto_nuevo
                  match NuevosDatos.fecha nuevos_datos with
                  | Some f => Some f
                  | None => Gasto.fecha g0
                  end g0)).
  assert (F1 : Main.find_gasto (Main.gastos (Eff.mem s')) gasto_id = Some g1).
  { rewrite M'. simpl. rewrite !find_update_first; [|reflexivity|reflexivity].
    rewrite F. reflexivity. }
  unfold sent in S2, S3.
  set (X := exchanges server (Eff.log s)
              (GET_expense_friends gasto_id
               :: PUT_expense gasto_id
                    match NuevosDatos.descripcion nuevos_datos with
                    | Some d => Some d
                    | None => Gasto.descripcion g0
                    end monto_nuevo
                    match NuevosDatos.fecha nuevos_datos with
                    | Some f => Some f
                    | None => Gasto.fecha g0
                    end
               :: cambios gasto_id actuales nuevos)) in *.
  set (Z := exchanges server (Eff.log s3)
              (map (fun x => PUT_expense_friend gasto_id x
                               (credito_recalculado monto_nuevo p nuevos x)) nuevos)) in *.
  assert (LX : lecturas X = []).
  { apply lecturas_none. constructor; [reflexivity|].
    constructor; [reflexivity|apply cambios_no_leen]. }
  assert (LZ : lecturas Z = []).
  { apply lecturas_none. apply recalculo_no_lee. }
  assert (EX : escrituras X = []).
  { apply escrituras_none. constructor; [exact I|].
    constructor; [exact I|apply cambios_no_escriben]. }
  assert (EZ : escrituras Z
               = map (fun x => (gasto_id, x, credito_recalculado monto_nuevo p nuevos x))
                     nuevos).
  { apply escrituras_recalculo. }
  destruct D as [(pre & post & Hl & Fp & Cp & Lp)|(Hp & Fp & Lp)]; cbv zeta in *.
  - set (Y := exchanges server (Eff.log s2) (map (GET_expense_friend gasto_id) pre)) in *.
    exists g1, actuales,
      (X ++ (Y ++ [(GET_expense_friend gasto_id p,
                    server (Eff.log s2 ++ Y) (GET_expense_friend gasto_id p))]) ++ Z).
    split; [rewrite S3, Lp, S2, <- !app_assoc; reflexivity|].
    split; [exact F1|]. split; [exact L|]. split; [reflexivity|].
    split; [exact C|]. split.
    + left. exists pre, post, Y, (server (Eff.log s2 ++ Y) (GET_expense_friend gasto_id p)).
      split; [exact Hl|].
      rewrite !lecturas_app, LX, LZ, app_nil_r. cbn [app].
      unfold Y at 1. rewrite lecturas_all. fold Y.
      split; [reflexivity|].
      split; [apply requests_exchanges|]. split; [exact Fp|exact Cp].
    + rewrite !escrituras_app, EX, EZ. unfold Y. rewrite escrituras_lecturas.
      reflexivity.
  - set (Y := exchanges server (Eff.log s2) (map (GET_expense_friend gasto_id) nuevos)) in *.
    exists g1, actuales, (X ++ Y ++ Z).
    split; [rewrite S3, Lp, S2, <- !app_assoc; reflexivity|].
    split; [exact F1|]. split; [exact L|]. split; [reflexivity|].
    split; [exact C|]. split.
    + right. split; [exact Hp|].
      rewrite !lecturas_app, LX, LZ, app_nil_r. cbn [app].
      unfold Y. rewrite lecturas_all.
      split; [apply requests_exchanges|exact Fp].
    + rewrite !escrituras_app, EX, EZ. unfold Y. rewrite escrituras_lecturas.
      reflexivity.
Qed.

(** ** The statements on concrete runs *)

Lemma amigo_round_trip_witness :
  amigo_from_dict (Amigo.to_dict berta) = Some (Amigo.mk (Some 2%Z) (Some "Berta") 0 0).
Proof. exact (amigo_round_trip berta). Defined.

Lemma add_gasto_shares_witness :
  exists new : list Exchange,
    Eff.log (snd (Main.add_gasto acepta "2024-01-15" "Cena" 100 (Some 1%Z)
                    [Some 1%Z; Some 2%Z] s_vacio))
    = [] ++ new
    /\ Forall (fun x => is_ok (snd x) = true) new.
Proof.
  destruct (add_gasto_shares acepta "2024-01-15" "Cena" 100 (Some 1%Z)
              [Some 1%Z; Some 2%Z] s_vacio
              (snd (Main.add_gasto acepta "2024-01-15" "Cena" 100 (Some 1%Z)
                      [Some 1%Z; Some 2%Z] s_vacio))
              (Gasto.mk (Some 7%Z) (Some "Cena") 100 (Some "2024-01-15") (Some 1%Z) [] 0 1)
              eq_refl)
    as (new & L & F & _).
  exists new. split; [exact L|exact F].
Defined.

(** The creation of the specification: 100 between friends 1 and 2, paid
    by 1, and the same expense paid by friend 3. *)
Example alta_pagador_participa :
  escrituras (Eff.log (snd (Main.add_gasto acepta "2024-01-15" "Cena" 100 (Some 1%Z)
                              [Some 1%Z; Some 2%Z] s_vacio)))
  = [(Some 7%Z, Some 1%Z, 100 # 2); (Some 7%Z, Some 2%Z, -100 # 2)].
Proof. reflexivity. Qed.

Example alta_pagador_no_participa :
  escrituras (Eff.log (snd (Main.add_gasto acepta "2024-01-15" "Cena" 100 (Some 3%Z)
                              [Some 1%Z; Some 2%Z] s_vacio)))
  = [(Some 7%Z, Some 3%Z, 100); (Some 7%Z, Some 1%Z, -100 # 2);
     (Some 7%Z, Some 2%Z, -100 # 2)].
Proof. reflexivity. Qed.

Lemma add_gasto_never_compensates_witness :
  exists reqs,
    sent rechaza_participante s_vacio
      (snd (Main.add_gasto rechaza_participante "2024-01-15" "Cena" 100 (Some 1%Z)
              [Some 1%Z; Some 2%Z] s_vacio)) reqs
    /\ Forall (fun r => is_DELETE_expense r = false) reqs.
Proof.
  exact (add_gasto_never_compensates rechaza_participante "2024-01-15" "Cena" 100
           (Some 1%Z) [Some 1%Z; Some 2%Z] s_vacio _ _ eq_refl).
Defined.

(** C6 on a concrete run: the store creates expense 7 and then refuses to
    link friend 1.  The caller gets an error and the in-memory group is
    untouched, but the two exchanges of the log are all there is: the
    expense stays in the store. *)
Example add_gasto_failure_not_compensated :
  Main.add_gasto rechaza_participante "2024-01-15" "Cena" 100 (Some 1%Z)
    [Some 1%Z; Some 2%Z] s_vacio
  = (inl (PyException "Error al añadir participante 1: 404 Client Error: Not Found"),
     mkState Main.init
       [(POST_expenses "Cena" 100 "2024-01-15",
         ok (Some (expense_json 7 "Cena" 100 "2024-01-15")));
        (POST_expense_friends (Some 7%Z) (Some 1%Z),
         ko 404 "404 Client Error: Not Found")]).
Proof. reflexivity. Qed.


(** The two deletions of the specification: Carlos, settled, leaves the
    list; Berta, with a balance of 5.00, stays and nothing is sent after
    the read. *)
Example elimina_saldado :
  MainController.eliminar_amigo_async sin_traducir euros sin_formato
    servidor_amigos (Some 3%Z) s_amigos
  = (inr (MainController.mkEliminado true (Some "Carlos")),
     mkState (Main.mk 1 "Grupo Principal" [ana_saldada; berta] [])
       [(GET_friend (Some 3%Z),
         ok (Some (BItem (IDict (friend_json 3 "Carlos" 10 10)))));
        (DELETE_friend (Some 3%Z), ok None)]).
Proof. reflexivity. Qed.

Example no_elimina_con_saldo :
  MainController.eliminar_amigo_async sin_traducir euros sin_formato
    servidor_amigos (Some 2%Z) s_amigos
  = (inl (PyException
            "Cannot delete {name} because they have a pending balance of {amount}"),
     mkState (Main.mk 1 "Grupo Principal" [ana_saldada; berta; carlos] [])
       [(GET_friend (Some 2%Z),
         ok (Some (BItem (IDict (friend_json 2 "Berta" 25 20)))))]).
Proof. reflexivity. Qed.

Lemma eliminar_todos_amigos_report_witness :
  fst (MainController.eliminar_todos_amigos sin_traducir servidor_amigos s_amigos)
  = inr (MainController.mkResultado 2 3
           ["Berta: No se puede eliminar el amigo porque tiene saldo pendiente"]).
Proof.
  refine (proj1 (proj2 (proj2 (eliminar_todos_amigos_report sin_traducir
                                 servidor_amigos s_amigos) _))).
  discriminate.
Defined.

(** The bulk deletion of the specification: two of three deleted, Berta
    reported and kept. *)
Example borra_dos_de_tres :
  MainController.eliminar_todos_amigos sin_traducir servidor_amigos s_amigos
  = (inr (MainController.mkResultado 2 3
            ["Berta: No se puede eliminar el amigo porque tiene saldo pendiente"]),
     mkState (Main.mk 1 "Grupo Principal" [berta] [])
       [(DELETE_friend (Some 1%Z), ok None);
        (DELETE_friend (Some 2%Z), ko 409 "409 Client Error: Conflict");
        (DELETE_friend (Some 3%Z), ok None)]).
Proof. reflexivity. Qed.

Lemma update_gasto_first_match_witness :
  exists (g1 : Gasto.t) (new : list Exchange),
    Eff.log (snd (Main.update_gasto servidor_dos_creditos (Some 7%Z) (solo_monto 60)
                    s_cena_sin_pagador))
    = [] ++ new
    /\ Main.find_gasto
         (Main.gastos
            (Eff.mem (snd (Main.update_gasto servidor_dos_creditos (Some 7%Z)
                             (solo_monto 60) s_cena_sin_pagador))))
         (Some 7%Z)
       = Some g1.
Proof.
  destruct (update_gasto_first_match servidor_dos_creditos (Some 7%Z) (solo_monto 60)
              s_cena_sin_pagador
              (snd (Main.update_gasto servidor_dos_creditos (Some 7%Z) (solo_monto 60)
                      s_cena_sin_pagador))
              cena_sin_pagador eq_refl eq_refl eq_refl eq_refl)
    as (g1 & actuales & new & L & F1 & _).
  exists g1, new. split; [exact L|exact F1].
Defined.

(** The ambiguous case: both participants hold a positive credit; the
    first of the list becomes the payer and the second is not read. *)
Example primer_pagador_de_dos :
  let run := Main.update_gasto servidor_dos_creditos (Some 7%Z) (solo_monto 60)
               s_cena_sin_pagador in
  fst run = inr tt
  /\ requests (lecturas (Eff.log (snd run)))
     = [GET_expense_friend (Some 7%Z) (Some 1%Z)]
  /\ option_map Gasto.pagador_id
       (Main.find_gasto (Main.gastos (Eff.mem (snd run))) (Some 7%Z))
     = Some (Some 1%Z).
Proof. cbv zeta. repeat split. Qed.

(** C9 fails as stated: an edit of the description alone, without a payer
    in the payload nor in memory, reads no share and selects no payer,
    although the share of friend 1 has a positive credit; it ends in the
    unbound local. *)
Lemma update_gasto_no_selection :
  let run := Main.update_gasto servidor_cena (Some 7%Z)
               (solo_descripcion "Cena de gala") s_cena_sin_pagador in
  fst run = inl (UnboundLocalError "pagador_id")
  /\ lecturas (Eff.log (snd run)) = []
  /\ option_map Gasto.pagador_id
       (Main.find_gasto (Main.gastos (Eff.mem (snd run))) (Some 7%Z))
     = Some None
  /\ credito_positivo
       (servidor_cena (Eff.log (snd run)) (GET_expense_friend (Some 7%Z) (Some 1%Z)))
     = true.
Proof. cbv zeta. repeat split. Qed.

(** ** More of the ledger model *)

(** The wire form of an expense holds its identifier, description, amount
    and date: reading it back keeps those four and sets the payer, the
    participants, the credit and the number of participants to their
    defaults (none, none, 0.0 and 1). *)
Theorem gasto_round_trip (g : Gasto.t) :
  gasto_from_dict (Gasto.to_dict g)
  = Some (Gasto.mk (Gasto.id g) (Gasto.descripcion g) (Gasto.monto g) (Gasto.fecha g)
                   None [] 0 1).
Proof.
  destruct g as [i d m f p ds c n]. unfold gasto_from_dict, Gasto.to_dict. simpl.
  destruct i, d, f; reflexivity.
Qed.

Lemma saldos_get_put_same (d : list (PyId * Q)) (k : PyId) (v : Q) :
  Main.saldos_get (Main.saldos_put d k v) k = Some v.
Proof.
  induction d as [|[k' v'] t IH]; simpl.
  - rewrite (proj2 (id_eqb_eq k k) eq_refl). reflexivity.
  - destruct (id_eqb k' k) eqn:E; simpl; rewrite E; [reflexivity|exact IH].
Qed.

Lemma saldos_get_put_other (d : list (PyId * Q)) (k k' : PyId) (v : Q) :
  k <> k' ->
  Main.saldos_get (Main.saldos_put d k v) k' = Main.saldos_get d k'.
Proof.
  intros Hk. induction d as [|[k0 v0] t IH]; simpl.
  - rewrite (proj2 (id_eqb_neq k k') Hk). reflexivity.
  - destruct (id_eqb k0 k) eqn:E; simpl.
    + apply id_eqb_eq in E. subst k0. rewrite (proj2 (id_eqb_neq k k') Hk). reflexivity.
    + destruct (id_eqb k0 k'); [reflexivity|exact IH].
Qed.

Lemma saldos_put_fresh (d : list (PyId * Q)) (k : PyId) (v : Q) :
  ~ In k (map fst d) -> Main.saldos_put d k v = d ++ [(k, v)].
Proof.
  induction d as [|[k' v'] t IH]; simpl; intros H; [reflexivity|].
  destruct (id_eqb k' k) eqn:E.
  - apply id_eqb_eq in E. exfalso. apply H. left. exact E.
  - rewrite IH; [reflexivity|]. intros C. apply H. right. exact C.
Qed.

Lemma calcular_saldos_fold (l : list Amigo.t) (acc : list (PyId * Q)) (i : PyId) :
  Main.saldos_get
    (fold_left (fun saldos amigo =>
                  Main.saldos_put saldos (Amigo.id amigo) (Amigo.saldo amigo)) l acc) i
  = match find (fun a => id_eqb (Amigo.id a) i) (rev l) with
    | Some a => Some (Amigo.saldo a)
    | None => Main.saldos_get acc i
    end.
Proof.
  induction l as [|a t IH] using rev_ind; [reflexivity|].
  rewrite fold_left_app, rev_app_distr. simpl.
  destruct (id_eqb (Amigo.id a) i) eqn:E.
  - apply id_eqb_eq in E. subst i. apply saldos_get_put_same.
  - rewrite saldos_get_put_other; [exact IH|apply id_eqb_neq; exact E].
Qed.

Lemma calcular_saldos_distinct (l : list Amigo.t) (acc : list (PyId * Q)) :
  NoDup (map fst acc ++ map Amigo.id l) ->
  fold_left (fun saldos amigo =>
               Main.saldos_put saldos (Amigo.id amigo) (Amigo.saldo amigo)) l acc
  = acc ++ map (fun a => (Amigo.id a, Amigo.saldo a)) l.
Proof.
  revert acc. induction l as [|a t IH]; intros acc H; simpl.
  - rewrite app_nil_r. reflexivity.
  - simpl in H. rewrite saldos_put_fresh.
    + rewrite IH.
      * rewrite <- app_assoc. reflexivity.
      * rewrite map_app. simpl. rewrite <- app_assoc. exact H.
    + intros C. apply NoDup_remove_2 in H. apply H. apply in_or_app. left. exact C.
Qed.

(** [calcular_saldos] maps an identifier to the balance (credit minus
    debit) of the last friend of the list that has it, and has no entry for
    an identifier that no friend has.  When the identifiers of the friends
    are distinct, it lists every friend with their balance, in the order of
    the list. *)
Theorem calcular_saldos_lookup (self : Main.t) :
  (forall i,
      Main.saldos_get (Main.calcular_saldos self) i
      = option_map Amigo.saldo
          (find (fun a => id_eqb (Amigo.id a) i) (rev (Main.amigos self))))
  /\ (NoDup (map Amigo.id (Main.amigos self)) ->
      Main.calcular_saldos self
      = map (fun a => (Amigo.id a, Amigo.saldo a)) (Main.amigos self)).
Proof.
  split.
  - intros i. unfold Main.calcular_saldos. rewrite calcular_saldos_fold.
    destruct (find _ (rev (Main.amigos self))); reflexivity.
  - intros H. unfold Main.calcular_saldos.
    rewrite calcular_saldos_distinct; [reflexivity|exact H].
Qed.

Lemma calcular_saldos_lookup_witness :
  Main.calcular_saldos (Eff.mem s_amigos)
  = [(Some 1%Z, 20 - 20); (Some 2%Z, 25 - 20); (Some 3%Z, 10 - 10)].
Proof.
  apply (proj2 (calcular_saldos_lookup (Eff.mem s_amigos))).
  repeat constructor; simpl; intuition discriminate.
Defined.

(** ** The translation manager *)

Lemma before_underscore_clean (s : string) :
  TranslationManager.contains_underscore (TranslationManager.before_underscore s) = false.
Proof.
  induction s as [|c r IH]; simpl; [reflexivity|].
  destruct (Ascii.eqb c "_") eqn:E; simpl; [reflexivity|]. rewrite E. exact IH.
Qed.

Lemma before_underscore_id (s : string) :
  TranslationManager.contains_underscore s = false ->
  TranslationManager.before_underscore s = s.
Proof.
  induction s as [|c r IH]; simpl; [reflexivity|].
  destruct (Ascii.eqb c "_"); [discriminate|]. intros H. rewrite (IH H). reflexivity.
Qed.

Lemma set_language_code_aux
    (gettext_translation : option string -> Res TranslationManager.Translator)
    (self : TranslationManager.t) (code : string) (encoding : option string) :
  TranslationManager.current_language
    (TranslationManager.set_language gettext_translation self (Some code) encoding)
  = Some (TranslationManager.before_underscore code).
Proof.
  unfold TranslationManager.set_language.
  destruct (TranslationManager.str_truthy (Some code)
            && TranslationManager.contains_underscore code) eqn:E; simpl.
  - reflexivity.
  - apply andb_false_iff in E as [E|E].
    + destruct code; [reflexivity|discriminate E].
    + rewrite (before_underscore_id code E). reflexivity.
Qed.

(** Whatever the code given to [set_language] (a language, or a locale
    with a country) and whatever catalogue is found, the language kept is
    the part of the code before its first underscore; it contains no
    underscore. *)
Theorem set_language_code
    (gettext_translation : option string -> Res TranslationManager.Translator)
    (self : TranslationManager.t) (code : string) (encoding : option string) :
  let self' := TranslationManager.set_language gettext_translation self (Some code)
                 encoding in
  TranslationManager.current_language self'
  = Some (TranslationManager.before_underscore code)
  /\ TranslationManager.contains_underscore (TranslationManager.before_underscore code)
     = false.
Proof.
  cbv zeta. split; [apply set_language_code_aux|apply before_underscore_clean].
Qed.

(** After [set_language] the currency symbol is the euro exactly when the
    part of the code before its first underscore is [es] or [pt], and the
    dollar otherwise. *)
Theorem set_language_currency_symbol
    (gettext_translation : option string -> Res TranslationManager.Translator)
    (self : TranslationManager.t) (code : string) (encoding : option string) :
  let self' := TranslationManager.set_language gettext_translation self (Some code)
                 encoding in
  let lang := TranslationManager.before_underscore code in
  (TranslationManager.get_currency_symbol self' = "€" <-> lang = "es" \/ lang = "pt")
  /\ (TranslationManager.get_currency_symbol self' = "$"
      <-> lang <> "es" /\ lang <> "pt").
Proof.
  cbv zeta.
  assert (L : TranslationManager.current_language
                (TranslationManager.set_language gettext_translation self (Some code)
                   encoding)
              = Some (TranslationManager.before_underscore code))
    by apply set_language_code_aux.
  unfold TranslationManager.get_currency_symbol. rewrite L.
  destruct (String.eqb_spec (TranslationManager.before_underscore code) "es") as [E1|E1];
    [|destruct (String.eqb_spec (TranslationManager.before_underscore code) "pt")
        as [E2|E2]]; simpl; split; split; intros H; try discriminate H;
    try reflexivity; try tauto.
Qed.

(** ** More of the group model *)

Lemma participantes_de_lee (items : list Item) (ids : list PyId) :
  Forall2 lee_participante items ids -> Main.participantes_de items = inr ids.
Proof.
  induction 1 as [|p i items ids Hp _ IH]; [reflexivity|].
  cbn [Main.participantes_de]. rewrite IH.
  assert (E : Main.participante_de p = inr [i]).
  { unfold lee_participante in Hp. unfold Main.participante_de.
    destruct p as [v|d].
    - destruct v; try contradiction. subst i. reflexivity.
    - destruct (dict_get d "friend_id") as [v|].
      + rewrite Hp. reflexivity.
      + destruct (dict_get d "id") as [v|]; [|contradiction].
        rewrite Hp. reflexivity. }
  rewrite E. reflexivity.
Qed.

(** When the store answers the participants of an expense with a list in
    which every element is a bare integer, or a dictionary with an integer
    (or null) [friend_id], or one without [friend_id] but with such an [id],
    [obtener_participantes_gasto] returns one identifier per element, in
    order; a [friend_id] is read even when the dictionary also has an
    [id]. *)
Theorem obtener_participantes_gasto_decodes (server : Server) (gasto_id : PyId)
    (s : State) (resp : Response) (items : list Item) (ids : list PyId) :
  server (Eff.log s) (GET_expense_friends gasto_id) = Answer resp ->
  is_ok (Answer resp) = true ->
  body resp = Some (BList items) ->
  Forall2 lee_participante items ids ->
  Main.obtener_participantes_gasto server gasto_id s
  = (inr ids, push s (GET_expense_friends gasto_id, Answer resp)).
Proof.
  intros Hr Hok Hb Hl.
  unfold Main.obtener_participantes_gasto, Eff.try_except, Eff.bind.
  rewrite send_run, Hr. unfold Eff.raise_for_status. unfold is_ok in Hok.
  apply negb_true_iff in Hok. rewrite Hok. unfold Eff.ret, Eff.json. rewrite Hb.
  unfold Eff.lift. cbn [Main.participantes_body Eff.ret].
  rewrite (participantes_de_lee items ids Hl). reflexivity.
Qed.

Lemma obtener_participantes_gasto_decodes_witness :
  Main.obtener_participantes_gasto
    (fun _ _ =>
       ok (Some (BList [IVal (VInt 1);
                        IDict [("id", VInt 7); ("friend_id", VInt 2)];
                        IDict [("id", VInt 3)]])))
    (Some 7%Z) s_vacio
  = (inr [Some 1%Z; Some 2%Z; Some 3%Z],
     push s_vacio
       (GET_expense_friends (Some 7%Z),
        ok (Some (BList [IVal (VInt 1);
                         IDict [("id", VInt 7); ("friend_id", VInt 2)];
                         IDict [("id", VInt 3)]])))).
Proof.
  apply (obtener_participantes_gasto_decodes _ (Some 7%Z) s_vacio
           (mkResponse 200 "OK"
              (Some (BList [IVal (VInt 1);
                            IDict [("id", VInt 7); ("friend_id", VInt 2)];
                            IDict [("id", VInt 3)]])))
           [IVal (VInt 1); IDict [("id", VInt 7); ("friend_id", VInt 2)];
            IDict [("id", VInt 3)]]
           [Some 1%Z; Some 2%Z; Some 3%Z]).
  - reflexivity.
  - reflexivity.
  - reflexivity.
  - repeat constructor.
Defined.

Section ExpenseDeletion.

Variable server : Server.

(** [Main.eliminar_gasto] on the reply to its request. *)
Lemma eliminar_gasto_run (gasto_id : PyId) (s : State) :
  Main.eliminar_gasto server gasto_id s
  = let rep := server (Eff.log s) (DELETE_expense gasto_id) in
    if is_ok rep
    then (inr tt,
          mkState
            (Main.set_gastos (Eff.mem s)
               (filter (fun g => negb (id_eqb (Gasto.id g) gasto_id))
                       (Main.gastos (Eff.mem s))))
            (Eff.log s ++ [(DELETE_expense gasto_id, rep)]))
    else (inl (PyException
                 (match rep with
                  | NoResponse (NetConnection _) => "No se puede conectar al servidor"
                  | NoResponse (NetTimeout _) =>
                      "El servidor tardó demasiado en responder"
                  | NoResponse (NetOther m) => "Error al eliminar gasto: " ++ m
                  | Answer resp =>
                      if (status_code resp =? 404)%Z then "El gasto no existe"
                      else if (status_code resp =? 500)%Z
                           then "Error interno del servidor"
                           else "Error al eliminar gasto: " ++ reason resp
                  end)%string),
          push s (DELETE_expense gasto_id, rep)).
Proof.
  unfold Main.eliminar_gasto, Eff.try_except, Eff.bind. rewrite send_run.
  cbv zeta. destruct (server (Eff.log s) (DELETE_expense gasto_id)) as [[m|m|m]|resp];
    try reflexivity.
  unfold Eff.raise_for_status, is_ok.
  destruct ((400 <=? status_code resp)%Z && (status_code resp <? 600)%Z)%bool;
    [|reflexivity].
  simpl. unfold Main.handlers, http_message. simpl.
  destruct (status_code resp =? 404)%Z; [reflexivity|].
  destruct (status_code resp =? 500)%Z; reflexivity.
Qed.

End ExpenseDeletion.

(** [eliminar_gasto] sends one request.  If the store accepts it, the
    expenses left in memory are exactly those with another identifier, and
    the friends are untouched; otherwise a plain exception is raised and the
    in-memory group is unchanged, with [El gasto no existe] for a 404. *)
Theorem eliminar_gasto_effect (server : Server) (gasto_id : PyId) (s : State) :
  let rep := server (Eff.log s) (DELETE_expense gasto_id) in
  let run := Main.eliminar_gasto server gasto_id s in
  Eff.log (snd run) = Eff.log s ++ [(DELETE_expense gasto_id, rep)]
  /\ (is_ok rep = true ->
      fst run = inr tt
      /\ Main.amigos (Eff.mem (snd run)) = Main.amigos (Eff.mem s)
      /\ forall g, In g (Main.gastos (Eff.mem (snd run)))
                   <-> In g (Main.gastos (Eff.mem s)) /\ Gasto.id g <> gasto_id)
  /\ (is_ok rep = false ->
      (exists msg, fst run = inl (PyException msg))
      /\ Eff.mem (snd run) = Eff.mem s
      /\ forall resp, rep = Answer resp -> status_code resp = 404%Z ->
                      fst run = inl (PyException "El gasto no existe")).
Proof.
  cbv zeta. rewrite eliminar_gasto_run. cbv zeta.
  destruct (is_ok (server (Eff.log s) (DELETE_expense gasto_id))) eqn:OK; simpl.
  - split; [reflexivity|]. split; [|intros H; discriminate H].
    intros _. split; [reflexivity|]. split; [reflexivity|].
    intros g. rewrite filter_In, negb_true_iff, id_eqb_neq. reflexivity.
  - split; [reflexivity|]. split; [intros H; discriminate H|].
    intros _. split; [eexists; reflexivity|]. split; [reflexivity|].
    intros resp -> H. rewrite H. reflexivity.
Qed.

Section AllExpenses.

Variable server : Server.

Lemma set_gastos_filter_nil (m : Main.t) :
  Main.set_gastos m
    (filter (fun g => negb (id_in (Gasto.id g) [])) (Main.gastos m)) = m.
Proof.
  destruct m as [i n a g]. unfold Main.set_gastos. cbn [Main.gastos Main.id Main.nombre Main.amigos].
  f_equal. apply filter_all.
Qed.

(** The loop of deletions: the identifiers [hechos] were deleted, then
    either the list was finished or the deletion of the next one was
    refused and the loop stopped there. *)
Lemma eliminar_gastos_run (ids : list PyId) (s : State) :
  let run := Main.for_each ids (Main.eliminar_gasto server) s in
  exists hechos resto,
    ids = hechos ++ resto
    /\ Forall (fun x => is_ok (snd x) = true)
              (exchanges server (Eff.log s) (map DELETE_expense hechos))
    /\ Eff.mem (snd run)
       = Main.set_gastos (Eff.mem s)
           (filter (fun g => negb (id_in (Gasto.id g) hechos))
                   (Main.gastos (Eff.mem s)))
    /\ match resto with
       | [] => fst run = inr tt
               /\ sent server s (snd run) (map DELETE_expense hechos)
       | malo :: _ =>
           (exists msg, fst run = inl (PyException msg))
           /\ sent server s (snd run) (map DELETE_expense (hechos ++ [malo]))
           /\ is_ok (server
                       (Eff.log s
                        ++ exchanges server (Eff.log s) (map DELETE_expense hechos))
                       (DELETE_expense malo)) = false
       end.
Proof.
  revert s. induction ids as [|i t IH]; intros s; cbv zeta.
  - exists [], []. split; [reflexivity|]. split; [constructor|].
    cbn [Main.for_each Eff.ret fst snd map]. split.
    + symmetry. apply set_gastos_filter_nil.
    + split; [reflexivity|apply sent_refl].
  - assert (Run : Main.for_each (i :: t) (Main.eliminar_gasto server) s
                 = let (r, s') := Main.eliminar_gasto server i s in
                   match r with
                   | inl e => (inl e, s')
                   | inr _ => Main.for_each t (Main.eliminar_gasto server) s'
                   end) by reflexivity.
    rewrite Run. clear Run. rewrite eliminar_gasto_run. cbv zeta.
    destruct (is_ok (server (Eff.log s) (DELETE_expense i))) eqn:OK.
    + set (s1 := mkState _ _).
      destruct (IH s1) as (hechos & resto & Eq & Fa & Me & Re).
      exists (i :: hechos), resto. split; [rewrite Eq; reflexivity|].
      assert (L1 : Eff.log s1 = Eff.log s ++ [(DELETE_expense i, server (Eff.log s) (DELETE_expense i))])
        by reflexivity.
      split; [|split].
      * cbn [map exchanges]. constructor; [exact OK|]. rewrite <- L1. exact Fa.
      * rewrite Me. unfold s1. cbn [Eff.mem]. unfold Main.set_gastos.
        cbn [Main.gastos Main.id Main.nombre Main.amigos]. f_equal.
        rewrite filter_twice. apply filter_ext. intros g.
        unfold id_in. cbn [existsb]. rewrite negb_orb. reflexivity.
      * destruct resto as [|malo resto'].
        -- destruct Re as [R1 R2]. split; [exact R1|].
           unfold sent in *. rewrite R2, L1. cbn [map exchanges].
           rewrite <- app_assoc. reflexivity.
        -- destruct Re as (R1 & R2 & R3). split; [exact R1|]. split.
           ++ unfold sent in *. rewrite R2, L1. cbn [map exchanges app].
              rewrite <- app_assoc. reflexivity.
           ++ cbn [map exchanges]. rewrite L1 in R3.
              rewrite <- app_assoc in R3. exact R3.
    + exists [], (i :: t). split; [reflexivity|]. split; [constructor|].
      cbn [fst snd]. split.
      * unfold push. cbn [Eff.mem]. symmetry. apply set_gastos_filter_nil.
      * split; [eexists; reflexivity|]. split.
        -- apply sent_push.
        -- cbn [map exchanges]. rewrite app_nil_r. exact OK.
Qed.

End AllExpenses.

Lemma eliminar_todos_gastos_run (gettext : string -> string) (server : Server)
    (s : State) :
  MainController.eliminar_todos_gastos gettext server s
  = match Main.gastos (Eff.mem s) with
    | [] => (inl (ValueError (gettext "No expenses to delete")), s)
    | _ :: _ =>
        let (r, s') :=
          Main.for_each (map Gasto.id (Main.gastos (Eff.mem s)))
            (Main.eliminar_gasto server) s in
        match r with
        | inl e => (inl e, s')
        | inr _ => (inr (Z.of_nat (List.length (Main.gastos (Eff.mem s)))), s')
        end
    end.
Proof.
  unfold MainController.eliminar_todos_gastos, Eff.bind at 1, Eff.get_mem.
  destruct (Main.gastos (Eff.mem s)) as [|g gg]; [reflexivity|].
  cbn [map]. unfold Eff.bind, Eff.ret. cbn [List.length]. rewrite length_map.
  reflexivity.
Qed.

Lemma filter_own_ids (gg : list Gasto.t) :
  filter (fun g => negb (id_in (Gasto.id g) (map Gasto.id gg))) gg = [].
Proof.
  assert (H : forall l, incl l gg ->
            filter (fun g => negb (id_in (Gasto.id g) (map Gasto.id gg))) l = []).
  { induction l as [|a l IH]; intros Hi; [reflexivity|].
    cbn [filter].
    assert (E : id_in (Gasto.id a) (map Gasto.id gg) = true).
    { apply id_in_In. apply in_map. apply Hi. left. reflexivity. }
    rewrite E. cbn [negb]. apply IH. intros x Hx. apply Hi. right. exact Hx. }
  apply H. apply incl_refl.
Qed.

(** [eliminar_todos_gastos] with no expense in memory raises [ValueError]
    and sends nothing.  Otherwise it deletes the expenses in the order of
    the list and stops at the first deletion the store refuses: the
    identifiers before it are gone from memory, the later ones are never
    tried, and the refusal is raised as a plain exception.  When no deletion
    is refused it returns the number of expenses there were and no expense
    is left in memory. *)
Theorem eliminar_todos_gastos_stops_at_refusal (gettext : string -> string)
    (server : Server) (s : State) :
  let ids := map Gasto.id (Main.gastos (Eff.mem s)) in
  let run := MainController.eliminar_todos_gastos gettext server s in
  (ids = [] ->
   run = (inl (ValueError (gettext "No expenses to delete")), s))
  /\ (ids <> [] ->
      exists hechos resto,
        ids = hechos ++ resto
        /\ Forall (fun x => is_ok (snd x) = true)
                  (exchanges server (Eff.log s) (map DELETE_expense hechos))
        /\ Main.amigos (Eff.mem (snd run)) = Main.amigos (Eff.mem s)
        /\ Main.gastos (Eff.mem (snd run))
           = filter (fun g => negb (id_in (Gasto.id g) hechos))
                    (Main.gastos (Eff.mem s))
        /\ match resto with
           | [] => fst run = inr (Z.of_nat (List.length (Main.gastos (Eff.mem s))))
                   /\ Main.gastos (Eff.mem (snd run)) = []
                   /\ sent server s (snd run) (map DELETE_expense ids)
           | malo :: _ =>
               (exists msg, fst run = inl (PyException msg))
               /\ sent server s (snd run) (map DELETE_expense (hechos ++ [malo]))
               /\ is_ok (server
                           (Eff.log s
                            ++ exchanges server (Eff.log s)
                                 (map DELETE_expense hechos))
                           (DELETE_expense malo)) = false
           end).
Proof.
  cbv zeta. rewrite eliminar_todos_gastos_run.
  destruct (Main.gastos (Eff.mem s)) as [|g0 gg0] eqn:Gs.
  - split; [reflexivity|]. intros H. contradiction H. reflexivity.
  - split; [intros H; discriminate H|]. intros _. rewrite <- Gs.
    destruct (eliminar_gastos_run server (map Gasto.id (Main.gastos (Eff.mem s))) s)
      as (hechos & resto & Eq & Fa & Me & Re).
    exists hechos, resto.
    destruct (Main.for_each (map Gasto.id (Main.gastos (Eff.mem s)))
                (Main.eliminar_gasto server) s) as [[e|[]] s'] eqn:Run;
      cbn [fst snd] in *.
    + split; [exact Eq|]. split; [exact Fa|]. rewrite Me.
      split; [destruct (Eff.mem s); reflexivity|].
      split; [destruct (Eff.mem s); reflexivity|].
      destruct resto as [|malo resto'].
      * destruct Re as [R _]. discriminate R.
      * destruct Re as ([msg R1] & R2 & R3). injection R1 as ->.
        split; [exists msg; reflexivity|]. split; assumption.
    + split; [exact Eq|]. split; [exact Fa|]. rewrite Me.
      split; [destruct (Eff.mem s); reflexivity|].
      split; [destruct (Eff.mem s); reflexivity|].
      destruct resto as [|malo resto'].
      * destruct Re as [_ R]. rewrite app_nil_r in Eq. rewrite <- Eq in *.
        split; [reflexivity|]. split; [|exact R].
        destruct (Eff.mem s) as [gi gn ga gg]. cbn [Main.set_gastos Main.gastos].
        apply filter_own_ids.
      * destruct Re as [[msg R] _]. discriminate R.
Qed.

Section FriendRefresh.

Variable server : Server.

(** [Main.obtener_amigo] sends its one request whatever comes of it. *)
Lemma obtener_amigo_log (amigo_id : PyId) (s : State) :
  exists r,
    Main.obtener_amigo server amigo_id s
    = (r, push s (GET_friend amigo_id, server (Eff.log s) (GET_friend amigo_id))).
Proof.
  unfold Main.obtener_amigo, Eff.try_except, Eff.bind. rewrite send_run.
  destruct (server (Eff.log s) (GET_friend amigo_id)) as [ne|resp].
  - destruct (@handlers_raise Amigo.t "No se puede conectar al servidor"
                "El servidor tardó demasiado en responder" []
                "Error al obtener amigo: " (net_exn ne)
                (push s (GET_friend amigo_id, NoResponse ne))) as [e' He].
    rewrite He. eexists. reflexivity.
  - unfold Eff.raise_for_status.
    destruct ((400 <=? status_code resp)%Z && (status_code resp <? 600)%Z)%bool.
    + cbn [Eff.raise].
      destruct (@handlers_raise Amigo.t "No se puede conectar al servidor"
                  "El servidor tardó demasiado en responder" []
                  "Error al obtener amigo: "
                  (HTTPError (status_code resp) (reason resp))
                  (push s (GET_friend amigo_id, Answer resp))) as [e' He].
      rewrite He. eexists. reflexivity.
    + cbn [Eff.ret]. unfold Eff.json.
      destruct (body resp) as [b|]; cbn [Eff.ret Eff.raise].
      * unfold Eff.typed. destruct (Main.as_dict b) as [d|]; cbn [Eff.ret Eff.raise].
        -- destruct (amigo_from_dict d) as [a|]; cbn [Eff.ret Eff.raise];
             eexists; reflexivity.
        -- eexists; reflexivity.
      * eexists; reflexivity.
Qed.

Lemma replace_first_absent (l : list Amigo.t) (amigo_id : PyId) (x : Amigo.t) :
  ~ In amigo_id (map Amigo.id l) -> Main.replace_first l amigo_id x = l.
Proof.
  induction l as [|a t IH]; intros H; [reflexivity|]. cbn [Main.replace_first].
  destruct (id_eqb (Amigo.id a) amigo_id) eqn:E.
  - apply id_eqb_eq in E. exfalso. apply H. left. exact E.
  - rewrite IH; [reflexivity|]. intros C. apply H. right. exact C.
Qed.

Lemma replace_first_present (l1 l2 : list Amigo.t) (a : Amigo.t)
    (amigo_id : PyId) (x : Amigo.t) :
  ~ In amigo_id (map Amigo.id l1) -> Amigo.id a = amigo_id ->
  Main.replace_first (l1 ++ a :: l2) amigo_id x = l1 ++ x :: l2.
Proof.
  intros H Ha. induction l1 as [|b t IH]; cbn [app Main.replace_first].
  - rewrite (proj2 (id_eqb_eq _ _) Ha). reflexivity.
  - destruct (id_eqb (Amigo.id b) amigo_id) eqn:E.
    + apply id_eqb_eq in E. exfalso. apply H. left. exact E.
    + rewrite IH; [reflexivity|]. intros C. apply H. right. exact C.
Qed.

End FriendRefresh.

(** [actualizar_amigo_desde_api] sends one request.  When it returns the
    friend read from the store, that friend takes the place of the first
    friend of the list with the identifier and nothing else changes: a
    second friend with the same identifier stays as it was, and a friend
    that is not in the list is not added.  When it fails, whatever the
    cause, it raises a plain exception whose text starts with [Error al
    actualizar amigo desde API: ] and the in-memory group is as before. *)
Theorem actualizar_amigo_desde_api_effect (server : Server) (amigo_id : PyId)
    (s : State) :
  let run := Main.actualizar_amigo_desde_api server amigo_id s in
  Eff.log (snd run)
  = Eff.log s ++ [(GET_friend amigo_id, server (Eff.log s) (GET_friend amigo_id))]
  /\ Main.gastos (Eff.mem (snd run)) = Main.gastos (Eff.mem s)
  /\ (forall api, fst run = inr api ->
        (forall l1 a l2,
            Main.amigos (Eff.mem s) = l1 ++ a :: l2 ->
            ~ In amigo_id (map Amigo.id l1) -> Amigo.id a = amigo_id ->
            Main.amigos (Eff.mem (snd run)) = l1 ++ api :: l2)
        /\ (~ In amigo_id (map Amigo.id (Main.amigos (Eff.mem s))) ->
            Main.amigos (Eff.mem (snd run)) = Main.amigos (Eff.mem s)))
  /\ (forall e, fst run = inl e ->
        Eff.mem (snd run) = Eff.mem s
        /\ exists msg,
             e = PyException ("Error al actualizar amigo desde API: " ++ msg)%string).
Proof.
  cbv zeta. unfold Main.actualizar_amigo_desde_api, Eff.try_except, Eff.bind.
  destruct (obtener_amigo_log server amigo_id s) as [r Hr]. rewrite Hr.
  destruct r as [e|api]; cbn [Eff.get_mem Eff.set_mem Eff.ret Eff.raise fst snd push Eff.log Eff.mem].
  - split; [reflexivity|]. split; [reflexivity|]. split.
    + intros api H. discriminate H.
    + intros e0 H. injection H as <-. split; [reflexivity|]. eexists. reflexivity.
  - split; [reflexivity|]. split; [destruct (Eff.mem s); reflexivity|]. split.
    + intros api0 H. injection H as <-.
      assert (Am : Main.amigos
                     (Main.set_amigos (Eff.mem s)
                        (Main.replace_first (Main.amigos (Eff.mem s)) amigo_id api))
                   = Main.replace_first (Main.amigos (Eff.mem s)) amigo_id api)
        by (destruct (Eff.mem s); reflexivity).
      rewrite Am. split.
      * intros l1 a l2 -> Hn Ha. apply replace_first_present; assumption.
      * apply replace_first_absent.
    + intros e H. discriminate H.
Qed.

Lemma actualizar_amigo_desde_api_effect_witness :
  Main.amigos
    (Eff.mem (snd (Main.actualizar_amigo_desde_api servidor_amigos (Some 2%Z)
                     (mkState
                        (Main.mk 1 "Grupo Principal"
                           [ana; Amigo.mk (Some 2%Z) (Some "Berta") 0 0;
                            Amigo.mk (Some 2%Z) (Some "Berta") 0 0] []) []))))
  = [ana] ++ berta :: [Amigo.mk (Some 2%Z) (Some "Berta") 0 0].
Proof.
  apply (proj1 (proj1 (proj2 (proj2 (actualizar_amigo_desde_api_effect
           servidor_amigos (Some 2%Z)
           (mkState
              (Main.mk 1 "Grupo Principal"
                 [ana; Amigo.mk (Some 2%Z) (Some "Berta") 0 0;
                  Amigo.mk (Some 2%Z) (Some "Berta") 0 0] []) []))))
           berta eq_refl) [ana] (Amigo.mk (Some 2%Z) (Some "Berta") 0 0)
           [Amigo.mk (Some 2%Z) (Some "Berta") 0 0]).
  - reflexivity.
  - simpl. intros [H|[]]. discriminate H.
  - reflexivity.
Defined.

(** ** What a failure leaves in memory *)

Section Kept.

Variable server : Server.

Lemma kept_ret {A : Type} (a : A) : kept (Eff.ret a : Main.M A).
Proof. intros s r s' H. injection H as _ <-. reflexivity. Qed.

Lemma kept_raise {A : Type} (e : Exn) : kept (Eff.raise e : Main.M A).
Proof. intros s r s' H. injection H as _ <-. reflexivity. Qed.

Lemma kept_lift {A : Type} (r : Res A) : kept (Eff.lift r : Main.M A).
Proof. intros s r0 s' H. injection H as _ <-. reflexivity. Qed.

Lemma kept_typed {A : Type} (o : option A) : kept (Eff.typed o : Main.M A).
Proof. destruct o; [apply kept_ret|apply kept_raise]. Qed.

Lemma kept_send (r : Request) : kept (Eff.send server r).
Proof.
  intros s res s' H. rewrite send_run in H. injection H as _ <-. reflexivity.
Qed.

Lemma kept_raise_for_status (resp : Response) :
  kept (Eff.raise_for_status resp : Main.M unit).
Proof.
  unfold Eff.raise_for_status.
  destruct ((400 <=? status_code resp)%Z && (status_code resp <? 600)%Z)%bool;
    [apply kept_raise|apply kept_ret].
Qed.

Lemma kept_json (resp : Response) : kept (Eff.json resp : Main.M Body).
Proof.
  unfold Eff.json. destruct (body resp); [apply kept_ret|apply kept_raise].
Qed.

Lemma kept_bind {A B : Type} (m : Main.M A) (k : A -> Main.M B) :
  kept m -> (forall a, kept (k a)) -> kept (Eff.bind m k).
Proof.
  intros Hm Hk s r s' H. unfold Eff.bind in H.
  destruct (m s) as [[e|a] s1] eqn:M.
  - injection H as _ <-. exact (Hm _ _ _ M).
  - rewrite (Hk a _ _ _ H). exact (Hm _ _ _ M).
Qed.

Lemma kept_try {A : Type} (m : Main.M A) (h : Exn -> Main.M A) :
  kept m -> (forall e, kept (h e)) -> kept (Eff.try_except m h).
Proof.
  intros Hm Hh s r s' H. unfold Eff.try_except in H.
  destruct (m s) as [[e|a] s1] eqn:M.
  - rewrite (Hh e _ _ _ H). exact (Hm _ _ _ M).
  - injection H as _ <-. exact (Hm _ _ _ M).
Qed.

Lemma kept_send_checked (r : Request) : kept (Main.send_checked server r).
Proof.
  unfold Main.send_checked. apply kept_bind; [apply kept_send|].
  intros resp. apply kept_raise_for_status.
Qed.

Lemma kept_wrap {A : Type} (prefix : string) (m : Main.M A) :
  kept m -> kept (Main.wrap prefix m).
Proof.
  intros Hm. unfold Main.wrap. apply kept_try; [exact Hm|].
  intros e. destruct (is_request_exception e); apply kept_raise.
Qed.

Lemma kept_skip (m : Main.M unit) : kept m -> kept (Main.skip_on_error m).
Proof.
  intros Hm. unfold Main.skip_on_error. apply kept_try; [exact Hm|].
  intros e. destruct (is_request_exception e); [apply kept_ret|apply kept_raise].
Qed.

Lemma kept_for_each {A : Type} (l : list A) (body : A -> Main.M unit) :
  (forall x, kept (body x)) -> kept (Main.for_each l body).
Proof.
  intros Hb. induction l as [|x t IH]; cbn [Main.for_each]; [apply kept_ret|].
  apply kept_bind; [apply Hb|]. intros _. exact IH.
Qed.

Lemma kept_handlers {A : Type} conn tout table prefix (e : Exn) :
  kept (@Main.handlers A conn tout table prefix e).
Proof.
  unfold Main.handlers.
  destruct (is_connection_error e); [apply kept_raise|].
  destruct (is_timeout e); [apply kept_raise|].
  destruct (is_request_exception e); apply kept_raise.
Qed.

Lemma kept_rollback (gasto_id : PyId) : kept (Main.rollback server gasto_id).
Proof.
  unfold Main.rollback. destruct (id_truthy gasto_id); [|apply kept_ret].
  apply kept_try; [|intros e; apply kept_ret].
  apply kept_bind; [apply kept_send|]. intros _. apply kept_ret.
Qed.

Lemma kept_add_gasto_handlers {A : Type} (gasto_id : PyId) (e : Exn) :
  kept (@Main.add_gasto_handlers server A gasto_id e).
Proof.
  unfold Main.add_gasto_handlers.
  destruct (is_connection_error e);
    [apply kept_bind; [apply kept_rollback|intros _; apply kept_raise]|].
  destruct (is_timeout e);
    [apply kept_bind; [apply kept_rollback|intros _; apply kept_raise]|].
  destruct (is_request_exception e);
    [apply kept_bind; [apply kept_rollback|intros _; apply kept_raise]|].
  apply kept_raise.
Qed.

Lemma kept_on_error_kept {A : Type} (m : Main.M A) : kept m -> kept_on_error m.
Proof. intros H s e s' R. exact (H _ _ _ R). Qed.

Lemma kept_on_error_returns {A : Type} (m : Main.M A) : returns m -> kept_on_error m.
Proof. intros H s e s' R. destruct (H _ _ _ R). Qed.

Lemma kept_on_error_bind {A B : Type} (m : Main.M A) (k : A -> Main.M B) :
  kept m -> (forall a, kept_on_error (k a)) -> kept_on_error (Eff.bind m k).
Proof.
  intros Hm Hk s e s' H. unfold Eff.bind in H.
  destruct (m s) as [[e0|a] s1] eqn:M.
  - injection H as _ <-. exact (Hm _ _ _ M).
  - rewrite (Hk a _ _ _ H). exact (Hm _ _ _ M).
Qed.

Lemma kept_on_error_try {A : Type} (m : Main.M A) (h : Exn -> Main.M A) :
  kept_on_error m -> (forall e, kept (h e)) -> kept_on_error (Eff.try_except m h).
Proof.
  intros Hm Hh s e s' H. unfold Eff.try_except in H.
  destruct (m s) as [[e0|a] s1] eqn:M.
  - rewrite (Hh e0 _ _ _ H). exact (Hm _ _ _ M).
  - discriminate H.
Qed.

(** The exceptions that leave the handlers of [add_gasto] are not those of
    [requests]. *)
Lemma add_gasto_handlers_exn {A : Type} (gasto_id : PyId) (e : Exn)
    (s s' : State) (r : Res A) :
  @Main.add_gasto_handlers server A gasto_id e s = (r, s') ->
  exists e', r = inl e' /\ is_request_exception e' = false.
Proof.
  unfold Main.add_gasto_handlers. intros H.
  destruct (rollback_returns server gasto_id s) as [s1 R].
  destruct (is_connection_error e);
    [unfold Eff.bind in H; rewrite R in H; injection H as <- _;
     eexists; split; reflexivity|].
  destruct (is_timeout e);
    [unfold Eff.bind in H; rewrite R in H; injection H as <- _;
     eexists; split; reflexivity|].
  destruct (is_request_exception e) eqn:E;
    [unfold Eff.bind in H; rewrite R in H; injection H as <- _;
     eexists; split; reflexivity|].
  injection H as <- _. exists e. split; [reflexivity|exact E].
Qed.

Lemma kept_on_error_add_gasto_pasos (gasto : Gasto.t) (monto : Q)
    (pagador_id : PyId) (deudores_ids : list PyId) :
  kept_on_error (Main.add_gasto_pasos server gasto monto pagador_id deudores_ids).
Proof.
  unfold Main.add_gasto_pasos.
  apply kept_on_error_bind.
  { apply kept_for_each. intros x. apply kept_wrap, kept_send_checked. }
  intros _. apply kept_on_error_bind.
  { destruct (id_in pagador_id deudores_ids); [|apply kept_ret].
    apply kept_bind; [apply kept_lift|]. intros q. apply kept_ret. }
  intros credito. apply kept_on_error_bind.
  { apply kept_wrap. apply kept_bind; [|intros _; apply kept_send_checked].
    destruct (negb (id_in pagador_id deudores_ids));
      [apply kept_send_checked|apply kept_ret]. }
  intros _. apply kept_on_error_bind.
  { destruct (negb (id_in pagador_id deudores_ids)).
    - apply kept_bind; [apply kept_lift|]. intros q.
      apply kept_for_each. intros x. apply kept_wrap, kept_send_checked.
    - apply kept_bind; [apply kept_lift|]. intros q.
      apply kept_for_each. intros x.
      destruct (negb (id_eqb x pagador_id));
        [apply kept_wrap, kept_send_checked|apply kept_ret]. }
  intros _. apply kept_on_error_returns. intros s e s' H. discriminate H.
Qed.

End Kept.

(** When [add_gasto] fails, at whatever step, the in-memory group is as it
    was before the call (the expense is not in the local list, even if the
    store has created it), and the exception raised is never one of
    [requests]: network and HTTP errors are raised as plain exceptions. *)
Theorem add_gasto_failure_keeps_group (server : Server)
    (fecha descripcion : string) (monto : Q) (pagador_id : PyId)
    (deudores_ids : list PyId) (s s' : State) (e : Exn) :
  Main.add_gasto server fecha descripcion monto pagador_id deudores_ids s
  = (inl e, s') ->
  Eff.mem s' = Eff.mem s /\ is_request_exception e = false.
Proof.
  unfold Main.add_gasto. intros H. unfold Eff.bind at 1 in H.
  match type of H with
  | (let (_, _) := Eff.try_except ?m ?h s in _) = _ =>
      assert (K1 : kept (Eff.try_except m h));
      [|destruct (Eff.try_except m h s) as [[e1|gasto] s1] eqn:Crea]
  end.
  { apply kept_try; [|intros e0; apply kept_add_gasto_handlers].
    apply kept_bind; [apply kept_send|]. intros resp.
    apply kept_bind; [apply kept_raise_for_status|]. intros _.
    apply kept_bind; [apply kept_json|]. intros data.
    apply kept_bind; [apply kept_typed|]. intros d. apply kept_typed. }
  - injection H as <- <-. split; [exact (K1 _ _ _ Crea)|].
    unfold Eff.try_except in Crea.
    match type of Crea with
    | (let (_, _) := ?m s in _) = _ => destruct (m s) as [[e0|g] s0]
    end; [|discriminate Crea].
    destruct (add_gasto_handlers_exn server None e0 _ _ _ Crea) as (e' & E1 & E2).
    injection E1 as ->. exact E2.
  - split.
    + rewrite <- (K1 _ _ _ Crea).
      refine (kept_on_error_try _ _ _ _ _ _ _ H).
      * apply kept_on_error_add_gasto_pasos.
      * intros e0. apply kept_add_gasto_handlers.
    + unfold Eff.try_except in H.
      match type of H with
      | (let (_, _) := ?m s1 in _) = _ => destruct (m s1) as [[e0|g] s0]
      end; [|discriminate H].
      destruct (add_gasto_handlers_exn server _ e0 _ _ _ H) as (e' & E1 & E2).
      injection E1 as ->. exact E2.
Qed.

(** The store refuses to link friend 1: the expense it has created is not
    in memory. *)
Lemma add_gasto_failure_keeps_group_witness :
  Eff.mem (snd (Main.add_gasto rechaza_participante "2024-01-15" "Cena" 100
                  (Some 2%Z) [Some 1%Z; Some 2%Z] s_vacio))
  = Eff.mem s_vacio
  /\ is_request_exception
       (PyException
          "Error al añadir participante 1: 404 Client Error: Not Found") = false.
Proof.
  apply (add_gasto_failure_keeps_group rechaza_participante "2024-01-15" "Cena" 100
           (Some 2%Z) [Some 1%Z; Some 2%Z] s_vacio).
  vm_compute. reflexivity.
Defined.

(** [add_gasto] with an empty list of participants, on a store that accepts
    what it is sent: the expense is created, the payer is linked to it and
    credited with the whole amount, and then the even split divides by zero.
    The error is not one the handlers catch: it is raised as it is, the
    expense stays in the store and is not in memory. *)
Theorem add_gasto_sin_participantes (server : Server) (fecha descripcion : string)
    (monto : Q) (pagador_id : PyId) (s : State)
    (resp : Response) (d : Dict) (g : Gasto.t) :
  let crea := (POST_expenses descripcion monto fecha, Answer resp) in
  let enlaza := POST_expense_friends (Gasto.id g) pagador_id in
  let r2 := server (Eff.log s ++ [crea]) enlaza in
  let acredita := PUT_expense_friend (Gasto.id g) pagador_id monto in
  let r3 := server (Eff.log s ++ [crea; (enlaza, r2)]) acredita in
  server (Eff.log s) (POST_expenses descripcion monto fecha) = Answer resp ->
  is_ok (Answer resp) = true ->
  body resp = Some (BItem (IDict d)) ->
  gasto_from_dict d = Some g ->
  is_ok r2 = true ->
  is_ok r3 = true ->
  Main.add_gasto server fecha descripcion monto pagador_id [] s
  = (inl ZeroDivisionError,
     mkState (Eff.mem s) (Eff.log s ++ [crea; (enlaza, r2); (acredita, r3)])).
Proof.
  cbv zeta. intros Hr Hok Hb Hg H2 H3.
  unfold Main.add_gasto. unfold Eff.bind at 1, Eff.try_except at 1.
  unfold Eff.bind at 1. rewrite send_run, Hr.
  unfold Eff.raise_for_status. unfold is_ok in Hok. apply negb_true_iff in Hok.
  rewrite Hok. unfold Eff.bind at 1. cbn [Eff.ret]. unfold Eff.bind at 1, Eff.json.
  rewrite Hb. cbn [Eff.ret]. unfold Eff.bind at 1. cbn [Main.as_dict Eff.typed Eff.ret].
  rewrite Hg. cbn [Eff.ret].
  unfold Main.add_gasto_pasos. cbn [Main.for_each id_in existsb negb].
  unfold Eff.try_except.
  unfold Eff.bind at 1. cbn [Eff.ret]. unfold Eff.bind at 1. cbn [Eff.ret].
  cbn [Eff.typed Eff.ret Main.set_pagador Gasto.id].
  set (s1 := push s (POST_expenses descripcion monto fecha, Answer resp)).
  assert (O2 : outcome (server (Eff.log s1)
                          (POST_expense_friends (Gasto.id g) pagador_id)) = inr tt)
    by (apply outcome_ok; exact H2).
  unfold Eff.bind at 1. unfold Main.wrap, Eff.try_except. unfold Eff.bind at 1.
  rewrite send_checked_run, O2.
  set (s2 := push s1 _).
  assert (O3 : outcome (server (Eff.log s2)
                          (PUT_expense_friend (Gasto.id g) pagador_id monto)) = inr tt).
  { apply outcome_ok. unfold s2, s1, push. cbn [Eff.log]. rewrite <- app_assoc.
    exact H3. }
  rewrite send_checked_run, O3.
  unfold py_div. cbn [len List.length].
  unfold s2, s1, push. cbn [Eff.log Eff.mem]. rewrite <- !app_assoc. reflexivity.
Qed.

(** ** More on editing an expense *)

Lemma filter_negb_forallb {A : Type} (p : A -> bool) (l : list A) :
  forallb p l = true -> filter (fun x => negb (p x)) l = [].
Proof.
  induction l as [|x t IH]; [reflexivity|]. cbn [forallb filter].
  intros H. apply andb_true_iff in H as [Hx Ht]. rewrite Hx. cbn [negb].
  exact (IH Ht).
Qed.

(** The guard on the two sets does not change what is sent: when the sets
    are equal there is nothing to remove and nothing to link. *)
Lemma cambios_unguarded (gasto_id : PyId) (actuales nuevos : list PyId) :
  cambios gasto_id actuales nuevos
  = map (DELETE_expense_friend gasto_id)
        (filter (fun x => negb (id_in x nuevos)) actuales)
    ++ map (POST_expense_friends gasto_id)
           (filter (fun x => negb (id_in x actuales)) nuevos).
Proof.
  unfold cambios. destruct (set_eqb actuales nuevos) eqn:E; [|reflexivity].
  unfold set_eqb in E. apply andb_true_iff in E as [E1 E2]. cbn [negb].
  rewrite (filter_negb_forallb (fun x => id_in x nuevos) actuales E1).
  rewrite (filter_negb_forallb (fun x => id_in x actuales) nuevos E2).
  reflexivity.
Qed.

Lemma filter_map_none {A : Type} (p : Request -> bool) (f : A -> Request)
    (l : list A) :
  (forall x, p (f x) = false) -> filter p (map f l) = [].
Proof.
  intros H. induction l as [|x t IH]; [reflexivity|].
  cbn [map filter]. rewrite H. exact IH.
Qed.

Lemma filter_map_all {A : Type} (p : Request -> bool) (f : A -> Request)
    (l : list A) :
  (forall x, p (f x) = true) -> filter p (map f l) = map f l.
Proof.
  intros H. induction l as [|x t IH]; [reflexivity|].
  cbn [map filter]. rewrite H, IH. reflexivity.
Qed.

Lemma requests_app (l1 l2 : list Exchange) :
  requests (l1 ++ l2) = requests l1 ++ requests l2.
Proof. unfold requests. apply map_app. Qed.

(** An edit that succeeds changes the participants of the store by exactly
    these requests, after the expense itself is updated: one removal per
    current participant that is not among the new ones, in the order of the
    store, then one link per new participant that is not among the current
    ones, in the order given.  A participant in both lists is neither
    removed nor linked again. *)
Theorem update_gasto_participant_changes (server : Server) (gasto_id : PyId)
    (nuevos_datos : NuevosDatos.t) (s s' : State) (g0 : Gasto.t) :
  Main.find_gasto (Main.gastos (Eff.mem s)) gasto_id = Some g0 ->
  Main.update_gasto server gasto_id nuevos_datos s = (inr tt, s') ->
  exists (actuales : list PyId) (new : list Exchange),
    Eff.log s' = Eff.log s ++ new
    /\ (exists resp b,
           server (Eff.log s) (GET_expense_friends gasto_id) = Answer resp
           /\ body resp = Some b
           /\ Main.participantes_body b = inr actuales)
    /\ let nuevos := get_or (NuevosDatos.participantes_ids nuevos_datos) actuales in
       filter is_cambio_participante (requests new)
       = map (DELETE_expense_friend gasto_id)
             (filter (fun x => negb (id_in x nuevos)) actuales)
         ++ map (POST_expense_friends gasto_id)
                (filter (fun x => negb (id_in x actuales)) nuevos).
Proof.
  intros F H.
  destruct (update_gasto_inv server gasto_id nuevos_datos s s' g0 F H)
    as (actuales & p & s2 & s3 & L & M2 & S2 & C & D & S3 & M').
  cbv zeta in *.
  set (nuevos := get_or (NuevosDatos.participantes_ids nuevos_datos) actuales) in *.
  set (monto_nuevo := get_or (NuevosDatos.monto nuevos_datos) (Gasto.monto g0)) in *.
  assert (Y : exists ps, Eff.log s3
                         = Eff.log s2
                           ++ exchanges server (Eff.log s2)
                                (map (GET_expense_friend gasto_id) ps)).
  { destruct (id_truthy (get_or (NuevosDatos.pagador_id nuevos_datos)
                                (Gasto.pagador_id g0))).
    - destruct D as [_ ->]. exists []. cbn [map exchanges].
      rewrite app_nil_r. reflexivity.
    - apply buscar_pagador_inv in D as [_ [(pre & post & Hl & Fp & Cp & Lp)|(Hp & Fp & Lp)]];
        cbv zeta in *.
      + exists (pre ++ [p]). rewrite Lp, map_app, exchanges_app. reflexivity.
      + exists nuevos. exact Lp. }
  destruct Y as [ps Y]. unfold sent in S2, S3.
  exists actuales. eexists. split.
  { rewrite S3, Y, S2, <- !app_assoc. reflexivity. }
  split; [exact L|].
  rewrite !requests_app, !requests_exchanges. fold nuevos.
  rewrite !filter_app.
  rewrite (filter_map_none is_cambio_participante (GET_expense_friend gasto_id) ps)
    by reflexivity.
  rewrite (filter_map_none is_cambio_participante
             (fun x => PUT_expense_friend gasto_id x
                         (credito_recalculado monto_nuevo p nuevos x)) nuevos)
    by reflexivity.
  rewrite !app_nil_r. cbn [filter is_cambio_participante].
  rewrite cambios_unguarded, filter_app.
  rewrite !filter_map_all by reflexivity. reflexivity.
Qed.

(** The recomputation of an edit writes, for each new participant in
    order, nothing but 0 or, for the payer, the amount less one even share.
    It goes through the whole list whatever the store answers.  The branch
    that would credit the whole amount to a payer who is not a participant
    is never taken: such a payer is never written to. *)
Theorem recalcular_writes (server : Server) (gasto_id : PyId) (monto_nuevo : Q)
    (pagador_id : PyId) (nuevos : list PyId) (s : State) :
  let credito x :=
    if id_eqb x pagador_id then monto_nuevo - monto_nuevo / len nuevos else 0 in
  let new :=
    exchanges server (Eff.log s)
      (map (fun x => PUT_expense_friend gasto_id x (credito x)) nuevos) in
  Main.recalcular server gasto_id monto_nuevo pagador_id nuevos s
  = (inr tt, mkState (Eff.mem s) (Eff.log s ++ new))
  /\ escrituras new = map (fun x => (gasto_id, x, credito x)) nuevos
  /\ (id_in pagador_id nuevos = false ->
      escrituras new = map (fun x => (gasto_id, x, 0)) nuevos).
Proof.
  cbv zeta.
  assert (E : map (fun x => PUT_expense_friend gasto_id x
                              (credito_recalculado monto_nuevo pagador_id nuevos x))
                  nuevos
              = map (fun x => PUT_expense_friend gasto_id x
                                (if id_eqb x pagador_id
                                 then monto_nuevo - monto_nuevo / len nuevos
                                 else 0))
                    nuevos).
  { apply map_ext_in. intros x Hx. unfold credito_recalculado.
    destruct (id_eqb x pagador_id) eqn:Ex; [|reflexivity].
    apply id_eqb_eq in Ex. subst x.
    rewrite (proj2 (id_in_In pagador_id nuevos) Hx). reflexivity. }
  split; [rewrite recalcular_run, E; reflexivity|].
  split; [apply escrituras_recalculo|].
  intros Hn. rewrite escrituras_recalculo. apply map_ext_in. intros x Hx.
  destruct (id_eqb x pagador_id) eqn:Ex; [|reflexivity].
  apply id_eqb_eq in Ex. subst x.
  rewrite (proj2 (id_in_In pagador_id nuevos) Hx) in Hn. discriminate Hn.
Qed.

Lemma set_eqb_refl (l : list PyId) : set_eqb l l = true.
Proof.
  unfold set_eqb.
  assert (H : forallb (fun x => id_in x l) l = true).
  { apply forallb_forall. intros x Hx. apply id_in_In. exact Hx. }
  rewrite H. reflexivity.
Qed.

(** An edit that changes neither the amount nor the set of participants
    never completes.  On a store that lists the participants and accepts
    the update of the expense, the description, amount and date of the
    expense in memory are changed, and then reading the payer, which only
    the recomputation assigns, raises [UnboundLocalError]; the handlers do
    not catch it.  This is so whether or not a payer is given. *)
Theorem update_gasto_unchanged_fails (server : Server) (gasto_id : PyId)
    (nuevos_datos : NuevosDatos.t) (s s1 : State) (g0 : Gasto.t)
    (actuales : list PyId) :
  let monto_nuevo := get_or (NuevosDatos.monto nuevos_datos) (Gasto.monto g0) in
  let nuevos := get_or (NuevosDatos.participantes_ids nuevos_datos) actuales in
  let description :=
    match NuevosDatos.descripcion nuevos_datos with
    | Some d => Some d
    | None => Gasto.descripcion g0
    end in
  let date :=
    match NuevosDatos.fecha nuevos_datos with
    | Some f => Some f
    | None => Gasto.fecha g0
    end in
  let actualiza := PUT_expense gasto_id description monto_nuevo date in
  Main.find_gasto (Main.gastos (Eff.mem s)) gasto_id = Some g0 ->
  Main.obtener_participantes_gasto server gasto_id s = (inr actuales, s1) ->
  Gasto.monto g0 == monto_nuevo ->
  set_eqb actuales nuevos = true ->
  is_ok (server (Eff.log s1) actualiza) = true ->
  Main.update_gasto server gasto_id nuevos_datos s
  = (inl (UnboundLocalError "pagador_id"),
     mkState
       (Main.set_gastos (Eff.mem s)
          (Main.update_first (Main.gastos (Eff.mem s)) gasto_id
             (Main.set_basicos description monto_nuevo date)))
       (Eff.log s
        ++ [(GET_expense_friends gasto_id,
             server (Eff.log s) (GET_expense_friends gasto_id));
            (actualiza, server (Eff.log s1) actualiza)])).
Proof.
  cbv zeta. intros F P Hm Hs Hok.
  assert (S1 : s1 = push s (GET_expense_friends gasto_id,
                            server (Eff.log s) (GET_expense_friends gasto_id)))
    by exact (proj1 (obtener_participantes_inv server _ _ _ _ P)).
  apply outcome_ok in Hok. apply Qeq_bool_iff in Hm.
  unfold Main.update_gasto, Eff.try_except.
  unfold Eff.bind at 1, Eff.get_mem. rewrite F.
  unfold Eff.bind at 1. rewrite P.
  unfold Eff.bind at 1. rewrite send_checked_run, Hok.
  rewrite Hs, Hm. cbn [negb orb].
  unfold Eff.bind at 1. cbn [Eff.ret].
  unfold Eff.bind at 1. cbn [Eff.ret].
  unfold Eff.bind at 1. rewrite mutate_gasto_run.
  cbn [Eff.raise Main.handlers is_connection_error is_timeout is_request_exception].
  subst s1. unfold push. cbn [Eff.mem Eff.log]. rewrite <- app_assoc. reflexivity.
Qed.

Lemma update_gasto_unchanged_fails_witness :
  Main.update_gasto servidor_cena (Some 7%Z)
    (NuevosDatos.mk (Some "Cena de Navidad") None None None (Some (Some 2%Z))) s_cena
  = (inl (UnboundLocalError "pagador_id"),
     mkState
       (Main.mk 1 "Grupo Principal" []
          [Gasto.mk (Some 7%Z) (Some "Cena de Navidad") 100 (Some "2024-01-15")
             (Some 1%Z) [] 0 2])
       [(GET_expense_friends (Some 7%Z), ok (Some (BList [IVal (VInt 1); IVal (VInt 2)])));
        (PUT_expense (Some 7%Z) (Some "Cena de Navidad") 100 (Some "2024-01-15"),
         ok None)]).
Proof.
  apply (update_gasto_unchanged_fails servidor_cena (Some 7%Z)
           (NuevosDatos.mk (Some "Cena de Navidad") None None None (Some (Some 2%Z)))
           s_cena
           (push s_cena (GET_expense_friends (Some 7%Z),
                         ok (Some (BList [IVal (VInt 1); IVal (VInt 2)]))))
           cena [Some 1%Z; Some 2%Z]).
  - reflexivity.
  - reflexivity.
  - reflexivity.
  - reflexivity.
  - reflexivity.
Defined.

(** ** More on payments *)

Section PaymentRun.

Variable server : Server.


Lemma kept_distribuir (amigo_id : PyId) (rows : list Item) (r : Q) :
  kept (Main.distribuir server amigo_id rows r).
Proof.
  revert r. induction rows as [|row rows IH]; intros r;
    cbn [Main.distribuir]; [apply kept_ret|].
  destruct (Qle_bool r 0); [apply kept_ret|].
  apply kept_bind; [apply kept_typed|]. intros d.
  apply kept_bind; [apply kept_lift|]. intros vi.
  apply kept_bind; [apply kept_lift|]. intros vd.
  apply kept_bind; [apply kept_lift|]. intros vc.
  apply kept_bind; [apply kept_lift|]. intros de.
  apply kept_bind; [apply kept_lift|]. intros cr.
  destruct (Qltb 0 (de - cr)); [|apply IH].
  apply kept_bind; [apply kept_lift|]. intros g.
  apply kept_bind; [apply kept_send|]. intros _. apply IH.
Qed.

Lemma handlers_exn {A : Type} conn tout table prefix (e : Exn) (s s' : State)
    (r : Res A) :
  @Main.handlers A conn tout table prefix e s = (r, s') ->
  exists e', r = inl e' /\ is_request_exception e' = false.
Proof.
  unfold Main.handlers. intros H.
  destruct (is_connection_error e);
    [injection H as <- _; eexists; split; reflexivity|].
  destruct (is_timeout e);
    [injection H as <- _; eexists; split; reflexivity|].
  destruct (is_request_exception e) eqn:E;
    [injection H as <- _; eexists; split; reflexivity|].
  injection H as <- _. exists e. split; [reflexivity|exact E].
Qed.

Lemma try_handlers_exn {A : Type} (m : Main.M A) conn tout table prefix
    (s s' : State) (e : Exn) :
  Eff.try_except m (Main.handlers conn tout table prefix) s = (inl e, s') ->
  is_request_exception e = false.
Proof.
  unfold Eff.try_except. intros H. destruct (m s) as [[e0|a] s0]; [|discriminate H].
  destruct (handlers_exn _ _ _ _ _ _ _ _ H) as (e' & E1 & E2).
  injection E1 as ->. exact E2.
Qed.

Lemma kept_on_error_cargar_amigos : kept_on_error (Main.cargar_amigos server).
Proof.
  unfold Main.cargar_amigos. apply kept_on_error_try; [|intros e; apply kept_handlers].
  apply kept_on_error_bind; [apply kept_send|]. intros resp.
  apply kept_on_error_bind; [apply kept_raise_for_status|]. intros _.
  apply kept_on_error_bind; [apply kept_json|]. intros data.
  apply kept_on_error_bind; [apply kept_lift|]. intros items.
  apply kept_on_error_bind; [apply kept_typed|]. intros ds.
  apply kept_on_error_bind; [apply kept_typed|]. intros l.
  apply kept_on_error_returns. intros s e s' H. discriminate H.
Qed.

Lemma kept_on_error_then {A B : Type} (m : Main.M A) (k : A -> Main.M B) :
  kept_on_error m -> (forall a, returns (k a)) -> kept_on_error (Eff.bind m k).
Proof.
  intros Hm Hk s e s' H. unfold Eff.bind in H.
  destruct (m s) as [[e0|a] s1] eqn:M.
  - injection H as _ <-. exact (Hm _ _ _ M).
  - destruct (Hk a _ _ _ H).
Qed.

End PaymentRun.


(** When [pagar_saldo] fails, the friends and expenses in memory are as
    they were, and the exception raised is never one of [requests]. *)
Theorem pagar_saldo_failure_keeps_group (server : Server) (amigo_id : PyId)
    (importe : Q) (s s' : State) (e : Exn) :
  Main.pagar_saldo server amigo_id importe s = (inl e, s') ->
  Eff.mem s' = Eff.mem s /\ is_request_exception e = false.
Proof.
  intros H. split.
  - revert H. unfold Main.pagar_saldo.
    apply kept_on_error_try; [|intros e0; apply kept_handlers].
    apply kept_on_error_bind; [apply kept_send|]. intros resp.
    apply kept_on_error_bind; [apply kept_raise_for_status|]. intros _.
    apply kept_on_error_bind; [apply kept_json|]. intros data.
    apply kept_on_error_bind; [apply kept_lift|]. intros filas.
    apply kept_on_error_bind; [apply kept_distribuir|]. intros _.
    apply kept_on_error_then; [apply kept_on_error_cargar_amigos|].
    intros a s0 e0 s1 H. discriminate H.
  - exact (try_handlers_exn _ _ _ _ _ _ _ _ H).
Qed.

(** A payment of an amount that is not positive writes no credit: the loop
    ends at its first test, before any row is read, so the listing and the
    reload of the friends are the only requests of a payment that
    completes, whatever the store has listed. *)
Theorem pagar_saldo64_nothing_to_pay (server : Server) (amigo_id : PyId)
    (importe : Q) (s s' : State) :
  importe <= 0 ->
  Main.pagar_saldo64 server amigo_id importe s = (inr tt, s') ->
  exists new : list Exchange,
    Eff.log s' = Eff.log s ++ new
    /\ requests new = [GET_friend_expenses amigo_id; GET_friends]
    /\ creditos new = [].
Proof.
  intros Hi H. unfold Main.pagar_saldo64 in H.
  apply try_except_inr in H; [|apply handlers_escape].
  apply bind_inr in H as (resp & s1 & H1 & H).
  rewrite send_run in H1.
  destruct (server (Eff.log s) (GET_friend_expenses amigo_id)) as [ne|resp0] eqn:E;
    [discriminate H1|].
  injection H1 as <- <-.
  apply bind_inr in H as ([] & s2 & H2 & H).
  unfold Eff.raise_for_status in H2.
  destruct ((400 <=? status_code resp0)%Z && (status_code resp0 <? 600)%Z)%bool;
    [discriminate H2|].
  unfold Eff.ret in H2. injection H2 as <-.
  apply bind_inr in H as (b & s3 & H3 & H).
  unfold Eff.json in H3. destruct (body resp0) as [b0|]; [|discriminate H3].
  unfold Eff.ret in H3. injection H3 as <- <-.
  apply bind_inr in H as (filas & s4 & H4 & H).
  unfold Eff.lift in H4. injection H4 as H4 <-.
  apply bind_inr in H as (rest & s5 & H5 & H).
  rewrite (distribuir64_nothing server amigo_id filas importe _ Hi) in H5.
  injection H5 as _ <-.
  apply bind_inr in H as (l & s6 & H6 & H).
  apply cargar_amigos_ok in H6. unfold Eff.ret in H. injection H as <-.
  unfold sent in H6. cbn [exchanges push Eff.log] in H6.
  eexists. split.
  - rewrite H6. cbn [push Eff.log]. rewrite <- app_assoc. reflexivity.
  - split; reflexivity.
Qed.

(** ** Loading and deleting friends *)

(** [cargar_amigos] sends one request and never touches the expenses.
    When it returns a list, that list is the new list of friends and was
    decoded, element by element, from the body of a successful response.
    When it fails (no response, an error status, a body that is not JSON or
    not iterable, an element that is not a friend) the friends in memory are
    those from before, and the exception is never one of [requests]. *)
Theorem cargar_amigos_effect (server : Server) (s : State) :
  let rep := server (Eff.log s) GET_friends in
  let run := Main.cargar_amigos server s in
  Eff.log (snd run) = Eff.log s ++ [(GET_friends, rep)]
  /\ Main.gastos (Eff.mem (snd run)) = Main.gastos (Eff.mem s)
  /\ (forall l, fst run = inr l ->
        Main.amigos (Eff.mem (snd run)) = l
        /\ exists resp b items ds,
             rep = Answer resp /\ is_ok rep = true /\ body resp = Some b
             /\ Main.py_iter b = inr items
             /\ Main.all_some (map Main.item_dict items) = Some ds
             /\ Main.all_some (map amigo_from_dict ds) = Some l)
  /\ (forall e, fst run = inl e ->
        Eff.mem (snd run) = Eff.mem s /\ is_request_exception e = false).
Proof.
  cbv zeta.
  assert (K : forall e s', Main.cargar_amigos server s = (inl e, s') ->
                           Eff.mem s' = Eff.mem s /\ is_request_exception e = false).
  { intros e s' H. split.
    - exact (kept_on_error_cargar_amigos server _ _ _ H).
    - exact (try_handlers_exn _ _ _ _ _ _ _ _ H). }
  destruct (Main.cargar_amigos server s) as [[e|l] s'] eqn:Run; cbn [fst snd].
  - destruct (K e s' eq_refl) as [K1 K2].
    split; [|split; [rewrite K1; reflexivity|split]].
    + revert Run. unfold Main.cargar_amigos, Eff.try_except.
      match goal with
      | |- (let (_, _) := ?m s in _) = _ -> _ =>
          assert (L : forall r s1, m s = (r, s1) ->
                        Eff.log s1
                        = Eff.log s ++ [(GET_friends, server (Eff.log s) GET_friends)]);
          [|destruct (m s) as [[e0|a] s1] eqn:M]
      end.
      { intros r s1. unfold Eff.bind at 1. rewrite send_run.
        destruct (server (Eff.log s) GET_friends) as [ne|resp].
        - intros H. injection H as _ <-. reflexivity.
        - unfold Eff.bind, Eff.raise_for_status, Eff.json, Eff.typed, Eff.lift,
            Eff.ret, Eff.raise, Eff.get_mem, Eff.set_mem.
          destruct ((400 <=? status_code resp)%Z && (status_code resp <? 600)%Z)%bool;
            [intros H; injection H as _ <-; reflexivity|].
          destruct (body resp) as [b|]; [|intros H; injection H as _ <-; reflexivity].
          destruct (Main.py_iter b) as [e1|items];
            [intros H; injection H as _ <-; reflexivity|].
          destruct (Main.all_some (map Main.item_dict items)) as [ds|];
            [|intros H; injection H as _ <-; reflexivity].
          destruct (Main.all_some (map amigo_from_dict ds)) as [la|];
            intros H; injection H as _ <-; reflexivity. }
      * intros H.
        match type of H with
        | @Main.handlers ?A ?c ?t ?tb ?p _ _ = _ =>
            destruct (@handlers_raise A c t tb p e0 s1) as [e' He]
        end.
        rewrite He in H. injection H as _ <-. exact (L _ _ eq_refl).
      * intros H. discriminate H.
    + intros l H. discriminate H.
    + intros e0 H. injection H as <-. split; [exact K1|exact K2].
  - pose proof (cargar_amigos_ok server s s' l Run) as S. unfold sent in S.
    cbn [exchanges] in S.
    unfold Main.cargar_amigos in Run.
    apply try_except_inr in Run; [|apply handlers_escape].
    unfold Eff.bind at 1 in Run. rewrite send_run in Run.
    destruct (server (Eff.log s) GET_friends) as [ne|resp] eqn:E; [discriminate Run|].
    unfold Eff.bind, Eff.raise_for_status, Eff.json, Eff.typed, Eff.lift, Eff.ret,
      Eff.raise, Eff.get_mem, Eff.set_mem in Run.
    destruct ((400 <=? status_code resp)%Z && (status_code resp <? 600)%Z)%bool eqn:St;
      [discriminate Run|].
    destruct (body resp) as [b|] eqn:Hb; [|discriminate Run].
    destruct (Main.py_iter b) as [e1|items] eqn:Hi; [discriminate Run|].
    destruct (Main.all_some (map Main.item_dict items)) as [ds|] eqn:Hd;
      [|discriminate Run].
    destruct (Main.all_some (map amigo_from_dict ds)) as [la|] eqn:Ha;
      [|discriminate Run].
    injection Run as <- <-. cbn [Eff.mem Eff.log push].
    split; [reflexivity|]. split; [destruct (Eff.mem s); reflexivity|]. split.
    + intros l H. injection H as <-. split; [destruct (Eff.mem s); reflexivity|].
      exists resp, b, items, ds. split; [reflexivity|].
      split; [unfold is_ok; rewrite St; reflexivity|].
      repeat split; assumption.
    + intros e H. discriminate H.
Qed.

(** When the friend cannot be read from the store (no response, an error
    status, a body that is not a friend), [eliminar_amigo_async] deletes
    nothing: the read is the only request, its exception is raised as it
    is, and the in-memory group is unchanged. *)
Theorem eliminar_amigo_async_unreadable (gettext : string -> string)
    (format_currency : Q -> string)
    (format : string -> list (string * string) -> string)
    (server : Server) (amigo_id : PyId) (s : State) (e : Exn) :
  fst (Main.obtener_amigo server amigo_id s) = inl e ->
  MainController.eliminar_amigo_async gettext format_currency format server
    amigo_id s
  = (inl e,
     push s (GET_friend amigo_id, server (Eff.log s) (GET_friend amigo_id))).
Proof.
  intros H. unfold MainController.eliminar_amigo_async.
  unfold Eff.bind at 1, Eff.get_mem. unfold Eff.bind at 1.
  destruct (obtener_amigo_log server amigo_id s) as [r Hr].
  rewrite Hr in *. cbn [fst] in H. subst r. reflexivity.
Qed.

Lemma eliminar_amigo_async_unreadable_witness :
  MainController.eliminar_amigo_async sin_traducir euros sin_formato servidor_caido
    (Some 2%Z) s_amigos
  = (inl (PyException "No se puede conectar al servidor"),
     push s_amigos
       (GET_friend (Some 2%Z), NoResponse (NetConnection "Connection refused"))).
Proof.
  apply (eliminar_amigo_async_unreadable sin_traducir euros sin_formato
           servidor_caido (Some 2%Z) s_amigos).
  reflexivity.
Defined.

(** ** What the user is told *)

(** When the store cannot be reached or does not answer in time, the
    deletion of an expense fails with a text in which the callback finds
    neither [ConnectionError], [No se pudo conectar] nor [Timeout]: the
    user is shown the general message for a failed deletion, never the
    message for a connection failure or the one for a timeout. *)
Theorem eliminar_gasto_on_error_unclassified (gettext : string -> string)
    (format : string -> list (string * string) -> string)
    (server : Server) (gasto_id : PyId) (s : State) (ne : NetError) :
  server (Eff.log s) (DELETE_expense gasto_id) = NoResponse ne ->
  (forall m, ne <> NetOther m) ->
  exists e,
    fst (MainController.eliminar_gasto_async server gasto_id s) = inl e
    /\ MainController.eliminar_gasto_on_error gettext format e
       = MainController.mostrar_error
           (format (gettext "Error deleting expense: {error}")
                   [("error", exn_str e)]).
Proof.
  intros Hr Hn. unfold MainController.eliminar_gasto_async, Eff.bind.
  rewrite eliminar_gasto_run. cbv zeta. rewrite Hr. cbn [is_ok fst].
  destruct ne as [m|m|m].
  - eexists. split; [reflexivity|]. reflexivity.
  - eexists. split; [reflexivity|]. reflexivity.
  - destruct (Hn m eq_refl).
Qed.

Lemma eliminar_gasto_on_error_unclassified_witness :
  exists e,
    fst (MainController.eliminar_gasto_async servidor_caido (Some 7%Z) s_cena) = inl e
    /\ MainController.eliminar_gasto_on_error sin_traducir sin_formato e
       = MainController.mostrar_error "Error deleting expense: {error}".
Proof.
  destruct (eliminar_gasto_on_error_unclassified sin_traducir sin_formato
              servidor_caido (Some 7%Z) s_cena
              (NetConnection "Connection refused") eq_refl)
    as (e & H1 & H2).
  - intros m H. discriminate H.
  - exists e. split; [exact H1|exact H2].
Defined.

Lemma find_gasto_none (l : list Gasto.t) (gasto_id : PyId) :
  ~ In gasto_id (map Gasto.id l) -> Main.find_gasto l gasto_id = None.
Proof.
  induction l as [|g t IH]; intros H; [reflexivity|]. cbn [Main.find_gasto].
  destruct (id_eqb (Gasto.id g) gasto_id) eqn:E.
  - apply id_eqb_eq in E. exfalso. apply H. left. exact E.
  - apply IH. intros C. apply H. right. exact C.
Qed.

(** Editing an expense that is not in memory sends nothing, even if the
    store has it: it raises [Gasto no encontrado] and changes nothing. *)
Theorem update_gasto_not_in_memory (server : Server) (gasto_id : PyId)
    (nuevos_datos : NuevosDatos.t) (s : State) :
  ~ In gasto_id (map Gasto.id (Main.gastos (Eff.mem s))) ->
  Main.update_gasto server gasto_id nuevos_datos s
  = (inl (PyException "Gasto no encontrado"), s).
Proof.
  intros H. unfold Main.update_gasto, Eff.try_except, Eff.bind, Eff.get_mem.
  rewrite (find_gasto_none _ _ H). reflexivity.
Qed.

Lemma update_gasto_not_in_memory_witness :
  Main.update_gasto servidor_cena (Some 8%Z) (solo_monto 60) s_cena
  = (inl (PyException "Gasto no encontrado"), s_cena).
Proof.
  apply (update_gasto_not_in_memory servidor_cena (Some 8%Z) (solo_monto 60) s_cena).
  simpl. intros [H|[]]. discriminate H.
Defined.

(** ** More statements on concrete runs *)

(** The store refuses to delete expense 8; a store that accepts deletes
    it and nothing else. *)
Lemma eliminar_gasto_effect_witness :
  fst (Main.eliminar_gasto rechaza_gasto_8 (Some 8%Z) s_tres_gastos)
  = inl (PyException "El gasto no existe")
  /\ (In hotel
         (Main.gastos (Eff.mem (snd (Main.eliminar_gasto acepta (Some 8%Z)
                                       s_tres_gastos))))
      <-> In hotel [cena; taxi; hotel] /\ Gasto.id hotel <> Some 8%Z).
Proof.
  split.
  - apply (proj2 (proj2 (proj2 (proj2 (eliminar_gasto_effect rechaza_gasto_8
             (Some 8%Z) s_tres_gastos)) eq_refl))
             (mkResponse 404 "404 Client Error: Not Found" None)); reflexivity.
  - apply (proj2 (proj2 (proj1 (proj2 (eliminar_gasto_effect acepta (Some 8%Z)
                                         s_tres_gastos)) eq_refl)) hotel).
Defined.

(** Three expenses, the store refuses to delete the second: the first is
    deleted, the third is never tried. *)
Lemma eliminar_todos_gastos_stops_at_refusal_witness :
  exists hechos resto,
    [Some 7%Z; Some 8%Z; Some 9%Z] = hechos ++ resto
    /\ Main.gastos
         (Eff.mem (snd (MainController.eliminar_todos_gastos sin_traducir
                          rechaza_gasto_8 s_tres_gastos)))
       = filter (fun g => negb (id_in (Gasto.id g) hechos)) [cena; taxi; hotel].
Proof.
  destruct (proj2 (eliminar_todos_gastos_stops_at_refusal sin_traducir
                     rechaza_gasto_8 s_tres_gastos))
    as (hechos & resto & Eq & _ & _ & G & _).
  - discriminate.
  - exists hechos, resto. split; [exact Eq|exact G].
Defined.

Example eliminar_todos_gastos_taxi :
  MainController.eliminar_todos_gastos sin_traducir rechaza_gasto_8 s_tres_gastos
  = (inl (PyException "El gasto no existe"),
     mkState (Main.mk 1 "Grupo Principal" [] [taxi; hotel])
       [(DELETE_expense (Some 7%Z), ok None);
        (DELETE_expense (Some 8%Z), ko 404 "404 Client Error: Not Found")]).
Proof. reflexivity. Qed.

(** An expense with a payer and no participant, on a store that accepts
    everything. *)
Lemma add_gasto_sin_participantes_witness :
  fst (Main.add_gasto acepta "2024-01-15" "Cena" 100 (Some 1%Z) [] s_vacio)
  = inl ZeroDivisionError
  /\ requests (Eff.log (snd (Main.add_gasto acepta "2024-01-15" "Cena" 100 (Some 1%Z)
                               [] s_vacio)))
     = [POST_expenses "Cena" 100 "2024-01-15";
        POST_expense_friends (Some 7%Z) (Some 1%Z);
        PUT_expense_friend (Some 7%Z) (Some 1%Z) 100].
Proof.
  rewrite (add_gasto_sin_participantes acepta "2024-01-15" "Cena" 100 (Some 1%Z)
             s_vacio
             (mkResponse 200 "OK" (Some (expense_json 7 "Cena" 100 "2024-01-15")))
             [("id", VInt 7); ("description", VStr "Cena");
              ("amount", VFloat 100); ("date", VStr "2024-01-15")]
             (Gasto.mk (Some 7%Z) (Some "Cena") 100 (Some "2024-01-15") None [] 0 1)
             eq_refl eq_refl eq_refl eq_refl eq_refl eq_refl).
  split; reflexivity.
Defined.

(** The participants of expense 7 go from 1 and 2 to 2 and 3. *)
Lemma update_gasto_participant_changes_witness :
  exists (actuales : list PyId) (new : list Exchange),
    Eff.log (snd (Main.update_gasto servidor_cena (Some 7%Z)
                    (NuevosDatos.mk None None None (Some [Some 2%Z; Some 3%Z]) None)
                    s_cena))
    = [] ++ new
    /\ filter is_cambio_participante (requests new)
       = map (DELETE_expense_friend (Some 7%Z))
             (filter (fun x => negb (id_in x [Some 2%Z; Some 3%Z])) actuales)
         ++ map (POST_expense_friends (Some 7%Z))
                (filter (fun x => negb (id_in x actuales)) [Some 2%Z; Some 3%Z]).
Proof.
  destruct (update_gasto_participant_changes servidor_cena (Some 7%Z)
              (NuevosDatos.mk None None None (Some [Some 2%Z; Some 3%Z]) None)
              s_cena
              (snd (Main.update_gasto servidor_cena (Some 7%Z)
                      (NuevosDatos.mk None None None (Some [Some 2%Z; Some 3%Z]) None)
                      s_cena))
              cena eq_refl eq_refl)
    as (actuales & new & L & _ & C).
  exists actuales, new. split; [exact L|exact C].
Defined.

(** A payer who is not among the participants is written to nowhere. *)
Lemma recalcular_writes_witness :
  escrituras
    (exchanges acepta []
       (map (fun x => PUT_expense_friend (Some 7%Z) x
                        (if id_eqb x (Some 1%Z)
                         then 100 - 100 / len [Some 2%Z; Some 3%Z] else 0))
            [Some 2%Z; Some 3%Z]))
  = [(Some 7%Z, Some 2%Z, 0); (Some 7%Z, Some 3%Z, 0)].
Proof.
  apply (proj2 (proj2 (recalcular_writes acepta (Some 7%Z) 100 (Some 1%Z)
                         [Some 2%Z; Some 3%Z] s_vacio))).
  reflexivity.
Defined.


(** The store is down. *)
Lemma pagar_saldo_failure_keeps_group_witness :
  Eff.mem (snd (Main.pagar_saldo servidor_caido (Some 2%Z) 5 s_amigos))
  = Eff.mem s_amigos
  /\ is_request_exception (PyException "No se puede conectar al servidor") = false.
Proof.
  apply (pagar_saldo_failure_keeps_group servidor_caido (Some 2%Z) 5 s_amigos).
  reflexivity.
Defined.

(** The store is down: the friends in memory are kept. *)
Lemma cargar_amigos_effect_witness :
  Eff.mem (snd (Main.cargar_amigos servidor_caido s_amigos)) = Eff.mem s_amigos
  /\ Main.amigos (Eff.mem (snd (Main.cargar_amigos servidor_deudas s_amigos))) = [].
Proof.
  split.
  - apply (proj2 (proj2 (proj2 (cargar_amigos_effect servidor_caido s_amigos)))
             (PyException
                "No se puede conectar al servidor. Verifica que el servidor esté ejecutándose en http://localhost:8000")).
    reflexivity.
  - apply (proj1 (proj2 (proj2 (cargar_amigos_effect servidor_deudas s_amigos)))
             []).
    reflexivity.
Defined.

Example contiene_examples :
  MainController.contiene "Timeout" "Read Timeout after 5 s" = true
  /\ MainController.contiene "Timeout" "El servidor tardó demasiado en responder" = false
  /\ MainController.contiene "" "" = true.
Proof. repeat split. Qed.

(** A Brazilian locale with no catalogue installed: the language is [pt],
    the locale keeps the country, the symbol is the euro and messages stay
    as they are. *)
Example set_language_pt_BR :
  let self :=
    TranslationManager.set_language sin_catalogo TranslationManager.init
      (Some "pt_BR") None in
  TranslationManager.get_current_language self = Some "pt"
  /\ TranslationManager.get_locale self = "pt_BR.UTF-8"
  /\ TranslationManager.get_currency_symbol self = "€"
  /\ TranslationManager.translate self "Cancel" = "Cancel".
Proof. repeat split. Qed.

(** A payment of nothing. *)
Lemma pagar_saldo64_nothing_to_pay_witness :
  exists new : list Exchange,
    Eff.log (snd (Main.pagar_saldo64 servidor_cuatro_deudas (Some 3%Z) 0 s_vacio))
    = [] ++ new
    /\ requests new = [GET_friend_expenses (Some 3%Z); GET_friends]
    /\ creditos new = [].
Proof.
  apply (pagar_saldo64_nothing_to_pay servidor_cuatro_deudas (Some 3%Z) 0 s_vacio
           (snd (Main.pagar_saldo64 servidor_cuatro_deudas (Some 3%Z) 0 s_vacio))).
  - discriminate.
  - reflexivity.
Defined.

(** The primitive floats of the machine give the same last increment for
    the payment of 72.29: three subtractions of doubles. *)
Example resta_de_la_maquina :
  let doble q := FloatOps.SF2Prim (binary64 q) in
  valor
    (FloatOps.Prim2SF
       (PrimFloat.sub
          (PrimFloat.sub
             (PrimFloat.sub (doble (7229 # 100)) (doble (2074 # 100)))
             (doble (2778 # 100)))
          (doble (1748 # 100))))
  = Some (1770477603510029 # 281474976710656)
  /\ redondea
       (redondea
          (redondea (redondea (7229 # 100) - redondea (2074 # 100))
           - redondea (2778 # 100))
        - redondea (1748 # 100))
     = 1770477603510029 # 281474976710656.
Proof. split; vm_compute; reflexivity. Qed.
